(** * DeployTab: the deployment job lifecycle of the web UI

    A shallow embedding of the [DeployTab] React component
    (file selection, upload, launch, status polling, reset) together with
    the JavaScript string operations it relies on, of the other tabs and
    of the page that mounts and unmounts them, and the properties of
    the deployment workflow established on that embedding. *)

From Stdlib Require Import String Ascii List Bool Arith Lia.
Import ListNotations.

Local Open Scope string_scope.
Local Open Scope list_scope.

(** ** JavaScript string operations

    Strings are sequences of bytes (the UTF-8 encoding of the JavaScript
    string).  The patterns the component searches for are ASCII, so
    searching bytes and searching UTF-16 code units find the same
    occurrences.  [toLowerCase] maps the ASCII capital letters and leaves
    every other byte as it is: on a string of ASCII characters it is
    the JavaScript [toLowerCase]; on other strings JavaScript also maps
    letters outside ASCII, which can even change the length, and that
    is not modelled.  What is stated below about lowercasing is stated
    for ASCII strings. *)

Module JsString.

(** [s.endsWith(t)] *)
Definition endsWith (s t : string) : bool :=
  let n := String.length s in
  let m := String.length t in
  (m <=? n)%nat && String.eqb (substring (n - m) m s) t.

(** [s.startsWith(t)] *)
Fixpoint startsWith (s t : string) {struct t} : bool :=
  match t with
  | EmptyString => true
  | String b t' =>
      match s with
      | EmptyString => false
      | String a s' => Ascii.eqb a b && startsWith s' t'
      end
  end.

(** Drop the first [n] bytes. *)
Fixpoint drop (n : nat) (s : string) : string :=
  match n, s with
  | O, _ => s
  | S _, EmptyString => EmptyString
  | S n', String _ s' => drop n' s'
  end.

(** [s.replace(pat, rep)] with a string pattern: only the first
    occurrence of [pat] is replaced ([rep] holds no [$] pattern here). *)
Fixpoint replace (pat rep s : string) : string :=
  if startsWith s pat then (rep ++ drop (String.length pat) s)%string
  else match s with
       | EmptyString => EmptyString
       | String a s' => String a (replace pat rep s')
       end.

(** [s.indexOf(pat)], with [None] for -1. *)
Fixpoint indexOf (pat s : string) : option nat :=
  if startsWith s pat then Some 0
  else match s with
       | EmptyString => None
       | String _ s' => option_map S (indexOf pat s')
       end.

Definition lowerAscii (a : ascii) : ascii :=
  let n := nat_of_ascii a in
  if ((65 <=? n) && (n <=? 90))%nat then ascii_of_nat (n + 32) else a.

(** [s.toLowerCase()] for a string of ASCII characters. *)
Fixpoint toLowerCase (s : string) : string :=
  match s with
  | EmptyString => EmptyString
  | String a s' => String (lowerAscii a) (toLowerCase s')
  end.

(** JavaScript truthiness of a value that is a string, [null] or
    [undefined]: only a non-empty string is truthy. *)
Definition truthy (v : option string) : bool :=
  match v with
  | Some s => negb (String.eqb s "")
  | None => false
  end.

(** A value interpolated into a template literal. *)
Definition interpolate (v : option string) : string :=
  match v with
  | Some s => s
  | None => "undefined"
  end.

End JsString.

Import JsString.

(** ** Data of the component *)

(** The browser's [File] object, as far as the component reads it. *)
Record File := { name : string; size : nat }.

(** An error thrown by an [axios] call: [err.response?.data?.detail]
    (absent when the chain is undefined) and [err.message]. *)
Record AxiosError := { err_detail : option string; err_message : string }.

(** How an awaited request settles. *)
Inductive outcome (A : Type) : Type :=
| Resolved (a : A)
| Rejected (e : AxiosError).
Arguments Resolved {A} a.
Arguments Rejected {A} e.

(** [response.data] of the three endpoints. *)
Record UploadResponse := { upload_id : string }.
Record StartResponse := { deployment_id : string }.
Record StatusResponse :=
  { resp_status : string;
    resp_message : option string;
    resp_url : option string }.

(** The requests the component sends. *)
Inductive request :=
| UploadReq (f : File)                         (* POST /api/deploy/upload *)
| StartReq (uploadId appName : string)         (* POST /api/deploy/start *)
| StatusReq (id : string).                     (* GET /api/deploy/status/id *)

Definition isStartReq (r : request) : bool :=
  match r with StartReq _ _ => true | _ => false end.

Definition isStatusReq (r : request) : bool :=
  match r with StatusReq _ => true | _ => false end.

(** The [useState] cells of [DeployTab]. *)
Record DeployState :=
  { file : option File;
    deploying : bool;
    deploymentId : option string;
    status : option string;
    logs : list string;
    error : option string;
    dragOver : bool }.

(** The component together with what lives outside React: the active
    [setInterval] timers (each with the deployment id its callback
    captured), the status requests that were sent and have not settled
    yet (by the timer that sent them), every request sent so far (oldest
    first) and what was written to the console. *)
Record World :=
  { ui : DeployState;
    timers : list (nat * string);
    nextTimer : nat;
    inflight : list nat;
    sent : list request;
    console : list string }.

Definition initialState : DeployState :=
  {| file := None; deploying := false; deploymentId := None;
     status := None; logs := []; error := None; dragOver := false |}.

Definition initialWorld : World :=
  {| ui := initialState; timers := []; nextTimer := 0;
     inflight := []; sent := []; console := [] |}.

(** ** State setters *)

Definition withUi (g : DeployState -> DeployState) (w : World) : World :=
  {| ui := g (ui w); timers := timers w; nextTimer := nextTimer w;
     inflight := inflight w; sent := sent w; console := console w |}.

Definition setFile (v : option File) : World -> World :=
  withUi (fun s =>
    {| file := v; deploying := deploying s; deploymentId := deploymentId s;
       status := status s; logs := logs s; error := error s;
       dragOver := dragOver s |}).

Definition setDeploying (v : bool) : World -> World :=
  withUi (fun s =>
    {| file := file s; deploying := v; deploymentId := deploymentId s;
       status := status s; logs := logs s; error := error s;
       dragOver := dragOver s |}).

Definition setDeploymentId (v : option string) : World -> World :=
  withUi (fun s =>
    {| file := file s; deploying := deploying s; deploymentId := v;
       status := status s; logs := logs s; error := error s;
       dragOver := dragOver s |}).

Definition setStatus (v : option string) : World -> World :=
  withUi (fun s =>
    {| file := file s; deploying := deploying s; deploymentId := deploymentId s;
       status := v; logs := logs s; error := error s;
       dragOver := dragOver s |}).

Definition setLogs (g : list string -> list string) : World -> World :=
  withUi (fun s =>
    {| file := file s; deploying := deploying s; deploymentId := deploymentId s;
       status := status s; logs := g (logs s); error := error s;
       dragOver := dragOver s |}).

Definition setError (v : option string) : World -> World :=
  withUi (fun s =>
    {| file := file s; deploying := deploying s; deploymentId := deploymentId s;
       status := status s; logs := logs s; error := v;
       dragOver := dragOver s |}).

Definition setDragOver (v : bool) : World -> World :=
  withUi (fun s =>
    {| file := file s; deploying := deploying s; deploymentId := deploymentId s;
       status := status s; logs := logs s; error := error s;
       dragOver := v |}).

(** [setLogs(prev => [...prev, line])] *)
Definition pushLog (line : string) : World -> World :=
  setLogs (fun prev => prev ++ [line]).

(** ** Effects outside React *)

(** An [axios] call leaves the browser. *)
Definition send (r : request) (w : World) : World :=
  {| ui := ui w; timers := timers w; nextTimer := nextTimer w;
     inflight := inflight w; sent := sent w ++ [r]; console := console w |}.

(** [console.error('Status check error:', err)] *)
Definition consoleError (line : string) (w : World) : World :=
  {| ui := ui w; timers := timers w; nextTimer := nextTimer w;
     inflight := inflight w; sent := sent w; console := console w ++ [line] |}.

(** [setInterval(callback, 3000)]: a fresh timer whose callback captured [id]. *)
Definition setInterval (id : string) (w : World) : World :=
  {| ui := ui w; timers := timers w ++ [(nextTimer w, id)];
     nextTimer := S (nextTimer w);
     inflight := inflight w; sent := sent w; console := console w |}.

(** [clearInterval(interval)] *)
Definition clearInterval (k : nat) (w : World) : World :=
  {| ui := ui w;
     timers := filter (fun t => negb (Nat.eqb (fst t) k)) (timers w);
     nextTimer := nextTimer w;
     inflight := inflight w; sent := sent w; console := console w |}.

(** The deployment id captured by the callback of timer [k], when that
    timer is active. *)
Fixpoint timerId (k : nat) (ts : list (nat * string)) : option string :=
  match ts with
  | [] => None
  | (k', id) :: ts' => if Nat.eqb k' k then Some id else timerId k ts'
  end.

(** Take one request of timer [k] out of those in flight. *)
Fixpoint takeInflight (k : nat) (l : list nat) : option (list nat) :=
  match l with
  | [] => None
  | k' :: l' =>
      if Nat.eqb k' k then Some l'
      else match takeInflight k l' with
           | Some r => Some (k' :: r)
           | None => None
           end
  end.

Definition setInflight (l : list nat) (w : World) : World :=
  {| ui := ui w; timers := timers w; nextTimer := nextTimer w;
     inflight := l; sent := sent w; console := console w |}.

(** ** The handlers of [DeployTab] *)

Notation "w |> g" := (g w) (at level 45, left associativity, only parsing).

Definition selectError : string :=
  "Please select a valid .zip file containing your project".

Definition noFileError : string := "Please select a file first".

(** [handleFileSelect(selectedFile)]; [None] is an [undefined] argument. *)
Definition handleFileSelect (selectedFile : option File) (w : World) : World :=
  match selectedFile with
  | Some f =>
      if endsWith (name f) ".zip"
      then w |> setFile (Some f) |> setError None
      else w |> setError (Some selectError)
  | None => w |> setError (Some selectError)
  end.

(** [handleDrop(e)], with [e.dataTransfer.files] as a list. *)
Definition handleDrop (files : list File) (w : World) : World :=
  w |> setDragOver false |> handleFileSelect (hd_error files).

(** The [app_name] sent to the launch endpoint:
    [file.name.replace('.zip', '').toLowerCase()]. *)
Definition appName (f : File) : string :=
  toLowerCase (replace ".zip" "" (name f)).

(** [err.response?.data?.detail || err.message] *)
Definition errorText (err : AxiosError) : string :=
  if truthy (err_detail err) then interpolate (err_detail err)
  else err_message err.

(** The [catch] block of [handleDeploy]. *)
Definition deployFailed (err : AxiosError) (w : World) : World :=
  w |> setError (Some (errorText err))
    |> setStatus (Some "failed")
    |> pushLog ("❌ Deployment failed: " ++ err_message err)%string.

(** [pollDeploymentStatus(id)]: starts the timer and returns. *)
Definition pollDeploymentStatus (id : string) (w : World) : World :=
  w |> setInterval id.

(** The [try] block of [handleDeploy] for the selected file [f]; [up]
    and [st] are how the upload and the launch request settle ([st] is
    looked at only if the launch request is sent). *)
Definition deploySteps (f : File) (up : outcome UploadResponse)
  (st : outcome StartResponse) (w : World) : World :=
  let w := w |> pushLog "📦 Uploading project files..."
             |> send (UploadReq f) in
  match up with
  | Rejected err => w |> deployFailed err
  | Resolved uploadResponse =>
      let w := w |> pushLog "✅ Upload complete"
                 |> setStatus (Some "building")
                 |> pushLog "🔨 Building Docker image..."
                 |> send (StartReq (upload_id uploadResponse) (appName f)) in
      match st with
      | Rejected err => w |> deployFailed err
      | Resolved deployResponse =>
          w |> setDeploymentId (Some (deployment_id deployResponse))
            |> pushLog "🚀 Deploying to Azure Container Instances..."
            |> pollDeploymentStatus (deployment_id deployResponse)
      end
  end.

(** [handleDeploy()] when its two awaits settle before anything else
    happens: one submission from the click to [finally].  The handler
    taken apart at its awaits, with other events coming between them,
    is [handleDeploy_start], [handleDeploy_uploaded] and
    [handleDeploy_launched] of the page below. *)
Definition handleDeploy (up : outcome UploadResponse)
  (st : outcome StartResponse) (w : World) : World :=
  match file (ui w) with
  | None => w |> setError (Some noFileError)
  | Some f =>
      w |> setDeploying true
        |> setError None
        |> setLogs (fun _ => [])
        |> setStatus (Some "uploading")
        |> deploySteps f up st
        |> setDeploying false
  end.

(** The timer callback up to its [await]: timer [k] fires and the status
    request leaves.  A timer that is not active does not fire. *)
Definition pollRequest (k : nat) (w : World) : option World :=
  match timerId k (timers w) with
  | Some id => Some (w |> send (StatusReq id) |> setInflight (inflight w ++ [k]))
  | None => None
  end.

(** The timer callback after its [await]: the status request of timer
    [k] has settled with [o]. *)
Definition pollSettled (k : nat) (o : outcome StatusResponse) (w : World) : World :=
  match o with
  | Resolved data =>
      if String.eqb (resp_status data) "succeeded" then
        w |> setStatus (Some "succeeded")
          |> pushLog "✅ Deployment successful!"
          |> pushLog ("🌐 Your app is live at: " ++ interpolate (resp_url data))%string
          |> clearInterval k
      else if String.eqb (resp_status data) "failed" then
        w |> setStatus (Some "failed")
          |> pushLog "❌ Deployment failed"
          |> clearInterval k
      else if truthy (resp_message data) then
        w |> pushLog (interpolate (resp_message data))
      else w
  | Rejected err =>
      w |> consoleError ("Status check error: " ++ err_message err)%string
        |> clearInterval k
  end.

(** The [onClick] of the 'Deploy Another App' button. *)
Definition resetClick (w : World) : World :=
  w |> setFile None
    |> setDeploymentId None
    |> setStatus None
    |> setLogs (fun _ => []).

(** ** What is rendered *)

(** [status === v] *)
Definition statusIs (v : string) (s : DeployState) : bool :=
  match status s with
  | Some x => String.eqb x v
  | None => false
  end.

(** [!deploymentId]: the upload area (file input and drop zone) is rendered. *)
Definition uploadAreaShown (s : DeployState) : bool :=
  negb (truthy (deploymentId s)).

(** The deploy button is rendered (inside the upload area, when a file
    is selected) and not disabled. *)
Definition deployButtonEnabled (s : DeployState) : bool :=
  uploadAreaShown s
  && match file s with Some _ => true | None => false end
  && negb (deploying s).

(** The 'Deploy Another App' button is rendered: the log card is shown
    ([logs.length > 0]) and [status === 'succeeded']. *)
Definition resetButtonShown (s : DeployState) : bool :=
  (0 <? List.length (logs s))%nat && statusIs "succeeded" s.

(** ** Events and runs *)

Inductive event :=
| SelectFile (selected : option File)        (* onChange of the file input *)
| DropFiles (files : list File)               (* onDrop *)
| DragOver                                   (* onDragOver *)
| DragLeave                                  (* onDragLeave *)
| ClickDeploy (up : outcome UploadResponse) (st : outcome StartResponse)
| Tick (k : nat)                             (* timer k fires *)
| PollSettled (k : nat) (o : outcome StatusResponse)
| ClickReset.

(** One event; [None] when it cannot happen in [w] (the control is not
    rendered or is disabled, the timer is not active, no request of the
    timer is in flight). *)
Definition step (e : event) (w : World) : option World :=
  match e with
  | SelectFile selected =>
      if uploadAreaShown (ui w) then Some (handleFileSelect selected w) else None
  | DropFiles files =>
      if uploadAreaShown (ui w) then Some (handleDrop files w) else None
  | DragOver =>
      if uploadAreaShown (ui w) then Some (setDragOver true w) else None
  | DragLeave =>
      if uploadAreaShown (ui w) then Some (setDragOver false w) else None
  | ClickDeploy up st =>
      if deployButtonEnabled (ui w) then Some (handleDeploy up st w) else None
  | Tick k => pollRequest k w
  | PollSettled k o =>
      match takeInflight k (inflight w) with
      | Some rest => Some (w |> setInflight rest |> pollSettled k o)
      | None => None
      end
  | ClickReset =>
      if resetButtonShown (ui w) then Some (resetClick w) else None
  end.

Fixpoint run (es : list event) (w : World) : option World :=
  match es with
  | [] => Some w
  | e :: es' =>
      match step e w with
      | Some w' => run es' w'
      | None => None
      end
  end.

(** ** The rule stated by the specification for the app name *)

(** Remove a trailing [suffix], if there is one. *)
Definition stripSuffix (suffix s : string) : string :=
  if endsWith s suffix
  then substring 0 (String.length s - String.length suffix) s
  else s.

(** The app name as the specification words it: the declared name
    lowercased, with its trailing '.zip' stripped. *)
Definition appName_spec (f : File) : string :=
  stripSuffix ".zip" (toLowerCase (name f)).

(** ** Scenarios *)

Definition myApp : File := {| name := "My App.zip"; size := 1024 |}.
Definition backupZip : File := {| name := "site.zip.backup.zip"; size := 2048 |}.
Definition notesTxt : File := {| name := "notes.txt"; size := 10 |}.

Definition okUpload : outcome UploadResponse := Resolved {| upload_id := "u-1" |}.
Definition okStart : outcome StartResponse := Resolved {| deployment_id := "d-1" |}.
Definition networkError : AxiosError :=
  {| err_detail := None; err_message := "Network Error" |}.

Definition running (m : string) : outcome StatusResponse :=
  Resolved {| resp_status := "running"; resp_message := Some m; resp_url := None |}.
Definition succeeded (u : string) : outcome StatusResponse :=
  Resolved {| resp_status := "succeeded"; resp_message := None; resp_url := Some u |}.
Definition failed : outcome StatusResponse :=
  Resolved {| resp_status := "failed"; resp_message := None; resp_url := None |}.

(** A file is selected and deployed; upload and launch succeed, so the
    session is polling with timer 0. *)
Definition launched : list event :=
  [SelectFile (Some myApp); ClickDeploy okUpload okStart].

(** The first status request throws. *)
Definition pollThrows : list event :=
  launched ++ [Tick 0; PollSettled 0 (Rejected networkError)].

(** Two status requests are in flight and both report success. *)
Definition twoSuccesses : list event :=
  launched ++ [Tick 0; Tick 0;
               PollSettled 0 (succeeded "http://x.test");
               PollSettled 0 (succeeded "http://x.test")].

(** The upload request throws. *)
Definition uploadThrows : list event :=
  [SelectFile (Some myApp); ClickDeploy (Rejected networkError) okStart].

(** The status endpoint reports that the deployment failed. *)
Definition remoteFailure : list event :=
  launched ++ [Tick 0; PollSettled 0 failed].

(** Two running responses have arrived and a third status request is in
    flight. *)
Definition happyPath : list event :=
  [Tick 0; PollSettled 0 (running "building image");
   Tick 0; PollSettled 0 (running "starting container"); Tick 0].

(** The world a run from the initial state ends in (the initial world
    itself when some event of the run cannot happen). *)
Definition after (es : list event) : World :=
  match run es initialWorld with
  | Some w => w
  | None => initialWorld
  end.

(** ** Predicates used in the statements *)


(** A status response that takes the last branch of the poll callback
    ('still in progress'). *)
Definition isRunning (data : StatusResponse) : bool :=
  negb (String.eqb (resp_status data) "succeeded")
  && negb (String.eqb (resp_status data) "failed").

(** Events of a polling phase in which no response is terminal: timer
    firings and running responses. *)
Definition pollingEvent (e : event) : bool :=
  match e with
  | Tick _ => true
  | PollSettled _ (Resolved data) => isRunning data
  | _ => false
  end.

(** The messages carried by the status responses of [es], in the order
    the responses arrived.  A response whose [message] is absent or the
    empty string carries none. *)
Definition receivedMessages (es : list event) : list string :=
  flat_map (fun e =>
    match e with
    | PollSettled _ (Resolved data) =>
        match resp_message data with
        | Some m => if String.eqb m "" then [] else [m]
        | None => []
        end
    | _ => []
    end) es.

(** An outcome on which the poll callback clears its timer. *)
Definition haltingOutcome (o : outcome StatusResponse) : bool :=
  match o with
  | Resolved data => negb (isRunning data)
  | Rejected _ => true
  end.

Definition isClickDeploy (e : event) : bool :=
  match e with ClickDeploy _ _ => true | _ => false end.

(** The launch requests among [l]. *)
Definition startRequests (l : list request) : list request :=
  filter isStartReq l.

(** The status requests among [l]. *)
Definition statusRequests (l : list request) : list request :=
  filter isStatusReq l.

(** Every file named in [w] (the selected one and those uploaded) has a
    name ending in '.zip'. *)
Definition zipOnly (w : World) : Prop :=
  (forall f, file (ui w) = Some f -> endsWith (name f) ".zip" = true)
  /\ (forall f, In (UploadReq f) (sent w) -> endsWith (name f) ".zip" = true).

(** Timer ids are handed out in increasing order: every active timer and
    every request in flight belongs to a timer already created. *)
Definition timersFresh (w : World) : Prop :=
  (forall k id, In (k, id) (timers w) -> k < nextTimer w)
  /\ (forall k, In k (inflight w) -> k < nextTimer w).

(** ** Further notions for the deployment tab *)

(** The requests one submission of the selected file [f] sends: the
    upload, and the launch when the upload has resolved. *)
Definition deployRequests (f : File) (up : outcome UploadResponse) : list request :=
  UploadReq f ::
  match up with
  | Resolved uploadResponse => [StartReq (upload_id uploadResponse) (appName f)]
  | Rejected _ => []
  end.

(** The deployment ids the launch endpoint returned in [es]. *)
Definition launchedIds (es : list event) : list string :=
  flat_map (fun e =>
    match e with
    | ClickDeploy (Resolved _) (Resolved deployResponse) =>
        [deployment_id deployResponse]
    | _ => []
    end) es.

(** The events that replace the message log instead of extending it. *)
Definition replacesLog (e : event) : bool :=
  match e with
  | ClickDeploy _ _ | ClickReset => true
  | _ => false
  end.

Definition isUpperAscii (a : ascii) : bool :=
  let n := nat_of_ascii a in ((65 <=? n) && (n <=? 90))%nat.

(** Every byte of [s] is an ASCII character.  On such strings the bytes
    are the UTF-16 code units, [String.length] is the JavaScript
    [length], and [toLowerCase] above is the JavaScript [toLowerCase]. *)
Fixpoint isAscii (s : string) : bool :=
  match s with
  | EmptyString => true
  | String a s' => (nat_of_ascii a <? 128)%nat && isAscii s'
  end.

(** Some byte of [s] is an ASCII capital letter. *)
Fixpoint hasUpperAscii (s : string) : bool :=
  match s with
  | EmptyString => false
  | String a s' => isUpperAscii a || hasUpperAscii s'
  end.


(** The timers and the status requests of [w] all carry an id of [ids]. *)
Definition idsKnown (ids : list string) (w : World) : Prop :=
  (forall k id, In (k, id) (timers w) -> In id ids)
  /\ (forall id, In (StatusReq id) (sent w) -> In id ids).

(** * The other tabs *)

(** ** AgentTab: direct agent actions *)

Module AgentTab.

(** [response.data], kept as the JSON text. *)
Definition Json := string.

(** An entry of the [agents] table, as far as the handlers read it. *)
Record Agent := { id : string; endpoint : string }.

Definition agents : list Agent :=
  [ {| id := "optimize"; endpoint := "optimize/resources" |};
    {| id := "cost"; endpoint := "analyze/costs" |};
    {| id := "security"; endpoint := "check/security" |} ].

(** A JavaScript object with string keys, in insertion order. *)
Definition Obj := list (string * Json).

(** [o[k]] *)
Fixpoint objGet (k : string) (o : Obj) : option Json :=
  match o with
  | [] => None
  | (k', v) :: o' => if String.eqb k' k then Some v else objGet k o'
  end.

(** [{ ...o, [k]: v }]: an existing key keeps its place and takes the
    new value, a new key goes last. *)
Fixpoint objSet (k : string) (v : Json) (o : Obj) : Obj :=
  match o with
  | [] => [(k, v)]
  | (k', v') :: o' =>
      if String.eqb k' k then (k, v) :: o' else (k', v') :: objSet k v o'
  end.

(** The [useState] cells of [AgentTab]. *)
Record State :=
  { resourceGroup : string;
    loading : option string;
    results : Obj;
    error : option string }.

(** [axios.post(url, { resource_group })] *)
Record Request := { url : string; resource_group : string }.

(** The component, the calls of [callAgent] that await their response
    (by agent type, oldest first) and the requests sent so far. *)
Record World :=
  { ui : State;
    pending : list string;
    sent : list Request }.

Definition initialState : State :=
  {| resourceGroup := "agentic-rg"; loading := None; results := [];
     error := None |}.

Definition initialWorld : World :=
  {| ui := initialState; pending := []; sent := [] |}.

Definition withUi (g : State -> State) (w : World) : World :=
  {| ui := g (ui w); pending := pending w; sent := sent w |}.

Definition setResourceGroup (v : string) : World -> World :=
  withUi (fun s =>
    {| resourceGroup := v; loading := loading s; results := results s;
       error := error s |}).

Definition setLoading (v : option string) : World -> World :=
  withUi (fun s =>
    {| resourceGroup := resourceGroup s; loading := v; results := results s;
       error := error s |}).

Definition setResults (g : Obj -> Obj) : World -> World :=
  withUi (fun s =>
    {| resourceGroup := resourceGroup s; loading := loading s;
       results := g (results s); error := error s |}).

Definition setError (v : option string) : World -> World :=
  withUi (fun s =>
    {| resourceGroup := resourceGroup s; loading := loading s;
       results := results s; error := v |}).

Definition post (r : Request) (w : World) : World :=
  {| ui := ui w; pending := pending w; sent := sent w ++ [r] |}.

Definition setPending (l : list string) (w : World) : World :=
  {| ui := ui w; pending := l; sent := sent w |}.

(** [callAgent(agentType, endpoint)] up to its [await]. *)
Definition callAgent_start (agentType endpoint : string) (w : World) : World :=
  w |> setLoading (Some agentType)
    |> setError None
    |> post {| url := ("/api/" ++ endpoint)%string;
               resource_group := resourceGroup (ui w) |}
    |> setPending (pending w ++ [agentType]).

(** [callAgent(agentType, endpoint)] after its [await]: the [try] or the
    [catch] branch, then [finally]. *)
Definition callAgent_settled (agentType : string) (o : outcome Json)
  (w : World) : World :=
  match o with
  | Resolved data => w |> setResults (objSet agentType data)
  | Rejected err => w |> setError (Some (errorText err))
  end |> setLoading None.

(** [loading === agent.id] *)
Definition isLoading (a : Agent) (s : State) : bool :=
  match loading s with
  | Some x => String.eqb x (id a)
  | None => false
  end.

(** Take the oldest pending call of [agentType] out of [l]. *)
Fixpoint takePending (agentType : string) (l : list string) : option (list string) :=
  match l with
  | [] => None
  | t :: l' =>
      if String.eqb t agentType then Some l'
      else match takePending agentType l' with
           | Some r => Some (t :: r)
           | None => None
           end
  end.

Inductive event :=
| TypeResourceGroup (v : string)           (* onChange of the input *)
| ClickAgent (i : nat)                     (* click on the i-th agent card *)
| Settled (agentType : string) (o : outcome Json).

(** One event; [None] when it cannot happen: there is no such card, the
    card's guard [!isLoading] is false, or no call of that agent is
    pending. *)
Definition step (e : event) (w : World) : option World :=
  match e with
  | TypeResourceGroup v => Some (setResourceGroup v w)
  | ClickAgent i =>
      match nth_error agents i with
      | Some a =>
          if isLoading a (ui w) then None
          else Some (callAgent_start (id a) (endpoint a) w)
      | None => None
      end
  | Settled agentType o =>
      match takePending agentType (pending w) with
      | Some rest => Some (w |> setPending rest |> callAgent_settled agentType o)
      | None => None
      end
  end.

Fixpoint run (es : list event) (w : World) : option World :=
  match es with
  | [] => Some w
  | e :: es' =>
      match step e w with
      | Some w' => run es' w'
      | None => None
      end
  end.

(** A response with a result for [agentType]. *)
Definition deliversResult (agentType : string) (e : event) : bool :=
  match e with
  | Settled t (Resolved _) => String.eqb t agentType
  | _ => false
  end.

(** The URLs the three agents are called at. *)
Definition agentUrls : list string :=
  map (fun a => ("/api/" ++ endpoint a)%string) agents.

(** What holds in every world of a run: the card shown as running has a
    call pending, pending calls are calls of agents of the table, and
    every request went to the URL of one of them. *)
Definition consistent (w : World) : Prop :=
  (forall t, loading (ui w) = Some t -> In t (pending w))
  /\ (forall t, In t (pending w) -> In t (map id agents))
  /\ (forall r, In r (sent w) -> In (url r) agentUrls).

Definition after (es : list event) : World :=
  match run es initialWorld with
  | Some w => w
  | None => initialWorld
  end.

End AgentTab.

(** ** QueryTab: natural-language queries *)

Module QueryTab.

Definition Json := string.

(** The [useState] cells of [QueryTab]. *)
Record State :=
  { query : string;
    resourceGroup : string;
    loading : bool;
    result : option Json;
    error : option string }.

(** [axios.post('/api/query', { query, resource_group })]; an
    [undefined] resource group is [None]. *)
Record Request := { req_query : string; req_resource_group : option string }.

(** The component, the number of submissions that await their response
    and the requests sent so far. *)
Record World :=
  { ui : State;
    pending : nat;
    sent : list Request }.

Definition initialState : State :=
  {| query := ""; resourceGroup := ""; loading := false; result := None;
     error := None |}.

Definition initialWorld : World :=
  {| ui := initialState; pending := 0; sent := [] |}.

Definition withUi (g : State -> State) (w : World) : World :=
  {| ui := g (ui w); pending := pending w; sent := sent w |}.

Definition setQuery (v : string) : World -> World :=
  withUi (fun s =>
    {| query := v; resourceGroup := resourceGroup s; loading := loading s;
       result := result s; error := error s |}).

Definition setResourceGroup (v : string) : World -> World :=
  withUi (fun s =>
    {| query := query s; resourceGroup := v; loading := loading s;
       result := result s; error := error s |}).

Definition setLoading (v : bool) : World -> World :=
  withUi (fun s =>
    {| query := query s; resourceGroup := resourceGroup s; loading := v;
       result := result s; error := error s |}).

Definition setResult (v : option Json) : World -> World :=
  withUi (fun s =>
    {| query := query s; resourceGroup := resourceGroup s;
       loading := loading s; result := v; error := error s |}).

Definition setError (v : option string) : World -> World :=
  withUi (fun s =>
    {| query := query s; resourceGroup := resourceGroup s;
       loading := loading s; result := result s; error := v |}).

Definition post (r : Request) (w : World) : World :=
  {| ui := ui w; pending := S (pending w); sent := sent w ++ [r] |}.

(** [resourceGroup || undefined] *)
Definition orUndefined (v : string) : option string :=
  if truthy (Some v) then Some v else None.

(** [handleSubmit(e)] up to its [await]. *)
Definition handleSubmit_start (w : World) : World :=
  w |> setLoading true
    |> setError None
    |> setResult None
    |> post {| req_query := query (ui w);
               req_resource_group := orUndefined (resourceGroup (ui w)) |}.

(** [handleSubmit(e)] after its [await]. *)
Definition handleSubmit_settled (o : outcome Json) (w : World) : World :=
  match o with
  | Resolved data => w |> setResult (Some data)
  | Rejected err => w |> setError (Some (errorText err))
  end |> setLoading false.

Inductive event :=
| TypeQuery (v : string)                 (* onChange of the textarea *)
| TypeResourceGroup (v : string)         (* onChange of the input *)
| Submit                                 (* the form is submitted *)
| Settled (o : outcome Json).

(** One event; [None] when it cannot happen: the form is not submitted
    while the required textarea is empty or the submit button is
    disabled, and nothing settles when nothing is pending. *)
Definition step (e : event) (w : World) : option World :=
  match e with
  | TypeQuery v => Some (setQuery v w)
  | TypeResourceGroup v => Some (setResourceGroup v w)
  | Submit =>
      if String.eqb (query (ui w)) "" || loading (ui w) then None
      else Some (handleSubmit_start w)
  | Settled o =>
      match pending w with
      | S n =>
          Some ({| ui := ui w; pending := n; sent := sent w |}
                |> handleSubmit_settled o)
      | O => None
      end
  end.

Fixpoint run (es : list event) (w : World) : option World :=
  match es with
  | [] => Some w
  | e :: es' =>
      match step e w with
      | Some w' => run es' w'
      | None => None
      end
  end.

(** What holds in every world of a run. *)
Definition consistent (w : World) : Prop :=
  pending w <= 1
  /\ (loading (ui w) = true <-> pending w = 1)
  /\ (loading (ui w) = true -> result (ui w) = None /\ error (ui w) = None)
  /\ (result (ui w) = None \/ error (ui w) = None)
  /\ (forall r, In r (sent w) ->
        req_query r <> "" /\ req_resource_group r <> Some "").

Definition after (es : list event) : World :=
  match run es initialWorld with
  | Some w => w
  | None => initialWorld
  end.

End QueryTab.

(** ** VisionTab: diagram to deployment code *)

Module VisionTab.

(** The browser's [File] object, as far as the component reads it. *)
Record ImageFile := { name : string; type : string }.

(** [response.data] of the analyze endpoint; [bicep_code] may be missing. *)
Record AnalyzeResponse := { bicep_code : option string }.

(** The [useState] cells of [VisionTab]. *)
Record State :=
  { image : option ImageFile;
    imagePreview : option string;
    loading : bool;
    bicepCode : option string;
    error : option string;
    dragOver : bool }.

(** The component and what it touches outside React: the [FileReader]s
    still reading, the analyze calls that await their response, the
    files sent, the children of [document.body] (by node id), the live
    object URLs with the text of their blobs, and the files the browser
    saved (name and content). *)
Record World :=
  { ui : State;
    reading : nat;
    pending : nat;
    sent : list ImageFile;
    body : list nat;
    nextNode : nat;
    objectUrls : list (nat * string);
    nextUrl : nat;
    downloads : list (string * string) }.

Definition initialState : State :=
  {| image := None; imagePreview := None; loading := false;
     bicepCode := None; error := None; dragOver := false |}.

Definition initialWorld : World :=
  {| ui := initialState; reading := 0; pending := 0; sent := [];
     body := []; nextNode := 0; objectUrls := []; nextUrl := 0;
     downloads := [] |}.

Definition withUi (g : State -> State) (w : World) : World :=
  {| ui := g (ui w); reading := reading w; pending := pending w;
     sent := sent w; body := body w; nextNode := nextNode w;
     objectUrls := objectUrls w; nextUrl := nextUrl w;
     downloads := downloads w |}.

Definition setImage (v : option ImageFile) : World -> World :=
  withUi (fun s =>
    {| image := v; imagePreview := imagePreview s; loading := loading s;
       bicepCode := bicepCode s; error := error s; dragOver := dragOver s |}).

Definition setImagePreview (v : option string) : World -> World :=
  withUi (fun s =>
    {| image := image s; imagePreview := v; loading := loading s;
       bicepCode := bicepCode s; error := error s; dragOver := dragOver s |}).

Definition setLoading (v : bool) : World -> World :=
  withUi (fun s =>
    {| image := image s; imagePreview := imagePreview s; loading := v;
       bicepCode := bicepCode s; error := error s; dragOver := dragOver s |}).

Definition setBicepCode (v : option string) : World -> World :=
  withUi (fun s =>
    {| image := image s; imagePreview := imagePreview s; loading := loading s;
       bicepCode := v; error := error s; dragOver := dragOver s |}).

Definition setError (v : option string) : World -> World :=
  withUi (fun s =>
    {| image := image s; imagePreview := imagePreview s; loading := loading s;
       bicepCode := bicepCode s; error := v; dragOver := dragOver s |}).

Definition setDragOver (v : bool) : World -> World :=
  withUi (fun s =>
    {| image := image s; imagePreview := imagePreview s; loading := loading s;
       bicepCode := bicepCode s; error := error s; dragOver := v |}).

(** [reader.readAsDataURL(file)]: one more reader is reading. *)
Definition readAsDataURL (w : World) : World :=
  {| ui := ui w; reading := S (reading w); pending := pending w;
     sent := sent w; body := body w; nextNode := nextNode w;
     objectUrls := objectUrls w; nextUrl := nextUrl w;
     downloads := downloads w |}.

(** [axios.post('/api/vision/analyze', formData)] *)
Definition post (f : ImageFile) (w : World) : World :=
  {| ui := ui w; reading := reading w; pending := S (pending w);
     sent := sent w ++ [f]; body := body w; nextNode := nextNode w;
     objectUrls := objectUrls w; nextUrl := nextUrl w;
     downloads := downloads w |}.

(** [URL.createObjectURL(blob)] for a blob with text [text]; the URL
    made is [nextUrl w]. *)
Definition createObjectURL (text : string) (w : World) : World :=
  {| ui := ui w; reading := reading w; pending := pending w;
     sent := sent w; body := body w; nextNode := nextNode w;
     objectUrls := objectUrls w ++ [(nextUrl w, text)];
     nextUrl := S (nextUrl w); downloads := downloads w |}.

(** [URL.revokeObjectURL(url)] *)
Definition revokeObjectURL (url : nat) (w : World) : World :=
  {| ui := ui w; reading := reading w; pending := pending w;
     sent := sent w; body := body w; nextNode := nextNode w;
     objectUrls := filter (fun u => negb (Nat.eqb (fst u) url)) (objectUrls w);
     nextUrl := nextUrl w; downloads := downloads w |}.

(** [document.createElement('a')]; the node made is [nextNode w]. *)
Definition createElement (w : World) : World :=
  {| ui := ui w; reading := reading w; pending := pending w;
     sent := sent w; body := body w; nextNode := S (nextNode w);
     objectUrls := objectUrls w; nextUrl := nextUrl w;
     downloads := downloads w |}.

(** [document.body.appendChild(a)] *)
Definition appendChild (a : nat) (w : World) : World :=
  {| ui := ui w; reading := reading w; pending := pending w;
     sent := sent w; body := body w ++ [a]; nextNode := nextNode w;
     objectUrls := objectUrls w; nextUrl := nextUrl w;
     downloads := downloads w |}.

(** [document.body.removeChild(a)] *)
Definition removeChild (a : nat) (w : World) : World :=
  {| ui := ui w; reading := reading w; pending := pending w;
     sent := sent w;
     body := filter (fun n => negb (Nat.eqb n a)) (body w);
     nextNode := nextNode w;
     objectUrls := objectUrls w; nextUrl := nextUrl w;
     downloads := downloads w |}.

(** The text behind an object URL, while the URL is live. *)
Fixpoint urlText (url : nat) (l : list (nat * string)) : option string :=
  match l with
  | [] => None
  | (u, t) :: l' => if Nat.eqb u url then Some t else urlText url l'
  end.

(** [a.click()] on an anchor with [a.href = url] and
    [a.download = fileName]: the browser saves what the URL stands for
    under that name. *)
Definition click (url : nat) (fileName : string) (w : World) : World :=
  match urlText url (objectUrls w) with
  | Some text =>
      {| ui := ui w; reading := reading w; pending := pending w;
         sent := sent w; body := body w; nextNode := nextNode w;
         objectUrls := objectUrls w; nextUrl := nextUrl w;
         downloads := downloads w ++ [(fileName, text)] |}
  | None => w
  end.

Definition selectError : string := "Please select a valid image file".

Definition noImageError : string := "Please select an image first".

(** [handleFileSelect(file)]; [None] is an [undefined] argument. *)
Definition handleFileSelect (file : option ImageFile) (w : World) : World :=
  match file with
  | Some f =>
      if startsWith (type f) "image/"
      then w |> setImage (Some f) |> setError None |> readAsDataURL
      else w |> setError (Some selectError)
  | None => w |> setError (Some selectError)
  end.

(** [reader.onloadend]: [result] is [reader.result], [None] when the
    read failed. *)
Definition readerLoadEnd (result : option string) (w : World) : World :=
  w |> setImagePreview result.

(** [handleDrop(e)], with [e.dataTransfer.files] as a list. *)
Definition handleDrop (files : list ImageFile) (w : World) : World :=
  w |> setDragOver false |> handleFileSelect (hd_error files).

(** [handleGenerate()] up to its [await]. *)
Definition handleGenerate_start (w : World) : World :=
  match image (ui w) with
  | None => w |> setError (Some noImageError)
  | Some f =>
      w |> setLoading true
        |> setError None
        |> setBicepCode None
        |> post f
  end.

(** [handleGenerate()] after its [await]. *)
Definition handleGenerate_settled (o : outcome AnalyzeResponse) (w : World) : World :=
  match o with
  | Resolved data => w |> setBicepCode (bicep_code data)
  | Rejected err => w |> setError (Some (errorText err))
  end |> setLoading false.

(** [handleDownload()] *)
Definition handleDownload (w : World) : World :=
  if truthy (bicepCode (ui w)) then
    let url := nextUrl w in
    let a := nextNode w in
    w |> createObjectURL (interpolate (bicepCode (ui w)))
      |> createElement
      |> appendChild a
      |> click url "main.bicep"
      |> removeChild a
      |> revokeObjectURL url
  else w.

Inductive event :=
| SelectFile (file : option ImageFile)
| DropFiles (files : list ImageFile)
| DragOver
| DragLeave
| ReaderLoadEnd (result : option string)
| ClickGenerate
| GenerateSettled (o : outcome AnalyzeResponse)
| ClickDownload.

(** One event; [None] when it cannot happen: no reader is reading, the
    generate button is not rendered ([image] unset) or disabled
    ([loading]), no analyze call is pending, or the download button is
    not rendered ([bicepCode] falsy). *)
Definition step (e : event) (w : World) : option World :=
  match e with
  | SelectFile file => Some (handleFileSelect file w)
  | DropFiles files => Some (handleDrop files w)
  | DragOver => Some (setDragOver true w)
  | DragLeave => Some (setDragOver false w)
  | ReaderLoadEnd result =>
      match reading w with
      | S n =>
          Some ({| ui := ui w; reading := n; pending := pending w;
                   sent := sent w; body := body w; nextNode := nextNode w;
                   objectUrls := objectUrls w; nextUrl := nextUrl w;
                   downloads := downloads w |}
                |> readerLoadEnd result)
      | O => None
      end
  | ClickGenerate =>
      match image (ui w) with
      | Some _ => if loading (ui w) then None else Some (handleGenerate_start w)
      | None => None
      end
  | GenerateSettled o =>
      match pending w with
      | S n =>
          Some ({| ui := ui w; reading := reading w; pending := n;
                   sent := sent w; body := body w; nextNode := nextNode w;
                   objectUrls := objectUrls w; nextUrl := nextUrl w;
                   downloads := downloads w |}
                |> handleGenerate_settled o)
      | O => None
      end
  | ClickDownload =>
      if truthy (bicepCode (ui w)) then Some (handleDownload w) else None
  end.

Fixpoint run (es : list event) (w : World) : option World :=
  match es with
  | [] => Some w
  | e :: es' =>
      match step e w with
      | Some w' => run es' w'
      | None => None
      end
  end.

(** What holds in every world of a run. *)
Definition consistent (w : World) : Prop :=
  (forall f, image (ui w) = Some f -> startsWith (type f) "image/" = true)
  /\ (forall f, In f (sent w) -> startsWith (type f) "image/" = true)
  /\ (imagePreview (ui w) <> None -> image (ui w) <> None)
  /\ (0 < reading w -> image (ui w) <> None)
  /\ pending w <= 1
  /\ (loading (ui w) = true <-> pending w = 1)
  /\ (loading (ui w) = true -> bicepCode (ui w) = None)
  /\ (forall n, In n (body w) -> n < nextNode w)
  /\ (forall u t, In (u, t) (objectUrls w) -> u < nextUrl w).

Definition after (es : list event) : World :=
  match run es initialWorld with
  | Some w => w
  | None => initialWorld
  end.

End VisionTab.

(** ** App: the tab bar *)

Module App.

(** The tab buttons: the value each sets and the component rendered
    for it. *)
Definition tabs : list (string * string) :=
  [("query", "QueryTab"); ("vision", "VisionTab");
   ("deploy", "DeployTab"); ("agents", "AgentTab")].

(** The [useState] cell of [App]. *)
Definition initialTab : string := "query".

(** The components rendered in the tab content: one conditional
    [activeTab === value && <Component />] per tab. *)
Definition rendered (activeTab : string) : list string :=
  map snd (filter (fun t => String.eqb activeTab (fst t)) tabs).

(** The buttons that carry the class [active]. *)
Definition activeButtons (activeTab : string) : list string :=
  map fst (filter (fun t => String.eqb activeTab (fst t)) tabs).

(** A click on the i-th tab button: [setActiveTab(value)]. *)
Definition clickTab (i : nat) (activeTab : string) : option string :=
  match nth_error tabs i with
  | Some t => Some (fst t)
  | None => None
  end.

Fixpoint run (clicks : list nat) (activeTab : string) : option string :=
  match clicks with
  | [] => Some activeTab
  | i :: clicks' =>
      match clickTab i activeTab with
      | Some t => run clicks' t
      | None => None
      end
  end.

End App.

(** * The page: the deployment tab with its awaits and the tab bar

    [handleDeploy] above is a whole submission: both awaits settle
    before anything else happens.  Here the handler is taken apart at
    its awaits, so that selections, drops, timer firings and responses
    can come between them, and the tab bar of [App] is added: leaving
    the Deploy tab unmounts [DeployTab], whose state is then gone,
    while its timers and its pending calls live on; coming back mounts
    a new instance with the initial state.  A callback of an instance
    that is no longer mounted still runs, but its state setters do
    nothing. *)

(** [handleDeploy()] for the selected file [f], up to the first await. *)
Definition handleDeploy_start (f : File) (w : World) : World :=
  w |> setDeploying true
    |> setError None
    |> setLogs (fun _ => [])
    |> setStatus (Some "uploading")
    |> pushLog "📦 Uploading project files..."
    |> send (UploadReq f).

(** [handleDeploy()] from the first await to the second, or through
    [catch] and [finally] when the upload threw. *)
Definition handleDeploy_uploaded (f : File) (o : outcome UploadResponse)
  (w : World) : World :=
  match o with
  | Rejected err => w |> deployFailed err |> setDeploying false
  | Resolved uploadResponse =>
      w |> pushLog "✅ Upload complete"
        |> setStatus (Some "building")
        |> pushLog "🔨 Building Docker image..."
        |> send (StartReq (upload_id uploadResponse) (appName f))
  end.

(** [handleDeploy()] after the second await, through [finally]. *)
Definition handleDeploy_launched (o : outcome StartResponse) (w : World) : World :=
  match o with
  | Rejected err => w |> deployFailed err |> setDeploying false
  | Resolved deployResponse =>
      w |> setDeploymentId (Some (deployment_id deployResponse))
        |> pushLog "🚀 Deploying to Azure Container Instances..."
        |> pollDeploymentStatus (deployment_id deployResponse)
        |> setDeploying false
  end.

(** Each launch request in [l] carries the app name of a file whose
    upload request comes before it ([uploaded] are the files uploaded
    before [l]). *)
Fixpoint launchAfterUpload (uploaded : list File) (l : list request) : bool :=
  match l with
  | [] => true
  | UploadReq f :: l' => launchAfterUpload (f :: uploaded) l'
  | StartReq _ a :: l' =>
      existsb (fun f => String.eqb a (appName f)) uploaded
      && launchAfterUpload uploaded l'
  | StatusReq _ :: l' => launchAfterUpload uploaded l'
  end.

Module Page.

(** Where a call of [handleDeploy] is suspended. *)
Inductive stage :=
| AwaitUpload (f : File)       (* at the upload; [f] is the file it captured *)
| AwaitLaunch.                 (* at the launch request *)

(** The page: the active tab of [App], the number of the [DeployTab]
    instance mounted last, the world of the deployment tab ([ui] is the
    state of the mounted instance, the initial state when none is
    mounted), the suspended calls of [handleDeploy] and the timers, each
    with the instance it belongs to. *)
Record Page :=
  { activeTab : string;
    instance : nat;
    world : World;
    awaiting : list (nat * stage);
    owners : list (nat * nat) }.

Definition initialPage : Page :=
  {| activeTab := App.initialTab; instance := 0; world := initialWorld;
     awaiting := []; owners := [] |}.

(** [activeTab === 'deploy']: [DeployTab] is mounted. *)
Definition mounted (p : Page) : bool := String.eqb (activeTab p) "deploy".

(** Instance [n] is the one mounted. *)
Definition live (n : nat) (p : Page) : bool :=
  mounted p && Nat.eqb n (instance p).

Fixpoint ownerOf (k : nat) (l : list (nat * nat)) : option nat :=
  match l with
  | [] => None
  | (k', n) :: l' => if Nat.eqb k' k then Some n else ownerOf k l'
  end.

(** The instance of timer [k] is the one mounted. *)
Definition liveTimer (k : nat) (p : Page) : bool :=
  match ownerOf k (owners p) with
  | Some n => live n p
  | None => false
  end.

(** The callback [g] runs; when its instance is not mounted any more
    ([isLive] false), what it does to the component state is dropped. *)
Definition runCallback (isLive : bool) (g : World -> World) (w : World) : World :=
  if isLive then g w else withUi (fun _ => ui w) (g w).

Fixpoint removeAt {A : Type} (i : nat) (l : list A) : list A :=
  match i, l with
  | _, [] => []
  | O, _ :: l' => l'
  | S i', x :: l' => x :: removeAt i' l'
  end.

Fixpoint replaceAt {A : Type} (i : nat) (y : A) (l : list A) : list A :=
  match i, l with
  | _, [] => []
  | O, _ :: l' => y :: l'
  | S i', x :: l' => x :: replaceAt i' y l'
  end.

Definition setWorld (w : World) (p : Page) : Page :=
  {| activeTab := activeTab p; instance := instance p; world := w;
     awaiting := awaiting p; owners := owners p |}.

(** [setActiveTab(t)] and the render that follows. *)
Definition switchTo (t : string) (p : Page) : Page :=
  if mounted p then
    if String.eqb t "deploy" then p
    else {| activeTab := t; instance := instance p;
            world := withUi (fun _ => initialState) (world p);
            awaiting := awaiting p; owners := owners p |}
  else
    if String.eqb t "deploy" then
      {| activeTab := t; instance := S (instance p);
         world := withUi (fun _ => initialState) (world p);
         awaiting := awaiting p; owners := owners p |}
    else {| activeTab := t; instance := instance p; world := world p;
            awaiting := awaiting p; owners := owners p |}.

(** The events of the upload area and the reset button. *)
Definition isUiEvent (e : event) : bool :=
  match e with
  | SelectFile _ | DropFiles _ | DragOver | DragLeave | ClickReset => true
  | ClickDeploy _ _ | Tick _ | PollSettled _ _ => false
  end.

Inductive action :=
| ClickTab (i : nat)                       (* click on the i-th tab button *)
| Ui (e : event)                           (* upload area or reset button *)
| DeployClicked                            (* click on the deploy button *)
| UploadSettled (i : nat) (o : outcome UploadResponse)
| LaunchSettled (i : nat) (o : outcome StartResponse)
| TimerFired (k : nat)
| StatusSettled (k : nat) (o : outcome StatusResponse).

(** One action; [None] when it cannot happen: the control is not
    rendered or disabled, the i-th suspended call is not at that await,
    the timer is not active, or no request of the timer is in flight. *)
Definition act (a : action) (p : Page) : option Page :=
  match a with
  | ClickTab i =>
      match App.clickTab i (activeTab p) with
      | Some t => Some (switchTo t p)
      | None => None
      end
  | Ui e =>
      if mounted p && isUiEvent e then
        match step e (world p) with
        | Some w' => Some (setWorld w' p)
        | None => None
        end
      else None
  | DeployClicked =>
      if mounted p && deployButtonEnabled (ui (world p)) then
        match file (ui (world p)) with
        | Some f =>
            Some {| activeTab := activeTab p; instance := instance p;
                    world := handleDeploy_start f (world p);
                    awaiting := awaiting p ++ [(instance p, AwaitUpload f)];
                    owners := owners p |}
        | None => Some (setWorld (setError (Some noFileError) (world p)) p)
        end
      else None
  | UploadSettled i o =>
      match nth_error (awaiting p) i with
      | Some (n, AwaitUpload f) =>
          Some {| activeTab := activeTab p; instance := instance p;
                  world := runCallback (live n p) (handleDeploy_uploaded f o)
                             (world p);
                  awaiting := match o with
                              | Resolved _ => replaceAt i (n, AwaitLaunch) (awaiting p)
                              | Rejected _ => removeAt i (awaiting p)
                              end;
                  owners := owners p |}
      | _ => None
      end
  | LaunchSettled i o =>
      match nth_error (awaiting p) i with
      | Some (n, AwaitLaunch) =>
          Some {| activeTab := activeTab p; instance := instance p;
                  world := runCallback (live n p) (handleDeploy_launched o)
                             (world p);
                  awaiting := removeAt i (awaiting p);
                  owners := match o with
                            | Resolved _ => owners p ++ [(nextTimer (world p), n)]
                            | Rejected _ => owners p
                            end |}
      | _ => None
      end
  | TimerFired k =>
      match pollRequest k (world p) with
      | Some w' => Some (setWorld w' p)
      | None => None
      end
  | StatusSettled k o =>
      match takeInflight k (inflight (world p)) with
      | Some rest =>
          Some (setWorld
                  (runCallback (liveTimer k p)
                     (fun w => w |> setInflight rest |> pollSettled k o)
                     (world p)) p)
      | None => None
      end
  end.

Fixpoint play (acts : list action) (p : Page) : option Page :=
  match acts with
  | [] => Some p
  | a :: acts' =>
      match act a p with
      | Some p' => play acts' p'
      | None => None
      end
  end.

(** The actions that stand for one event of the component when nothing
    comes between the awaits of a submission. *)
Definition actionsOf (e : event) : list action :=
  match e with
  | ClickDeploy up st =>
      DeployClicked :: UploadSettled 0 up ::
      match up with
      | Resolved _ => [LaunchSettled 0 st]
      | Rejected _ => []
      end
  | Tick k => [TimerFired k]
  | PollSettled k o => [StatusSettled k o]
  | _ => [Ui e]
  end.

(** The page a run from the initial page ends in. *)
Definition after (acts : list action) : Page :=
  match play acts initialPage with
  | Some p => p
  | None => initialPage
  end.






(** While the launch request of a submission is pending, a file that is
    not a zip archive is selected. *)
Definition selectionBetweenAwaits : list action :=
  [ClickTab 2; Ui (SelectFile (Some myApp)); DeployClicked;
   UploadSettled 0 okUpload; Ui (SelectFile (Some notesTxt))].

(** The suspended uploads are uploads that were sent. *)
Definition uploadsSent (p : Page) : Prop :=
  forall n f, In (n, AwaitUpload f) (awaiting p) ->
              In (UploadReq f) (sent (world p)).

(** No call is suspended and the mounted instance made every timer:
    what a page looks like when no tab switch and no other action ever
    came between the awaits of a submission. *)
Definition settled (p : Page) : Prop :=
  mounted p = true
  /\ awaiting p = []
  /\ (forall k, k < nextTimer (world p) ->
                ownerOf k (owners p) = Some (instance p))
  /\ (forall k n, In (k, n) (owners p) -> k < nextTimer (world p)).



End Page.

(** Unfold the setters and project the records they build. *)
Ltac unfold_world :=
  cbn [setFile setDeploying setDeploymentId setStatus setLogs setError
       setDragOver pushLog withUi send consoleError setInterval
       clearInterval setInflight pollDeploymentStatus
       ui timers nextTimer inflight sent console
       file deploying deploymentId status logs error dragOver] in *.

(** ** Basic facts *)

Lemma Some_eq (A : Type) (a b : A) : Some a = Some b -> a = b.
Proof. intros H. congruence. Qed.

(** A closed equation settled by evaluation. *)
Ltac by_evaluation := vm_compute; reflexivity.

(** A closed statement that is an instance [t] of a theorem, up to
    evaluation. *)
Ltac by_instance t :=
  let H := fresh "W" in
  pose proof t as H; vm_compute in H |- *; exact H.

(** From [H : Some t = Some x], with [x] a variable, replace [x] by [t]
    everywhere, leaving [t] as it is written. *)
Ltac some_inv H :=
  apply Some_eq in H;
  match type of H with _ = ?x => subst x end.

Lemma timerId_clear (k : nat) (ts : list (nat * string)) :
  timerId k (filter (fun t => negb (Nat.eqb (fst t) k)) ts) = None.
Proof.
  induction ts as [|[k' id] ts IH]; simpl; [reflexivity|].
  destruct (Nat.eqb k' k) eqn:E; simpl; [exact IH|].
  rewrite E. exact IH.
Qed.

Lemma timerId_clear_other (k j : nat) (ts : list (nat * string)) :
  j <> k ->
  timerId j (filter (fun t => negb (Nat.eqb (fst t) k)) ts) = timerId j ts.
Proof.
  intros Hjk. induction ts as [|[k' id] ts IH]; simpl; [reflexivity|].
  destruct (Nat.eqb k' k) eqn:E; simpl.
  - apply Nat.eqb_eq in E. subst k'.
    destruct (Nat.eqb k j) eqn:E2; [apply Nat.eqb_eq in E2; congruence|].
    exact IH.
  - destruct (Nat.eqb k' j); [reflexivity|exact IH].
Qed.

Lemma pollRequest_inactive (k : nat) (w : World) :
  timerId k (timers w) = None -> step (Tick k) w = None.
Proof.
  intros H. simpl. unfold pollRequest. rewrite H. reflexivity.
Qed.

(** ** File selection *)

Lemma handleFileSelect_cases (sel : option File) (w : World) :
  handleFileSelect sel w =
    match sel with
    | Some f =>
        if endsWith (name f) ".zip"
        then setError None (setFile (Some f) w)
        else setError (Some selectError) w
    | None => setError (Some selectError) w
    end.
Proof. destruct sel; reflexivity. Qed.

Lemma handleFileSelect_sent (sel : option File) (w : World) :
  sent (handleFileSelect sel w) = sent w
  /\ timers (handleFileSelect sel w) = timers w
  /\ inflight (handleFileSelect sel w) = inflight w
  /\ status (ui (handleFileSelect sel w)) = status (ui w).
Proof.
  rewrite handleFileSelect_cases.
  destruct sel as [f|]; [destruct (endsWith (name f) ".zip")|]; 
    unfold_world; repeat split; reflexivity.
Qed.

Lemma handleFileSelect_zipOnly (sel : option File) (w : World) :
  zipOnly w -> zipOnly (handleFileSelect sel w).
Proof.
  intros [Hf Hs]. rewrite handleFileSelect_cases.
  destruct sel as [f|]; [destruct (endsWith (name f) ".zip") eqn:E|];
    unfold_world; split; auto.
  intros g Hg. injection Hg as <-. exact E.
Qed.

(** ** Deployment *)

Lemma handleDeploy_no_file (up : outcome UploadResponse)
  (st : outcome StartResponse) (w : World) :
  file (ui w) = None -> handleDeploy up st w = setError (Some noFileError) w.
Proof. intros H. unfold handleDeploy. rewrite H. reflexivity. Qed.

Lemma handleDeploy_zipOnly (up : outcome UploadResponse)
  (st : outcome StartResponse) (w : World) :
  zipOnly w -> zipOnly (handleDeploy up st w).
Proof.
  intros [Hf Hs]. unfold handleDeploy.
  destruct (file (ui w)) as [f|] eqn:Ef.
  - unfold deploySteps, deployFailed.
    destruct up as [u|e]; [destruct st as [d|e]|]; unfold zipOnly;
      unfold_world;
      (split; [rewrite Ef; exact Hf|]);
      intros g Hg; repeat (apply in_app_or in Hg; destruct Hg as [Hg|Hg]);
      auto; simpl in Hg;
      repeat (destruct Hg as [Hg|Hg]; try discriminate; try contradiction);
      injection Hg as <-; auto.
  - unfold zipOnly; unfold_world. split; [rewrite Ef; exact Hf|exact Hs].
Qed.

Lemma pollSettled_ui_cases (k : nat) (o : outcome StatusResponse) (w : World) :
  sent (pollSettled k o w) = sent w
  /\ file (ui (pollSettled k o w)) = file (ui w)
  /\ inflight (pollSettled k o w) = inflight w
  /\ deploymentId (ui (pollSettled k o w)) = deploymentId (ui w).
Proof.
  unfold pollSettled.
  destruct o as [data|err].
  - destruct (String.eqb (resp_status data) "succeeded");
      [|destruct (String.eqb (resp_status data) "failed");
        [|destruct (truthy (resp_message data))]];
      unfold_world; repeat split; reflexivity.
  - unfold_world. repeat split; reflexivity.
Qed.

Lemma step_zipOnly (e : event) (w w' : World) :
  step e w = Some w' -> zipOnly w -> zipOnly w'.
Proof.
  intros Hstep Hinv. destruct e; simpl in Hstep.
  - destruct (uploadAreaShown (ui w)); [|discriminate].
    some_inv Hstep. now apply handleFileSelect_zipOnly.
  - destruct (uploadAreaShown (ui w)); [|discriminate].
    some_inv Hstep. unfold handleDrop.
    apply handleFileSelect_zipOnly. exact Hinv.
  - destruct (uploadAreaShown (ui w)); [|discriminate].
    some_inv Hstep. exact Hinv.
  - destruct (uploadAreaShown (ui w)); [|discriminate].
    some_inv Hstep. exact Hinv.
  - destruct (deployButtonEnabled (ui w)); [|discriminate].
    some_inv Hstep. now apply handleDeploy_zipOnly.
  - unfold pollRequest in Hstep.
    destruct (timerId k (timers w)) as [id|]; [|discriminate].
    some_inv Hstep. destruct Hinv as [Hf Hs].
    unfold zipOnly; unfold_world.
    split; [exact Hf|].
    intros g Hg. apply in_app_or in Hg. destruct Hg as [Hg|Hg]; auto.
    simpl in Hg. destruct Hg as [Hg|[]]. discriminate.
  - destruct (takeInflight k (inflight w)) as [rest|]; [|discriminate].
    some_inv Hstep. destruct Hinv as [Hf Hs].
    destruct (pollSettled_ui_cases k o (setInflight rest w)) as (E1 & E2 & _).
    unfold zipOnly. rewrite E1, E2. unfold_world. split; assumption.
  - destruct (resetButtonShown (ui w)); [|discriminate].
    some_inv Hstep. destruct Hinv as [Hf Hs].
    unfold zipOnly, resetClick; unfold_world. split; [discriminate|exact Hs].
Qed.

Lemma run_invariant (P : World -> Prop) :
  (forall e w w', step e w = Some w' -> P w -> P w') ->
  forall es w w', run es w = Some w' -> P w -> P w'.
Proof.
  intros Hstep. induction es as [|e es IH]; intros w w' Hrun Hw; simpl in Hrun.
  - some_inv Hrun. exact Hw.
  - destruct (step e w) as [w1|] eqn:E; [|discriminate].
    eapply IH; [exact Hrun|]. eapply Hstep; eauto.
Qed.


Lemma initial_zipOnly : zipOnly initialWorld.
Proof. split; simpl; [discriminate|contradiction]. Qed.

Lemma step_startRequests (e : event) (w w' : World) :
  isClickDeploy e = false -> step e w = Some w' ->
  startRequests (sent w') = startRequests (sent w).
Proof.
  intros He Hstep. destruct e; simpl in Hstep; try discriminate He.
  - destruct (uploadAreaShown (ui w)); [|discriminate].
    some_inv Hstep.
    now destruct (handleFileSelect_sent selected w) as (-> & _).
  - destruct (uploadAreaShown (ui w)); [|discriminate].
    some_inv Hstep. unfold handleDrop.
    now destruct (handleFileSelect_sent (hd_error files) (setDragOver false w))
      as (-> & _).
  - destruct (uploadAreaShown (ui w)); [|discriminate].
    now some_inv Hstep.
  - destruct (uploadAreaShown (ui w)); [|discriminate].
    now some_inv Hstep.
  - unfold pollRequest in Hstep.
    destruct (timerId k (timers w)) as [id|]; [|discriminate].
    some_inv Hstep. unfold_world. unfold startRequests.
    rewrite filter_app. simpl. apply app_nil_r.
  - destruct (takeInflight k (inflight w)) as [rest|]; [|discriminate].
    some_inv Hstep.
    now destruct (pollSettled_ui_cases k o (setInflight rest w)) as (-> & _).
  - destruct (resetButtonShown (ui w)); [|discriminate].
    now some_inv Hstep.
Qed.

Lemma run_startRequests (es : list event) (w w' : World) :
  forallb (fun e => negb (isClickDeploy e)) es = true ->
  run es w = Some w' ->
  startRequests (sent w') = startRequests (sent w).
Proof.
  revert w. induction es as [|e es IH]; intros w Hes Hrun; simpl in *.
  - now some_inv Hrun.
  - apply andb_true_iff in Hes. destruct Hes as [He Hes].
    destruct (step e w) as [w1|] eqn:E; [|discriminate].
    rewrite (IH w1 Hes Hrun).
    apply (step_startRequests e); [|exact E].
    now destruct (isClickDeploy e).
Qed.

(** ** The claims about selection and submission *)

(** C8.  A selected file whose name does not end in '.zip' is rejected
    with the validation error, the selected file and the requests sent
    stay as they were (no network call is made); a file whose name ends
    in '.zip' becomes the selected file; and in every run of the
    component from its initial state the selected file and every
    uploaded file have a name ending in '.zip'. *)
Theorem zip_files_only :
  (forall (w : World) (f : File),
      endsWith (name f) ".zip" = false ->
      error (ui (handleFileSelect (Some f) w)) = Some selectError
      /\ file (ui (handleFileSelect (Some f) w)) = file (ui w)
      /\ sent (handleFileSelect (Some f) w) = sent w)
  /\ (forall (w : World) (f : File),
      endsWith (name f) ".zip" = true ->
      file (ui (handleFileSelect (Some f) w)) = Some f
      /\ error (ui (handleFileSelect (Some f) w)) = None
      /\ sent (handleFileSelect (Some f) w) = sent w)
  /\ (forall (es : list event) (w : World),
      run es initialWorld = Some w ->
      (forall f, file (ui w) = Some f -> endsWith (name f) ".zip" = true)
      /\ (forall f, In (UploadReq f) (sent w) -> endsWith (name f) ".zip" = true)).
Proof.
  split; [|split].
  - intros w f H. simpl. rewrite H. unfold_world. repeat split.
  - intros w f H. simpl. rewrite H. unfold_world. repeat split.
  - intros es w Hrun.
    exact (run_invariant zipOnly step_zipOnly es initialWorld w Hrun
             initial_zipOnly).
Qed.

(** C9.  When a file is selected and the selection handler is then called
    with a file whose name does not end in '.zip', or with no file, the
    only change is that the error message is set: the selected file
    stays, the deploy button is as available as before, and deploying
    afterwards does exactly what deploying before would have done,
    starting with the upload of that file. *)
Theorem rejected_selection_keeps_file (w : World) (f : File)
  (sel : option File) (up : outcome UploadResponse)
  (st : outcome StartResponse)
  (Hfile : file (ui w) = Some f)
  (Hbad : match sel with
          | Some g => endsWith (name g) ".zip" = false
          | None => True
          end) :
  handleFileSelect sel w = setError (Some selectError) w
  /\ file (ui (handleFileSelect sel w)) = Some f
  /\ error (ui (handleFileSelect sel w)) = Some selectError
  /\ deployButtonEnabled (ui (handleFileSelect sel w)) = deployButtonEnabled (ui w)
  /\ handleDeploy up st (handleFileSelect sel w) = handleDeploy up st w
  /\ exists rest,
       sent (handleDeploy up st (handleFileSelect sel w))
       = sent w ++ UploadReq f :: rest.
Proof.
  assert (E : handleFileSelect sel w = setError (Some selectError) w).
  { rewrite handleFileSelect_cases. destruct sel as [g|]; [|reflexivity].
    now rewrite Hbad. }
  rewrite E. split; [reflexivity|].
  split; [unfold_world; exact Hfile|].
  split; [reflexivity|].
  split; [reflexivity|].
  assert (D : handleDeploy up st (setError (Some selectError) w)
              = handleDeploy up st w).
  { unfold handleDeploy. unfold_world. rewrite Hfile. reflexivity. }
  split; [exact D|].
  rewrite D. unfold handleDeploy. rewrite Hfile.
  unfold deploySteps, deployFailed.
  destruct up as [u|e]; [destruct st as [d|e]|]; unfold_world;
    rewrite <- ?app_assoc; simpl; eexists; reflexivity.
Qed.

(** C10.  Deploying while no file is selected sets the error message
    'Please select a file first' and does nothing else: no request is
    sent, no timer is started, and the status, the deployment id and
    the message log are as before. *)
Theorem deploy_without_file (w : World) (up : outcome UploadResponse)
  (st : outcome StartResponse)
  (Hnone : file (ui w) = None) :
  handleDeploy up st w = setError (Some "Please select a file first") w
  /\ error (ui (handleDeploy up st w)) = Some "Please select a file first"
  /\ sent (handleDeploy up st w) = sent w
  /\ timers (handleDeploy up st w) = timers w
  /\ status (ui (handleDeploy up st w)) = status (ui w)
  /\ deploymentId (ui (handleDeploy up st w)) = deploymentId (ui w)
  /\ logs (ui (handleDeploy up st w)) = logs (ui w)
  /\ deploying (ui (handleDeploy up st w)) = deploying (ui w).
Proof.
  rewrite (handleDeploy_no_file up st w Hnone).
  unfold_world. repeat split.
Qed.

(** C5.  When the upload request fails, the only request of the
    submission is the upload: no launch request is sent, no timer is
    started, the status becomes 'failed' at once, the error is recorded
    (as the error message and in the log), and nothing that happens
    afterwards, short of a new submission, sends a launch request. *)
Theorem upload_failure_aborts (w : World) (f : File) (err : AxiosError)
  (st : outcome StartResponse)
  (Hfile : file (ui w) = Some f) :
  sent (handleDeploy (Rejected err) st w) = sent w ++ [UploadReq f]
  /\ startRequests (sent (handleDeploy (Rejected err) st w))
     = startRequests (sent w)
  /\ status (ui (handleDeploy (Rejected err) st w)) = Some "failed"
  /\ error (ui (handleDeploy (Rejected err) st w)) = Some (errorText err)
  /\ logs (ui (handleDeploy (Rejected err) st w))
     = ["📦 Uploading project files...";
        ("❌ Deployment failed: " ++ err_message err)%string]
  /\ timers (handleDeploy (Rejected err) st w) = timers w
  /\ deploymentId (ui (handleDeploy (Rejected err) st w)) = deploymentId (ui w)
  /\ deploying (ui (handleDeploy (Rejected err) st w)) = false
  /\ (forall (es : list event) (w' : World),
        forallb (fun e => negb (isClickDeploy e)) es = true ->
        run es (handleDeploy (Rejected err) st w) = Some w' ->
        startRequests (sent w') = startRequests (sent w)).
Proof.
  assert (S : startRequests (sent (handleDeploy (Rejected err) st w))
              = startRequests (sent w)).
  { unfold handleDeploy. rewrite Hfile. unfold deploySteps, deployFailed.
    unfold_world. unfold startRequests. rewrite filter_app. simpl.
    apply app_nil_r. }
  repeat (split; [first [exact S
    | unfold handleDeploy; rewrite Hfile; unfold deploySteps, deployFailed;
      unfold_world; reflexivity]|]).
  intros es w' Hes Hrun. rewrite <- S. now apply (run_startRequests es).
Qed.

(** ** Polling *)

Lemma step_polling (e : event) (w w' : World) :
  pollingEvent e = true -> step e w = Some w' ->
  logs (ui w') = logs (ui w) ++ receivedMessages [e]
  /\ status (ui w') = status (ui w)
  /\ timers w' = timers w.
Proof.
  intros He Hstep. destruct e as [| | | | |k|k [data|err]|];
    simpl in He; try discriminate He; simpl in Hstep.
  - unfold pollRequest in Hstep.
    destruct (timerId k (timers w)) as [id|]; [|discriminate].
    some_inv Hstep. unfold_world. simpl.
    rewrite app_nil_r. repeat split.
  - destruct (takeInflight k (inflight w)) as [rest|]; [|discriminate].
    some_inv Hstep. unfold isRunning in He.
    apply andb_true_iff in He. destruct He as [H1 H2].
    apply negb_true_iff in H1. apply negb_true_iff in H2.
    unfold pollSettled. rewrite H1, H2. simpl.
    destruct (resp_message data) as [m|]; simpl.
    + destruct (String.eqb m ""); simpl; unfold_world;
        rewrite ?app_nil_r; repeat split.
    + unfold_world. rewrite app_nil_r. repeat split.
Qed.

Lemma receivedMessages_cons (e : event) (es : list event) :
  receivedMessages (e :: es) = receivedMessages [e] ++ receivedMessages es.
Proof. unfold receivedMessages. simpl. now rewrite app_nil_r. Qed.

Lemma run_polling (es : list event) (w w' : World) :
  forallb pollingEvent es = true -> run es w = Some w' ->
  logs (ui w') = logs (ui w) ++ receivedMessages es
  /\ status (ui w') = status (ui w)
  /\ timers w' = timers w.
Proof.
  revert w. induction es as [|e es IH]; intros w Hes Hrun; simpl in Hes, Hrun.
  - some_inv Hrun. simpl. rewrite app_nil_r. repeat split.
  - apply andb_true_iff in Hes. destruct Hes as [He Hes].
    destruct (step e w) as [w1|] eqn:E; [|discriminate].
    destruct (step_polling e w w1 He E) as (L1 & S1 & T1).
    destruct (IH w1 Hes Hrun) as (L2 & S2 & T2).
    rewrite receivedMessages_cons, L2, L1, S2, S1, T2, T1, app_assoc.
    repeat split.
Qed.

Lemma receivedMessages_In (es : list event) (k : nat)
  (data : StatusResponse) (m : string) :
  In (PollSettled k (Resolved data)) es ->
  resp_message data = Some m -> m <> "" ->
  In m (receivedMessages es).
Proof.
  intros Hin Hm Hne. unfold receivedMessages. apply in_flat_map.
  exists (PollSettled k (Resolved data)). split; [exact Hin|].
  rewrite Hm. destruct (String.eqb m "") eqn:E.
  - apply String.eqb_eq in E. contradiction.
  - now left.
Qed.

Lemma pollSettled_succeeded (k : nat) (data : StatusResponse) (u : string)
  (w : World) :
  resp_status data = "succeeded" -> resp_url data = Some u ->
  pollSettled k (Resolved data) w
  = clearInterval k
      (pushLog ("🌐 Your app is live at: " ++ u)%string
         (pushLog "✅ Deployment successful!"
            (setStatus (Some "succeeded") w))).
Proof.
  intros Hst Hurl. unfold pollSettled. rewrite Hst, Hurl. reflexivity.
Qed.

(** C3.  In a polling phase that has so far seen only timer firings and
    running responses, when a status response arrives that reports
    [succeeded] with URL [u]: the status becomes 'succeeded', the last
    log line carries exactly [u], the timer is cleared so that it fires
    no more and no request is sent, and the message log is the log from
    before the polling phase, followed by the messages of the running
    responses in the order they arrived (a response with an absent or
    empty message has none), followed by the two success lines. *)
Theorem success_ends_polling (w0 w w' : World) (es : list event) (k : nat)
  (data : StatusResponse) (u : string)
  (Hes : forallb pollingEvent es = true)
  (Hrun : run es w0 = Some w)
  (Hst : resp_status data = "succeeded")
  (Hurl : resp_url data = Some u)
  (Hstep : step (PollSettled k (Resolved data)) w = Some w') :
  status (ui w') = Some "succeeded"
  /\ logs (ui w')
     = logs (ui w0) ++ receivedMessages es
       ++ ["✅ Deployment successful!";
           ("🌐 Your app is live at: " ++ u)%string]
  /\ (forall j d m, In (PollSettled j (Resolved d)) es ->
        resp_message d = Some m -> m <> "" -> In m (logs (ui w')))
  /\ timerId k (timers w') = None
  /\ step (Tick k) w' = None
  /\ sent w' = sent w.
Proof.
  destruct (run_polling es w0 w Hes Hrun) as (L & _ & _).
  cbn [step] in Hstep.
  destruct (takeInflight k (inflight w)) as [rest|]; [|discriminate].
  some_inv Hstep.
  rewrite (pollSettled_succeeded k data u _ Hst Hurl). unfold clearInterval.
  unfold_world.
  assert (T : timerId k (filter (fun t => negb (Nat.eqb (fst t) k)) (timers w))
              = None) by apply timerId_clear.
  assert (Lw : (logs (ui w) ++ ["✅ Deployment successful!"])
               ++ [("🌐 Your app is live at: " ++ u)%string]
               = logs (ui w0) ++ receivedMessages es
                 ++ ["✅ Deployment successful!";
                     ("🌐 Your app is live at: " ++ u)%string]).
  { rewrite L, <- !app_assoc. reflexivity. }
  split; [reflexivity|].
  split; [exact Lw|].
  split.
  { intros j d m Hin Hm Hne. rewrite Lw.
    apply in_or_app. right. apply in_or_app. left.
    now apply (receivedMessages_In es j d m). }
  split; [exact T|].
  split; [|reflexivity].
  apply pollRequest_inactive. exact T.
Qed.

(** ** Timers *)

Lemma timerId_In (k : nat) (ts : list (nat * string)) (id : string) :
  timerId k ts = Some id -> In (k, id) ts.
Proof.
  induction ts as [|[k' id'] ts IH]; simpl; [discriminate|].
  destruct (Nat.eqb k' k) eqn:E.
  - apply Nat.eqb_eq in E. intros H. injection H as <-. subst. now left.
  - intros H. right. now apply IH.
Qed.

Lemma timerId_filter_none (k : nat) (p : nat * string -> bool)
  (ts : list (nat * string)) :
  timerId k ts = None -> timerId k (filter p ts) = None.
Proof.
  induction ts as [|[k' id'] ts IH]; simpl; [reflexivity|].
  destruct (Nat.eqb k' k) eqn:E; [discriminate|].
  intros H. destruct (p (k', id')); simpl; [rewrite E|]; now apply IH.
Qed.

Lemma timerId_app_fresh (k n : nat) (id : string) (ts : list (nat * string)) :
  k <> n -> timerId k (ts ++ [(n, id)]) = timerId k ts.
Proof.
  intros Hkn. induction ts as [|[k' id'] ts IH]; simpl.
  - destruct (Nat.eqb n k) eqn:E; [apply Nat.eqb_eq in E; congruence|reflexivity].
  - destruct (Nat.eqb k' k); [reflexivity|exact IH].
Qed.

Lemma takeInflight_In (k : nat) (l rest : list nat) :
  takeInflight k l = Some rest ->
  In k l /\ (forall j, In j rest -> In j l).
Proof.
  revert rest. induction l as [|k' l IH]; intros rest; simpl; [discriminate|].
  destruct (Nat.eqb k' k) eqn:E.
  - apply Nat.eqb_eq in E. intros H. injection H as <-. subst. auto.
  - destruct (takeInflight k l) as [r|]; [|discriminate].
    intros H. injection H as <-. destruct (IH r eq_refl) as [H1 H2].
    split; [now right|]. intros j [Hj|Hj]; [now left|right; auto].
Qed.


(** What each handler does to the timers. *)
Lemma handleFileSelect_frame (sel : option File) (w : World) :
  timers (handleFileSelect sel w) = timers w
  /\ nextTimer (handleFileSelect sel w) = nextTimer w
  /\ inflight (handleFileSelect sel w) = inflight w.
Proof.
  rewrite handleFileSelect_cases.
  destruct sel as [f|]; [destruct (endsWith (name f) ".zip")|];
    unfold_world; repeat split.
Qed.

Lemma handleDeploy_timers (up : outcome UploadResponse)
  (st : outcome StartResponse) (w : World) :
  inflight (handleDeploy up st w) = inflight w
  /\ ((timers (handleDeploy up st w) = timers w
       /\ nextTimer (handleDeploy up st w) = nextTimer w)
      \/ exists id,
           timers (handleDeploy up st w) = timers w ++ [(nextTimer w, id)]
           /\ nextTimer (handleDeploy up st w) = S (nextTimer w)).
Proof.
  unfold handleDeploy. destruct (file (ui w)) as [f|].
  - unfold deploySteps, deployFailed.
    destruct up as [u|e]; [destruct st as [d|e]|]; unfold_world;
      (split; [reflexivity|]); [right; eexists|left|left]; split; reflexivity.
  - unfold_world. split; [reflexivity|left; split; reflexivity].
Qed.

Lemma pollSettled_timers (k : nat) (o : outcome StatusResponse) (w : World) :
  nextTimer (pollSettled k o w) = nextTimer w
  /\ timers (pollSettled k o w)
     = if haltingOutcome o
       then filter (fun t => negb (Nat.eqb (fst t) k)) (timers w)
       else timers w.
Proof.
  unfold pollSettled, haltingOutcome, isRunning.
  destruct o as [data|err]; [|unfold_world; split; reflexivity].
  destruct (String.eqb (resp_status data) "succeeded");
    [|destruct (String.eqb (resp_status data) "failed");
      [|destruct (truthy (resp_message data))]];
    unfold_world; split; reflexivity.
Qed.

(** One step changes the timers in one of three ways. *)
Lemma step_timers (e : event) (w w' : World) :
  step e w = Some w' ->
  (timers w' = timers w /\ nextTimer w' = nextTimer w)
  \/ (exists id, timers w' = timers w ++ [(nextTimer w, id)]
                 /\ nextTimer w' = S (nextTimer w))
  \/ (exists k o, e = PollSettled k o /\ haltingOutcome o = true
                  /\ timers w'
                     = filter (fun t => negb (Nat.eqb (fst t) k)) (timers w)
                  /\ nextTimer w' = nextTimer w).
Proof.
  intros Hstep. destruct e; simpl in Hstep.
  - destruct (uploadAreaShown (ui w)); [|discriminate]. some_inv Hstep.
    destruct (handleFileSelect_frame selected w) as (-> & -> & _). now left.
  - destruct (uploadAreaShown (ui w)); [|discriminate]. some_inv Hstep.
    unfold handleDrop.
    destruct (handleFileSelect_frame (hd_error files) (setDragOver false w))
      as (-> & -> & _). now left.
  - destruct (uploadAreaShown (ui w)); [|discriminate]. some_inv Hstep.
    now left.
  - destruct (uploadAreaShown (ui w)); [|discriminate]. some_inv Hstep.
    now left.
  - destruct (deployButtonEnabled (ui w)); [|discriminate]. some_inv Hstep.
    destruct (handleDeploy_timers up st w) as (_ & [H|H]); [now left|right; now left].
  - unfold pollRequest in Hstep.
    destruct (timerId k (timers w)); [|discriminate]. some_inv Hstep.
    now left.
  - destruct (takeInflight k (inflight w)) as [rest|]; [|discriminate].
    some_inv Hstep.
    destruct (pollSettled_timers k o (setInflight rest w)) as (N & T).
    destruct (haltingOutcome o) eqn:Ho.
    + right. right. exists k, o. repeat split; assumption.
    + left. split; assumption.
  - destruct (resetButtonShown (ui w)); [|discriminate]. some_inv Hstep.
    now left.
Qed.

Lemma step_inflight (e : event) (w w' : World) :
  step e w = Some w' ->
  inflight w' = inflight w
  \/ (exists k id, e = Tick k /\ timerId k (timers w) = Some id
                   /\ inflight w' = inflight w ++ [k])
  \/ (exists k o, e = PollSettled k o
                  /\ takeInflight k (inflight w) = Some (inflight w')).
Proof.
  intros Hstep. destruct e; simpl in Hstep.
  - destruct (uploadAreaShown (ui w)); [|discriminate]. some_inv Hstep.
    destruct (handleFileSelect_frame selected w) as (_ & _ & ->). now left.
  - destruct (uploadAreaShown (ui w)); [|discriminate]. some_inv Hstep.
    unfold handleDrop.
    destruct (handleFileSelect_frame (hd_error files) (setDragOver false w))
      as (_ & _ & ->). now left.
  - destruct (uploadAreaShown (ui w)); [|discriminate]. some_inv Hstep.
    now left.
  - destruct (uploadAreaShown (ui w)); [|discriminate]. some_inv Hstep.
    now left.
  - destruct (deployButtonEnabled (ui w)); [|discriminate]. some_inv Hstep.
    destruct (handleDeploy_timers up st w) as (-> & _). now left.
  - unfold pollRequest in Hstep.
    destruct (timerId k (timers w)) as [id|] eqn:E; [|discriminate].
    some_inv Hstep. right. left. exists k, id. repeat split. exact E.
  - destruct (takeInflight k (inflight w)) as [rest|] eqn:E; [|discriminate].
    some_inv Hstep. right. right. exists k, o. split; [reflexivity|].
    destruct (pollSettled_ui_cases k o (setInflight rest w)) as (_ & _ & -> & _).
    exact E.
  - destruct (resetButtonShown (ui w)); [|discriminate]. some_inv Hstep.
    now left.
Qed.

Lemma step_timersFresh (e : event) (w w' : World) :
  step e w = Some w' -> timersFresh w -> timersFresh w'.
Proof.
  intros Hstep [HT HI].
  assert (Hn : nextTimer w <= nextTimer w').
  { destruct (step_timers e w w' Hstep)
      as [(_ & ->)|[(id & _ & ->)|(k & o & _ & _ & _ & ->)]]; lia. }
  split.
  - intros k id Hin.
    destruct (step_timers e w w' Hstep)
      as [(T & N)|[(id' & T & N)|(j & o & _ & _ & T & N)]];
      rewrite T in Hin.
    + specialize (HT k id Hin). lia.
    + apply in_app_or in Hin. destruct Hin as [Hin|[Hin|[]]].
      * specialize (HT k id Hin). lia.
      * injection Hin as <- <-. lia.
    + apply filter_In in Hin. destruct Hin as [Hin _].
      specialize (HT k id Hin). lia.
  - intros k Hin.
    destruct (step_inflight e w w' Hstep)
      as [I|[(j & id & _ & Hj & I)|(j & o & _ & I)]].
    + rewrite I in Hin. specialize (HI k Hin). lia.
    + rewrite I in Hin. apply in_app_or in Hin. destruct Hin as [Hin|[Hin|[]]].
      * specialize (HI k Hin). lia.
      * subst j. apply timerId_In in Hj. specialize (HT k id Hj). lia.
    + destruct (takeInflight_In j _ _ I) as [_ Hsub].
      specialize (HI k (Hsub k Hin)). lia.
Qed.

Lemma initial_timersFresh : timersFresh initialWorld.
Proof. split; simpl; intros; contradiction. Qed.

(** A timer that was created and is no longer active. *)
Lemma step_cleared (k : nat) (e : event) (w w' : World) :
  step e w = Some w' ->
  k < nextTimer w /\ timerId k (timers w) = None ->
  k < nextTimer w' /\ timerId k (timers w') = None.
Proof.
  intros Hstep [Hk Hnone].
  destruct (step_timers e w w' Hstep)
    as [(T & N)|[(id' & T & N)|(j & o & _ & _ & T & N)]];
    rewrite T, N.
  - auto.
  - split; [lia|]. rewrite timerId_app_fresh; [exact Hnone|lia].
  - split; [exact Hk|]. now apply timerId_filter_none.
Qed.

Lemma run_cleared (k : nat) (es : list event) (w w' : World) :
  run es w = Some w' ->
  k < nextTimer w -> timerId k (timers w) = None ->
  timerId k (timers w') = None.
Proof.
  intros Hrun Hk Hnone.
  apply (run_invariant
           (fun x => k < nextTimer x /\ timerId k (timers x) = None)
           (step_cleared k) es w w' Hrun).
  split; assumption.
Qed.



(** ** The claims about polling and reset *)

(** C2, as the code has it.  In any run of the component, when a status
    request throws, polling on its timer ends there: the timer is
    cleared, the handling of the failure sends no request, and in no
    continuation of the run does this timer fire again.  There is no
    retry and no cap of consecutive failures.  (What the session shows
    after such a failure is not part of this statement.) *)
Theorem poll_failure_stops_polling (es0 : list event) (w w' : World)
  (k : nat) (err : AxiosError)
  (Hreach : run es0 initialWorld = Some w)
  (Hstep : step (PollSettled k (Rejected err)) w = Some w') :
  sent w' = sent w
  /\ timerId k (timers w') = None
  /\ (forall (es : list event) (w'' : World),
        run es w' = Some w'' ->
        timerId k (timers w'') = None /\ step (Tick k) w'' = None).
Proof.
  assert (F : timersFresh w).
  { exact (run_invariant timersFresh step_timersFresh es0 initialWorld w
             Hreach initial_timersFresh). }
  simpl in Hstep.
  destruct (takeInflight k (inflight w)) as [rest|] eqn:E; [|discriminate].
  some_inv Hstep.
  destruct (takeInflight_In k _ _ E) as [Hin _].
  destruct F as [_ FI]. specialize (FI k Hin).
  unfold pollSettled. unfold_world.
  assert (T : timerId k (filter (fun t => negb (Nat.eqb (fst t) k)) (timers w))
              = None) by apply timerId_clear.
  repeat (split; [first [reflexivity|exact T]|]).
  intros es w'' Hrun.
  assert (T' : timerId k (timers w'') = None).
  { apply (run_cleared k es _ w'' Hrun); [exact FI|exact T]. }
  split; [exact T'|now apply pollRequest_inactive].
Qed.

(** C2 as claimed fails: after the first status request has thrown,
    polling does not continue at the next interval.  The timer is gone
    and cannot fire again, and one status request was sent, not five. *)
Lemma poll_failure_cap_counterexample :
  exists w, run pollThrows initialWorld = Some w
            /\ timers w = []
            /\ step (Tick 0) w = None
            /\ List.length (statusRequests (sent w)) = 1.
Proof.
  eexists. split; [vm_compute; reflexivity|]. simpl. repeat split.
Qed.

(** C1 at its failing input.  A file is deployed, upload and launch
    succeed, and the first status request throws: the timer is cleared
    with the status left at 'building', no request is in flight, and no
    event of the component can happen any more, so the session never
    shows a terminal status.  And when two status requests are in flight
    and both report success, the success lines are logged twice: the
    second pair comes after the terminal status was first shown. *)
Theorem poll_error_leaves_session_unresolved :
  (exists w, run pollThrows initialWorld = Some w
             /\ status (ui w) = Some "building"
             /\ error (ui w) = None
             /\ logs (ui w)
                = ["📦 Uploading project files..."; "✅ Upload complete";
                   "🔨 Building Docker image...";
                   "🚀 Deploying to Azure Container Instances..."]
             /\ timers w = [] /\ inflight w = []
             /\ forall e, step e w = None)
  /\ (exists w, run twoSuccesses initialWorld = Some w
                /\ status (ui w) = Some "succeeded"
                /\ logs (ui w)
                   = ["📦 Uploading project files..."; "✅ Upload complete";
                      "🔨 Building Docker image...";
                      "🚀 Deploying to Azure Container Instances...";
                      "✅ Deployment successful!";
                      "🌐 Your app is live at: http://x.test";
                      "✅ Deployment successful!";
                      "🌐 Your app is live at: http://x.test"]).
Proof.
  split; eexists; (split; [vm_compute; reflexivity|]); simpl.
  - repeat split. intros e. destruct e; reflexivity.
  - repeat split.
Qed.

(** C7, as the code has it.  The reset button is there exactly when the
    status is 'succeeded' and the log is not empty.  In any other state
    the reset cannot happen, and no error is set by that.  When it
    happens it clears the selected file, the deployment id, the status
    and the message log, leaves the error message, the timers and the
    requests sent as they were, and brings back the upload area, where a
    '.zip' file can be selected again and then deployed (the deploy
    button is enabled unless a deployment is still marked as running). *)
Theorem reset_only_after_success (w : World) :
  (resetButtonShown (ui w) = true
   <-> status (ui w) = Some "succeeded" /\ logs (ui w) <> [])
  /\ (resetButtonShown (ui w) = false -> step ClickReset w = None)
  /\ (resetButtonShown (ui w) = true ->
      exists w', step ClickReset w = Some w'
                 /\ file (ui w') = None
                 /\ deploymentId (ui w') = None
                 /\ status (ui w') = None
                 /\ logs (ui w') = []
                 /\ error (ui w') = error (ui w)
                 /\ timers w' = timers w
                 /\ sent w' = sent w
                 /\ uploadAreaShown (ui w') = true
                 /\ forall f, endsWith (name f) ".zip" = true ->
                      exists w'', step (SelectFile (Some f)) w' = Some w''
                                  /\ file (ui w'') = Some f
                                  /\ deployButtonEnabled (ui w'')
                                     = negb (deploying (ui w))).
Proof.
  split; [|split].
  - unfold resetButtonShown, statusIs. split.
    + intros H. apply andb_true_iff in H. destruct H as [H1 H2].
      destruct (status (ui w)) as [x|]; [|discriminate].
      apply String.eqb_eq in H2. subst x. split; [reflexivity|].
      destruct (logs (ui w)); [discriminate|discriminate].
    + intros [-> H2]. simpl. rewrite andb_true_r.
      destruct (logs (ui w)); [congruence|reflexivity].
  - intros H. simpl. now rewrite H.
  - intros H. simpl. rewrite H. eexists. split; [reflexivity|].
    unfold resetClick. unfold_world. repeat split.
    intros f Hf. simpl. unfold_world. rewrite Hf.
    eexists. repeat split.
Qed.

(** C7 as claimed fails: after the upload has failed the status is
    'failed', a terminal state, yet the reset cannot happen and the file
    and the log are still there; and after the status endpoint has
    reported 'failed', no event of the component can happen at all. *)
Lemma reset_after_failure_counterexample :
  (exists w, run uploadThrows initialWorld = Some w
             /\ status (ui w) = Some "failed"
             /\ step ClickReset w = None
             /\ file (ui w) = Some myApp
             /\ logs (ui w) <> [])
  /\ (exists w, run remoteFailure initialWorld = Some w
                /\ status (ui w) = Some "failed"
                /\ forall e, step e w = None).
Proof.
  split; eexists; (split; [vm_compute; reflexivity|]); simpl.
  - repeat split. discriminate.
  - split; [reflexivity|]. intros e. destruct e; reflexivity.
Qed.

(** C4 at its failing input.  For "My App.zip" the app name is "my app".
    For "site.zip.backup.zip", a name the file selection accepts, the
    code removes the first '.zip' and sends "site.backup.zip", where
    lowercasing and stripping the trailing '.zip' gives
    "site.zip.backup". *)
Theorem appName_replaces_first_occurrence :
  appName myApp = "my app"
  /\ appName_spec myApp = "my app"
  /\ endsWith (name backupZip) ".zip" = true
  /\ appName backupZip = "site.backup.zip"
  /\ appName_spec backupZip = "site.zip.backup"
  /\ (exists w, run [SelectFile (Some backupZip); ClickDeploy okUpload okStart]
                  initialWorld = Some w
                /\ startRequests (sent w) = [StartReq "u-1" "site.backup.zip"]).
Proof.
  repeat (split; [reflexivity|]).
  eexists. split; vm_compute; reflexivity.
Qed.

(** ** The app name when '.zip' occurs only at the end *)

Lemma append_empty_r (s : string) : (s ++ "")%string = s.
Proof. induction s as [|a s IH]; simpl; [reflexivity|now rewrite IH]. Qed.

Lemma length_append (a b : string) :
  String.length (a ++ b) = String.length a + String.length b.
Proof. induction a as [|c a IH]; simpl; [reflexivity|now rewrite IH]. Qed.

Lemma startsWith_append (pat b : string) : startsWith (pat ++ b) pat = true.
Proof.
  induction pat as [|c pat IH]; simpl; [reflexivity|].
  now rewrite Ascii.eqb_refl.
Qed.

Lemma drop_append (a b : string) : drop (String.length a) (a ++ b) = b.
Proof. induction a as [|c a IH]; simpl; [now destruct b|exact IH]. Qed.

Lemma substring_append_start (a b : string) :
  substring 0 (String.length a) (a ++ b) = a.
Proof.
  induction a as [|c a IH]; simpl; [now destruct b|now rewrite IH].
Qed.

Lemma substring_all (b : string) : substring 0 (String.length b) b = b.
Proof. induction b as [|c b IH]; simpl; [reflexivity|now rewrite IH]. Qed.

Lemma substring_append_end (a b : string) :
  substring (String.length a) (String.length b) (a ++ b) = b.
Proof. induction a as [|c a IH]; simpl; [apply substring_all|exact IH]. Qed.

Lemma endsWith_append (a b : string) : endsWith (a ++ b) b = true.
Proof.
  unfold endsWith. rewrite length_append.
  replace (String.length a + String.length b - String.length b)
    with (String.length a) by lia.
  rewrite substring_append_end, String.eqb_refl, andb_true_r.
  apply Nat.leb_le. lia.
Qed.

Lemma stripSuffix_append (a b : string) : stripSuffix b (a ++ b) = a.
Proof.
  unfold stripSuffix. rewrite endsWith_append, length_append.
  replace (String.length a + String.length b - String.length b)
    with (String.length a) by lia.
  apply substring_append_start.
Qed.

Lemma toLowerCase_append (a b : string) :
  toLowerCase (a ++ b) = (toLowerCase a ++ toLowerCase b)%string.
Proof. induction a as [|c a IH]; simpl; [reflexivity|now rewrite IH]. Qed.

Lemma replace_head (pat rep s : string) :
  startsWith s pat = true ->
  replace pat rep s = (rep ++ drop (String.length pat) s)%string.
Proof. intros H. destruct s; simpl; now rewrite H. Qed.

(** [replace] rewrites the occurrence that [indexOf] finds. *)
Lemma replace_at_indexOf (pat rep a b : string) :
  indexOf pat (a ++ pat ++ b) = Some (String.length a) ->
  replace pat rep (a ++ pat ++ b) = (a ++ rep ++ b)%string.
Proof.
  induction a as [|c a IH]; intros H.
  - change (replace pat rep (pat ++ b) = (rep ++ b)%string).
    rewrite replace_head by apply startsWith_append.
    now rewrite drop_append.
  - change ((String c a ++ pat ++ b)%string)
      with (String c (a ++ pat ++ b)%string) in *.
    simpl in H. simpl.
    destruct (startsWith (String c (a ++ pat ++ b)) pat); [discriminate|].
    destruct (indexOf pat (a ++ pat ++ b)) as [i|] eqn:E; [|discriminate].
    simpl in H. injection H as ->. now rewrite IH.
Qed.

(** When the first '.zip' of the file name is the trailing one, the app
    name the code sends is the one the specification words: the
    lowercased name without its extension. *)
Lemma appName_trailing_zip (stem : string) (sz : nat) :
  indexOf ".zip" (stem ++ ".zip") = Some (String.length stem) ->
  appName {| name := (stem ++ ".zip")%string; size := sz |} = toLowerCase stem
  /\ appName_spec {| name := (stem ++ ".zip")%string; size := sz |}
     = toLowerCase stem.
Proof.
  intros H. unfold appName, appName_spec. cbn [name]. split.
  - change (stem ++ ".zip")%string with (stem ++ ".zip" ++ "")%string in H |- *.
    rewrite (replace_at_indexOf ".zip" "" stem "" H).
    now rewrite append_empty_r.
  - rewrite toLowerCase_append.
    change (toLowerCase ".zip") with ".zip".
    apply stripSuffix_append.
Qed.

(** ** The statements at concrete sessions *)

Lemma zip_files_only_witness :
  endsWith (name notesTxt) ".zip" = false
  /\ error (ui (handleFileSelect (Some notesTxt) initialWorld)) = Some selectError
  /\ file (ui (handleFileSelect (Some notesTxt) initialWorld)) = None
  /\ endsWith (name myApp) ".zip" = true
  /\ file (ui (handleFileSelect (Some myApp) initialWorld)) = Some myApp
  /\ run uploadThrows initialWorld = Some (after uploadThrows)
  /\ (forall f, In (UploadReq f) (sent (after uploadThrows)) ->
        endsWith (name f) ".zip" = true).
Proof.
  assert (H1 : endsWith (name notesTxt) ".zip" = false) by by_evaluation.
  assert (H2 : endsWith (name myApp) ".zip" = true) by by_evaluation.
  assert (H3 : run uploadThrows initialWorld = Some (after uploadThrows))
    by by_evaluation.
  destruct zip_files_only as (Hreject & Haccept & Hruns).
  split; [exact H1|].
  split; [by_instance (proj1 (Hreject initialWorld notesTxt H1))|].
  split; [by_instance (proj1 (proj2 (Hreject initialWorld notesTxt H1)))|].
  split; [exact H2|].
  split; [by_instance (proj1 (Haccept initialWorld myApp H2))|].
  split; [exact H3|].
  exact (proj2 (Hruns uploadThrows (after uploadThrows) H3)).
Defined.

Lemma rejected_selection_keeps_file_witness :
  file (ui (after [SelectFile (Some myApp)])) = Some myApp
  /\ endsWith (name notesTxt) ".zip" = false
  /\ file (ui (handleFileSelect (Some notesTxt) (after [SelectFile (Some myApp)])))
     = Some myApp
  /\ handleDeploy okUpload okStart
       (handleFileSelect (Some notesTxt) (after [SelectFile (Some myApp)]))
     = handleDeploy okUpload okStart (after [SelectFile (Some myApp)]).
Proof.
  assert (H1 : file (ui (after [SelectFile (Some myApp)])) = Some myApp)
    by by_evaluation.
  assert (H2 : endsWith (name notesTxt) ".zip" = false) by by_evaluation.
  pose proof (rejected_selection_keeps_file
                (after [SelectFile (Some myApp)]) myApp (Some notesTxt)
                okUpload okStart H1 H2) as W.
  split; [exact H1|]. split; [exact H2|].
  split; [exact (proj1 (proj2 W))|].
  exact (proj1 (proj2 (proj2 (proj2 (proj2 W))))).
Defined.

Lemma deploy_without_file_witness :
  file (ui initialWorld) = None
  /\ error (ui (handleDeploy okUpload okStart initialWorld))
     = Some "Please select a file first"
  /\ sent (handleDeploy okUpload okStart initialWorld) = [].
Proof.
  assert (H1 : file (ui initialWorld) = None) by reflexivity.
  pose proof (deploy_without_file initialWorld okUpload okStart H1) as W.
  split; [exact H1|].
  split; [exact (proj1 (proj2 W))|].
  exact (proj1 (proj2 (proj2 W))).
Defined.

Lemma upload_failure_aborts_witness :
  file (ui (after [SelectFile (Some myApp)])) = Some myApp
  /\ sent (handleDeploy (Rejected networkError) okStart
             (after [SelectFile (Some myApp)]))
     = [UploadReq myApp]
  /\ status (ui (handleDeploy (Rejected networkError) okStart
                   (after [SelectFile (Some myApp)])))
     = Some "failed"
  /\ forallb (fun e => negb (isClickDeploy e)) [DragOver; SelectFile None] = true
  /\ run [DragOver; SelectFile None]
         (handleDeploy (Rejected networkError) okStart
            (after [SelectFile (Some myApp)]))
     = Some (after (uploadThrows ++ [DragOver; SelectFile None]))
  /\ startRequests (sent (after (uploadThrows ++ [DragOver; SelectFile None])))
     = [].
Proof.
  assert (H1 : file (ui (after [SelectFile (Some myApp)])) = Some myApp)
    by by_evaluation.
  assert (H2 : forallb (fun e => negb (isClickDeploy e))
                 [DragOver; SelectFile None] = true) by by_evaluation.
  assert (H3 : run [DragOver; SelectFile None]
                 (handleDeploy (Rejected networkError) okStart
                    (after [SelectFile (Some myApp)]))
               = Some (after (uploadThrows ++ [DragOver; SelectFile None])))
    by by_evaluation.
  pose proof (upload_failure_aborts (after [SelectFile (Some myApp)]) myApp
                networkError okStart H1) as W.
  split; [exact H1|].
  split; [by_instance (proj1 W)|].
  split; [exact (proj1 (proj2 (proj2 W)))|].
  split; [exact H2|]. split; [exact H3|].
  destruct W as (_ & _ & _ & _ & _ & _ & _ & _ & Hever).
  by_instance (Hever [DragOver; SelectFile None] _ H2 H3).
Defined.

Lemma success_ends_polling_witness :
  forallb pollingEvent happyPath = true
  /\ run happyPath (after launched) = Some (after (launched ++ happyPath))
  /\ step (PollSettled 0 (succeeded "http://x.test"))
          (after (launched ++ happyPath))
     = Some (after (launched ++ happyPath
                    ++ [PollSettled 0 (succeeded "http://x.test")]))
  /\ status (ui (after (launched ++ happyPath
                        ++ [PollSettled 0 (succeeded "http://x.test")])))
     = Some "succeeded"
  /\ logs (ui (after (launched ++ happyPath
                      ++ [PollSettled 0 (succeeded "http://x.test")])))
     = logs (ui (after launched))
       ++ ["building image"; "starting container"]
       ++ ["✅ Deployment successful!"; "🌐 Your app is live at: http://x.test"]
  /\ step (Tick 0)
          (after (launched ++ happyPath
                  ++ [PollSettled 0 (succeeded "http://x.test")]))
     = None.
Proof.
  assert (H1 : forallb pollingEvent happyPath = true) by by_evaluation.
  assert (H2 : run happyPath (after launched)
               = Some (after (launched ++ happyPath))) by by_evaluation.
  assert (H3 : step (PollSettled 0 (succeeded "http://x.test"))
                 (after (launched ++ happyPath))
               = Some (after (launched ++ happyPath
                              ++ [PollSettled 0 (succeeded "http://x.test")])))
    by by_evaluation.
  pose proof (success_ends_polling
                (after launched) (after (launched ++ happyPath))
                (after (launched ++ happyPath
                        ++ [PollSettled 0 (succeeded "http://x.test")]))
                happyPath 0
                {| resp_status := "succeeded"; resp_message := None;
                   resp_url := Some "http://x.test" |}
                "http://x.test" H1 H2 eq_refl eq_refl H3) as W.
  split; [exact H1|]. split; [exact H2|]. split; [exact H3|].
  split; [exact (proj1 W)|].
  split; [by_instance (proj1 (proj2 W))|].
  exact (proj1 (proj2 (proj2 (proj2 (proj2 W))))).
Defined.

Lemma poll_failure_stops_polling_witness :
  run (launched ++ [Tick 0]) initialWorld = Some (after (launched ++ [Tick 0]))
  /\ step (PollSettled 0 (Rejected networkError)) (after (launched ++ [Tick 0]))
     = Some (after pollThrows)
  /\ sent (after pollThrows) = sent (after (launched ++ [Tick 0]))
  /\ timerId 0 (timers (after pollThrows)) = None
  /\ run [] (after pollThrows) = Some (after pollThrows)
  /\ step (Tick 0) (after pollThrows) = None.
Proof.
  assert (H1 : run (launched ++ [Tick 0]) initialWorld
               = Some (after (launched ++ [Tick 0]))) by by_evaluation.
  assert (H2 : step (PollSettled 0 (Rejected networkError))
                 (after (launched ++ [Tick 0]))
               = Some (after pollThrows)) by by_evaluation.
  pose proof (poll_failure_stops_polling (launched ++ [Tick 0])
                (after (launched ++ [Tick 0])) (after pollThrows) 0
                networkError H1 H2) as W.
  split; [exact H1|]. split; [exact H2|].
  split; [exact (proj1 W)|].
  split; [exact (proj1 (proj2 W))|].
  split; [reflexivity|].
  destruct W as (_ & _ & Hever).
  exact (proj2 (Hever [] (after pollThrows) eq_refl)).
Defined.

Lemma reset_only_after_success_witness :
  resetButtonShown (ui (after (launched ++ happyPath
                               ++ [PollSettled 0 (succeeded "http://x.test")])))
  = true
  /\ (exists w', step ClickReset
                   (after (launched ++ happyPath
                           ++ [PollSettled 0 (succeeded "http://x.test")]))
                 = Some w'
                 /\ file (ui w') = None
                 /\ deploymentId (ui w') = None
                 /\ status (ui w') = None
                 /\ logs (ui w') = [])
  /\ resetButtonShown (ui (after uploadThrows)) = false
  /\ step ClickReset (after uploadThrows) = None.
Proof.
  assert (H1 : resetButtonShown
                 (ui (after (launched ++ happyPath
                             ++ [PollSettled 0 (succeeded "http://x.test")])))
               = true) by by_evaluation.
  assert (H2 : resetButtonShown (ui (after uploadThrows)) = false)
    by by_evaluation.
  split; [exact H1|].
  split.
  - destruct (reset_only_after_success
                (after (launched ++ happyPath
                        ++ [PollSettled 0 (succeeded "http://x.test")])))
      as (_ & _ & Hreset).
    destruct (Hreset H1) as (w' & E1 & E2 & E3 & E4 & E5 & _).
    exists w'. repeat split; assumption.
  - split; [exact H2|].
    destruct (reset_only_after_success (after uploadThrows)) as (_ & Hno & _).
    exact (Hno H2).
Defined.

(** ** Further properties of the deployment tab *)

Ltac deploy_path Hfile :=
  unfold handleDeploy; rewrite Hfile; unfold deploySteps, deployFailed;
  unfold_world.

Lemma handleDeploy_sent (f : File) (up : outcome UploadResponse)
  (st : outcome StartResponse) (w : World) :
  file (ui w) = Some f ->
  sent (handleDeploy up st w) = sent w ++ deployRequests f up.
Proof.
  intros Hfile. unfold deployRequests.
  destruct up as [u|e]; [destruct st as [d|e]|]; deploy_path Hfile;
    rewrite <- ?app_assoc; reflexivity.
Qed.

Lemma handleDeploy_new_timer (f : File) (up : outcome UploadResponse)
  (st : outcome StartResponse) (w : World) :
  file (ui w) = Some f ->
  timers (handleDeploy up st w)
  = timers w ++ match up, st with
                | Resolved _, Resolved d => [(nextTimer w, deployment_id d)]
                | _, _ => []
                end.
Proof.
  intros Hfile.
  destruct up as [u|e]; [destruct st as [d|e]|]; deploy_path Hfile;
    rewrite ?app_nil_r; reflexivity.
Qed.

Lemma timerId_app_new (n : nat) (id : string) (ts : list (nat * string)) :
  (forall k i, In (k, i) ts -> k < n) ->
  timerId n (ts ++ [(n, id)]) = Some id.
Proof.
  induction ts as [|[k i] ts IH]; intros H; simpl.
  - now rewrite Nat.eqb_refl.
  - destruct (Nat.eqb k n) eqn:E.
    + apply Nat.eqb_eq in E. specialize (H k i (or_introl eq_refl)). lia.
    + apply IH. intros k' i' Hin. apply (H k' i'). now right.
Qed.

(** What one event adds to the requests sent. *)
Lemma step_sent (e : event) (w w' : World) :
  step e w = Some w' ->
  sent w' = sent w
  \/ (exists k id, e = Tick k /\ timerId k (timers w) = Some id
                   /\ sent w' = sent w ++ [StatusReq id])
  \/ (exists f up st, e = ClickDeploy up st /\ file (ui w) = Some f
                      /\ sent w' = sent w ++ deployRequests f up).
Proof.
  intros Hstep. destruct e; cbn [step] in Hstep.
  - destruct (uploadAreaShown (ui w)); [|discriminate]. some_inv Hstep.
    left. now destruct (handleFileSelect_sent selected w) as (-> & _).
  - destruct (uploadAreaShown (ui w)); [|discriminate]. some_inv Hstep.
    left. unfold handleDrop.
    now destruct (handleFileSelect_sent (hd_error files) (setDragOver false w))
      as (-> & _).
  - destruct (uploadAreaShown (ui w)); [|discriminate]. some_inv Hstep. now left.
  - destruct (uploadAreaShown (ui w)); [|discriminate]. some_inv Hstep. now left.
  - destruct (deployButtonEnabled (ui w)) eqn:En; [|discriminate].
    some_inv Hstep. destruct (file (ui w)) as [f|] eqn:Ef.
    + right. right. exists f, up, st. repeat split.
      now apply handleDeploy_sent.
    + left. now rewrite (handleDeploy_no_file up st w Ef).
  - unfold pollRequest in Hstep.
    destruct (timerId k (timers w)) as [id|] eqn:E; [|discriminate].
    some_inv Hstep. right. left. exists k, id. repeat split. exact E.
  - destruct (takeInflight k (inflight w)) as [rest|]; [|discriminate].
    some_inv Hstep. left.
    now destruct (pollSettled_ui_cases k o (setInflight rest w)) as (-> & _).
  - destruct (resetButtonShown (ui w)); [|discriminate]. some_inv Hstep.
    now left.
Qed.



(** X4.  After a successful launch the upload area is shown exactly
    when the returned deployment id is the empty string.  With a
    non-empty id no file can be selected or dropped and no further
    submission can be started. *)
Theorem launch_hides_upload_controls (w : World) (f : File)
  (u : UploadResponse) (d : StartResponse)
  (Hfile : file (ui w) = Some f) :
  uploadAreaShown (ui (handleDeploy (Resolved u) (Resolved d) w))
  = String.eqb (deployment_id d) ""
  /\ (deployment_id d <> "" ->
      forall (sel : option File) (files : list File)
             (up : outcome UploadResponse) (st : outcome StartResponse),
        step (SelectFile sel) (handleDeploy (Resolved u) (Resolved d) w) = None
        /\ step (DropFiles files) (handleDeploy (Resolved u) (Resolved d) w)
           = None
        /\ step DragOver (handleDeploy (Resolved u) (Resolved d) w) = None
        /\ step DragLeave (handleDeploy (Resolved u) (Resolved d) w) = None
        /\ step (ClickDeploy up st) (handleDeploy (Resolved u) (Resolved d) w)
           = None).
Proof.
  assert (A : uploadAreaShown (ui (handleDeploy (Resolved u) (Resolved d) w))
              = String.eqb (deployment_id d) "").
  { unfold uploadAreaShown. deploy_path Hfile. cbn [truthy].
    apply negb_involutive. }
  split; [exact A|].
  intros Hne sel files up st.
  apply String.eqb_neq in Hne.
  cbn [step]. unfold deployButtonEnabled. rewrite A, Hne.
  repeat split.
Qed.

Lemma pollSettled_failed (k : nat) (data : StatusResponse) (w : World) :
  resp_status data = "failed" ->
  pollSettled k (Resolved data) w
  = clearInterval k
      (pushLog "❌ Deployment failed" (setStatus (Some "failed") w)).
Proof. intros Hst. unfold pollSettled. rewrite Hst. reflexivity. Qed.

(** X5.  When a status response reports 'failed', the status becomes
    'failed', the single line 'Deployment failed' is added to the log,
    and the timer is cleared; the error message is not set, whatever
    message or URL the response carried is not shown, and the reset
    button is not offered. *)
Theorem remote_failure_ends_polling (w w' : World) (k : nat)
  (data : StatusResponse)
  (Hst : resp_status data = "failed")
  (Hstep : step (PollSettled k (Resolved data)) w = Some w') :
  status (ui w') = Some "failed"
  /\ logs (ui w') = logs (ui w) ++ ["❌ Deployment failed"]
  /\ error (ui w') = error (ui w)
  /\ deploymentId (ui w') = deploymentId (ui w)
  /\ file (ui w') = file (ui w)
  /\ sent w' = sent w
  /\ timerId k (timers w') = None
  /\ step (Tick k) w' = None
  /\ resetButtonShown (ui w') = false.
Proof.
  cbn [step] in Hstep.
  destruct (takeInflight k (inflight w)) as [rest|]; [|discriminate].
  some_inv Hstep. rewrite (pollSettled_failed k data _ Hst).
  assert (T : timerId k (filter (fun t => negb (Nat.eqb (fst t) k)) (timers w))
              = None) by apply timerId_clear.
  repeat (split; [first [reflexivity | exact T]|]).
  split; [apply pollRequest_inactive; exact T|].
  unfold resetButtonShown, statusIs. unfold_world. apply andb_false_r.
Qed.

(** X6.  When a status response reports 'succeeded' without a URL, the
    success is still shown, and the last log line reads
    'Your app is live at: undefined'. *)
Theorem success_without_url (w w' : World) (k : nat) (data : StatusResponse)
  (Hst : resp_status data = "succeeded")
  (Hurl : resp_url data = None)
  (Hstep : step (PollSettled k (Resolved data)) w = Some w') :
  status (ui w') = Some "succeeded"
  /\ logs (ui w')
     = logs (ui w) ++ ["✅ Deployment successful!";
                       "🌐 Your app is live at: undefined"]
  /\ timerId k (timers w') = None.
Proof.
  cbn [step] in Hstep.
  destruct (takeInflight k (inflight w)) as [rest|]; [|discriminate].
  some_inv Hstep. unfold pollSettled. rewrite Hst, Hurl.
  change (String.eqb "succeeded" "succeeded") with true. cbv iota.
  change (("🌐 Your app is live at: " ++ interpolate None)%string)
    with "🌐 Your app is live at: undefined".
  unfold_world. rewrite <- app_assoc.
  repeat split. apply timerId_clear.
Qed.

(** X7.  A status response whose status is neither 'succeeded' nor
    'failed' (the comparison is case-sensitive) counts as still running:
    the status, the error, the timers and the requests sent stay as they
    are, so polling goes on, and the log gains the message of the
    response when it is a non-empty string and nothing otherwise. *)
Theorem running_response_continues (w w' : World) (k : nat)
  (data : StatusResponse)
  (Hrunning : isRunning data = true)
  (Hstep : step (PollSettled k (Resolved data)) w = Some w') :
  status (ui w') = status (ui w)
  /\ error (ui w') = error (ui w)
  /\ timers w' = timers w
  /\ sent w' = sent w
  /\ logs (ui w')
     = logs (ui w) ++ match resp_message data with
                      | Some m => if String.eqb m "" then [] else [m]
                      | None => []
                      end.
Proof.
  cbn [step] in Hstep.
  destruct (takeInflight k (inflight w)) as [rest|]; [|discriminate].
  some_inv Hstep. unfold isRunning in Hrunning.
  apply andb_true_iff in Hrunning. destruct Hrunning as [H1 H2].
  apply negb_true_iff in H1. apply negb_true_iff in H2.
  unfold pollSettled. rewrite H1, H2.
  destruct (resp_message data) as [m|]; cbn [truthy interpolate].
  - destruct (String.eqb m ""); cbn [negb]; unfold_world;
      rewrite ?app_nil_r; repeat split.
  - unfold_world. rewrite app_nil_r. repeat split.
Qed.

(** X8.  Once a deployment id is stored and the status is not
    'succeeded', a session with no active timer and no status request in
    flight is at a dead end: no event of the component can happen any
    more (the upload area, the deploy button and the reset button are
    all gone). *)
Theorem dead_end (w : World)
  (Hid : truthy (deploymentId (ui w)) = true)
  (Hstatus : statusIs "succeeded" (ui w) = false)
  (Htimers : timers w = [])
  (Hinflight : inflight w = []) :
  forall e : event, step e w = None.
Proof.
  intros e. destruct e; cbn [step];
    unfold deployButtonEnabled, uploadAreaShown, resetButtonShown, pollRequest;
    rewrite ?Hid, ?Hstatus, ?Htimers, ?Hinflight, ?andb_false_r; reflexivity.
Qed.

Lemma pollSettled_logs (k : nat) (o : outcome StatusResponse) (w : World) :
  exists l, logs (ui (pollSettled k o w)) = logs (ui w) ++ l.
Proof.
  unfold pollSettled. destruct o as [data|err].
  - destruct (String.eqb (resp_status data) "succeeded");
      [|destruct (String.eqb (resp_status data) "failed");
        [|destruct (truthy (resp_message data))]];
      unfold_world; rewrite <- ?app_assoc; eexists;
      first [reflexivity | symmetry; apply app_nil_r].
  - unfold_world. exists []. symmetry. apply app_nil_r.
Qed.

Lemma handleFileSelect_logs (sel : option File) (w : World) :
  logs (ui (handleFileSelect sel w)) = logs (ui w).
Proof.
  rewrite handleFileSelect_cases.
  destruct sel as [f|]; [destruct (endsWith (name f) ".zip")|]; reflexivity.
Qed.

Lemma step_logs (e : event) (w w' : World) :
  replacesLog e = false -> step e w = Some w' ->
  exists l, logs (ui w') = logs (ui w) ++ l.
Proof.
  intros He Hstep.
  destruct e; try discriminate He; cbn [step] in Hstep.
  - destruct (uploadAreaShown (ui w)); [|discriminate]. some_inv Hstep.
    exists []. rewrite handleFileSelect_logs. symmetry. apply app_nil_r.
  - destruct (uploadAreaShown (ui w)); [|discriminate]. some_inv Hstep.
    exists []. unfold handleDrop. rewrite handleFileSelect_logs.
    symmetry. apply app_nil_r.
  - destruct (uploadAreaShown (ui w)); [|discriminate]. some_inv Hstep.
    exists []. symmetry. apply app_nil_r.
  - destruct (uploadAreaShown (ui w)); [|discriminate]. some_inv Hstep.
    exists []. symmetry. apply app_nil_r.
  - unfold pollRequest in Hstep.
    destruct (timerId k (timers w)); [|discriminate]. some_inv Hstep.
    exists []. symmetry. apply app_nil_r.
  - destruct (takeInflight k (inflight w)) as [rest|]; [|discriminate].
    some_inv Hstep. apply (pollSettled_logs k o (setInflight rest w)).
Qed.

(** X9.  The message log is append-only between submissions: in a run
    without a deploy click and without a reset, every line that was in
    the log is still there, in place, and new lines only come after
    them. *)
Theorem log_append_only (es : list event) (w w' : World)
  (Hes : forallb (fun e => negb (replacesLog e)) es = true)
  (Hrun : run es w = Some w') :
  exists l, logs (ui w') = logs (ui w) ++ l.
Proof.
  revert w Hrun. induction es as [|e es IH]; intros w Hrun;
    cbn [run] in Hrun.
  - some_inv Hrun. exists []. symmetry. apply app_nil_r.
  - cbn [forallb] in Hes. apply andb_true_iff in Hes.
    destruct Hes as [He Hes]. apply negb_true_iff in He.
    destruct (step e w) as [w1|] eqn:E; [|discriminate].
    destruct (step_logs e w w1 He E) as [l1 L1].
    destruct (IH Hes w1 Hrun) as [l2 L2].
    exists (l1 ++ l2). now rewrite L2, L1, app_assoc.
Qed.

Lemma launchedIds_app (es1 es2 : list event) :
  launchedIds (es1 ++ es2) = launchedIds es1 ++ launchedIds es2.
Proof. unfold launchedIds. apply flat_map_app. Qed.

Lemma step_idsKnown (ids : list string) (e : event) (w w' : World) :
  step e w = Some w' -> idsKnown ids w ->
  idsKnown (ids ++ launchedIds [e]) w'.
Proof.
  intros Hstep [HT HS]. split.
  - intros k id Hin. apply in_or_app.
    destruct e; cbn [step] in Hstep;
      try (destruct (uploadAreaShown (ui w)); [|discriminate]);
      try (some_inv Hstep).
    + destruct (handleFileSelect_frame selected w) as (T & _).
      rewrite T in Hin. left. eauto.
    + unfold handleDrop in Hin.
      destruct (handleFileSelect_frame (hd_error files) (setDragOver false w))
        as (T & _).
      rewrite T in Hin. left. eauto.
    + left. eauto.
    + left. eauto.
    + destruct (deployButtonEnabled (ui w)); [|discriminate]. some_inv Hstep.
      destruct (file (ui w)) as [f|] eqn:Ef.
      * rewrite (handleDeploy_new_timer f up st w Ef) in Hin.
        apply in_app_or in Hin. destruct Hin as [Hin|Hin]; [left; eauto|].
        destruct up as [u|err]; [destruct st as [d|err]|];
          try contradiction.
        destruct Hin as [Hin|[]]. right. left. congruence.
      * rewrite (handleDeploy_no_file up st w Ef) in Hin. left. eauto.
    + unfold pollRequest in Hstep.
      destruct (timerId k0 (timers w)); [|discriminate]. some_inv Hstep.
      left. eauto.
    + destruct (takeInflight k0 (inflight w)) as [rest|]; [|discriminate].
      some_inv Hstep.
      destruct (pollSettled_timers k0 o (setInflight rest w)) as (_ & T).
      rewrite T in Hin. left.
      destruct (haltingOutcome o); [apply filter_In in Hin|]; 
        [destruct Hin as [Hin _]|]; eauto.
    + destruct (resetButtonShown (ui w)); [|discriminate]. some_inv Hstep.
      left. eauto.
  - intros id Hin. apply in_or_app.
    destruct (step_sent e w w' Hstep)
      as [S|[(k & id' & -> & Hk & S)|(f & up & st & -> & Hf & S)]];
      rewrite S in Hin.
    + left. eauto.
    + apply in_app_or in Hin. destruct Hin as [Hin|[Hin|[]]]; [left; eauto|].
      injection Hin as ->. left. apply timerId_In in Hk. eauto.
    + apply in_app_or in Hin. destruct Hin as [Hin|Hin]; [left; eauto|].
      unfold deployRequests in Hin. destruct Hin as [Hin|Hin]; [discriminate|].
      destruct up as [u|err]; [|contradiction].
      destruct Hin as [Hin|[]]. discriminate.
Qed.

Lemma run_idsKnown (es : list event) (ids : list string) (w w' : World) :
  run es w = Some w' -> idsKnown ids w -> idsKnown (ids ++ launchedIds es) w'.
Proof.
  revert ids w. induction es as [|e es IH]; intros ids w Hrun Hw;
    cbn [run] in Hrun.
  - some_inv Hrun. unfold launchedIds. cbn [flat_map]. now rewrite app_nil_r.
  - destruct (step e w) as [w1|] eqn:E; [|discriminate].
    change (e :: es) with ([e] ++ es).
    rewrite launchedIds_app, app_assoc.
    apply (IH _ w1 Hrun). now apply (step_idsKnown ids e w).
Qed.

(** X10.  In every run of the component, each status request asks for a
    deployment id that the launch endpoint returned earlier in the run,
    and so does every active timer: the poller never polls an id of its
    own making. *)
Theorem polls_only_launched_ids (es : list event) (w : World)
  (Hrun : run es initialWorld = Some w) :
  (forall id, In (StatusReq id) (sent w) -> In id (launchedIds es))
  /\ (forall k id, In (k, id) (timers w) -> In id (launchedIds es)).
Proof.
  assert (K : idsKnown ([] ++ launchedIds es) w).
  { apply (run_idsKnown es [] initialWorld w Hrun).
    split; cbn; intros; contradiction. }
  destruct K as [KT KS]. split; [exact KS|exact KT].
Qed.

(** ** Further properties of the app name *)

Lemma lowerAscii_not_upper (a : ascii) : isUpperAscii (lowerAscii a) = false.
Proof.
  destruct a as [[] [] [] [] [] [] [] []]; vm_compute; reflexivity.
Qed.

Lemma lowerAscii_idempotent (a : ascii) : lowerAscii (lowerAscii a) = lowerAscii a.
Proof.
  destruct a as [[] [] [] [] [] [] [] []]; vm_compute; reflexivity.
Qed.

Lemma toLowerCase_not_upper (s : string) : hasUpperAscii (toLowerCase s) = false.
Proof.
  induction s as [|a s IH]; cbn [toLowerCase hasUpperAscii]; [reflexivity|].
  now rewrite lowerAscii_not_upper, IH.
Qed.

Lemma toLowerCase_idempotent (s : string) :
  toLowerCase (toLowerCase s) = toLowerCase s.
Proof.
  induction s as [|a s IH]; cbn [toLowerCase]; [reflexivity|].
  now rewrite lowerAscii_idempotent, IH.
Qed.

Lemma length_toLowerCase (s : string) :
  String.length (toLowerCase s) = String.length s.
Proof.
  induction s as [|a s IH]; cbn [toLowerCase String.length];
    [reflexivity|now rewrite IH].
Qed.

Lemma lowerAscii_ascii (a : ascii) :
  (nat_of_ascii a <? 128)%nat = true ->
  (nat_of_ascii (lowerAscii a) <? 128)%nat = true.
Proof.
  destruct a as [[] [] [] [] [] [] [] []]; vm_compute; trivial.
Qed.

Lemma isAscii_toLowerCase (s : string) :
  isAscii s = true -> isAscii (toLowerCase s) = true.
Proof.
  induction s as [|a s IH]; cbn [toLowerCase isAscii]; [reflexivity|].
  intros H. apply andb_true_iff in H. destruct H as [Ha Hs].
  now rewrite (lowerAscii_ascii a Ha), (IH Hs).
Qed.

Lemma isAscii_append (a b : string) :
  isAscii (a ++ b) = isAscii a && isAscii b.
Proof.
  induction a as [|c a IH]; cbn [append isAscii]; [reflexivity|].
  now rewrite IH, andb_assoc.
Qed.

Lemma isAscii_drop (n : nat) (s : string) :
  isAscii s = true -> isAscii (drop n s) = true.
Proof.
  revert s. induction n as [|n IH]; intros s H; [exact H|].
  destruct s as [|a s]; [reflexivity|]. cbn [drop]. cbn [isAscii] in H.
  apply andb_true_iff in H. now apply IH.
Qed.

Lemma isAscii_replace (pat s : string) :
  isAscii s = true -> isAscii (replace pat "" s) = true.
Proof.
  induction s as [|a s IH]; intros H; cbn [replace].
  - destruct (startsWith "" pat); [|reflexivity].
    cbn [append]. now apply isAscii_drop.
  - destruct (startsWith (String a s) pat).
    + cbn [append]. now apply isAscii_drop.
    + cbn [isAscii] in *. apply andb_true_iff in H. destruct H as [Ha Hs].
      now rewrite Ha, (IH Hs).
Qed.

(** X12.  For a file whose name is ASCII, the app name is ASCII too and
    holds no capital letter, so lowercasing it again leaves it as it
    is. *)
Theorem app_name_is_lowercase (f : File)
  (Hascii : isAscii (name f) = true) :
  isAscii (appName f) = true
  /\ hasUpperAscii (appName f) = false
  /\ toLowerCase (appName f) = appName f.
Proof.
  unfold appName. split; [|split].
  - apply isAscii_toLowerCase. now apply isAscii_replace.
  - apply toLowerCase_not_upper.
  - apply toLowerCase_idempotent.
Qed.

Lemma take_drop (n : nat) (s : string) :
  (substring 0 n s ++ drop n s)%string = s.
Proof.
  revert s. induction n as [|n IH]; intros s.
  - now destruct s.
  - destruct s as [|a s]; [reflexivity|].
    cbn [substring drop append]. now rewrite IH.
Qed.

Lemma substring_drop (n : nat) (s : string) :
  substring n (String.length s - n) s = drop n s.
Proof.
  revert s. induction n as [|n IH]; intros s.
  - rewrite Nat.sub_0_r. cbn [drop]. apply substring_all.
  - destruct s as [|a s]; [reflexivity|].
    cbn [String.length drop]. rewrite <- IH. reflexivity.
Qed.

Lemma endsWith_split (s t : string) :
  endsWith s t = true -> exists p, s = (p ++ t)%string.
Proof.
  unfold endsWith. intros H. apply andb_true_iff in H. destruct H as [Hle Heq].
  apply Nat.leb_le in Hle. apply String.eqb_eq in Heq.
  remember (String.length s - String.length t) as n eqn:En.
  assert (E : drop n s = t).
  { rewrite <- substring_drop.
    replace (String.length s - n) with (String.length t) by lia.
    exact Heq. }
  exists (substring 0 n s).
  transitivity (substring 0 n s ++ drop n s)%string.
  - symmetry. apply take_drop.
  - now rewrite E.
Qed.

Lemma indexOf_head (pat s : string) :
  startsWith s pat = true -> indexOf pat s = Some 0.
Proof. intros H. destruct s; cbn [indexOf]; now rewrite H. Qed.

Lemma indexOf_append (p t : string) : indexOf t (p ++ t) <> None.
Proof.
  induction p as [|a p IH].
  - cbn [append]. rewrite indexOf_head; [discriminate|].
    rewrite <- (append_empty_r t) at 1. apply startsWith_append.
  - cbn [append indexOf].
    destruct (startsWith (String a (p ++ t)) t); [discriminate|].
    destruct (indexOf t (p ++ t)); [discriminate|contradiction].
Qed.

Lemma startsWith_split (s t : string) :
  startsWith s t = true -> s = (t ++ drop (String.length t) s)%string.
Proof.
  revert s. induction t as [|b t IH]; intros s H.
  - now destruct s.
  - destruct s as [|a s]; [discriminate|].
    cbn [startsWith] in H. apply andb_true_iff in H. destruct H as [Hab H].
    apply Ascii.eqb_eq in Hab. subst b.
    cbn [String.length drop append]. now rewrite <- IH.
Qed.

Lemma replace_length (pat s : string) :
  indexOf pat s <> None ->
  String.length (replace pat "" s) + String.length pat = String.length s.
Proof.
  induction s as [|a s IH]; intros H.
  - cbn [indexOf replace] in *.
    destruct (startsWith "" pat) eqn:E; [|contradiction].
    destruct pat; [reflexivity|discriminate].
  - cbn [indexOf replace] in *.
    destruct (startsWith (String a s) pat) eqn:E.
    + cbn [append].
      rewrite (startsWith_split _ _ E) at 2.
      rewrite length_append. lia.
    + cbn [String.length]. rewrite <- IH; [reflexivity|].
      destruct (indexOf pat s); [discriminate|contradiction].
Qed.

(** X13.  For a file the selection accepts (its name ends in '.zip')
    and whose name is ASCII, the app name is exactly four characters
    shorter than the file name: one '.zip' is removed, never more and
    never none.  So a file named just '.zip' is deployed under the empty
    app name. *)
Theorem app_name_length (f : File)
  (Hascii : isAscii (name f) = true)
  (Hzip : endsWith (name f) ".zip" = true) :
  String.length (appName f) + 4 = String.length (name f)
  /\ (name f = ".zip" -> appName f = "").
Proof.
  split.
  - unfold appName. rewrite length_toLowerCase.
    apply (replace_length ".zip" (name f)).
    destruct (endsWith_split _ _ Hzip) as [p ->]. apply indexOf_append.
  - intros Hname. unfold appName. rewrite Hname. reflexivity.
Qed.

(** * The agent tab *)

Module AgentTabFacts.

Import AgentTab.

Ltac unfold_agent :=
  cbn [callAgent_start callAgent_settled setResourceGroup setLoading
       setResults setError post setPending withUi
       ui pending sent resourceGroup loading results error] in *.

Lemma objGet_objSet_same (k : string) (v : Json) (o : Obj) :
  objGet k (objSet k v o) = Some v.
Proof.
  induction o as [|[k' v'] o IH]; cbn [objSet objGet].
  - now rewrite String.eqb_refl.
  - destruct (String.eqb k' k) eqn:E; cbn [objGet].
    + now rewrite String.eqb_refl.
    + now rewrite E.
Qed.

Lemma objGet_objSet_other (j k : string) (v : Json) (o : Obj) :
  j <> k -> objGet j (objSet k v o) = objGet j o.
Proof.
  intros Hjk. induction o as [|[k' v'] o IH]; cbn [objSet objGet].
  - destruct (String.eqb k j) eqn:E; [|reflexivity].
    apply String.eqb_eq in E. congruence.
  - destruct (String.eqb k' k) eqn:E; cbn [objGet].
    + apply String.eqb_eq in E. subst k'.
      destruct (String.eqb k j) eqn:E2; [|reflexivity].
      apply String.eqb_eq in E2. congruence.
    + destruct (String.eqb k' j); [reflexivity|exact IH].
Qed.

Lemma takePending_In (t : string) (l rest : list string) :
  takePending t l = Some rest ->
  In t l /\ (forall x, In x rest -> In x l).
Proof.
  revert rest. induction l as [|t' l IH]; intros rest; cbn [takePending];
    [discriminate|].
  destruct (String.eqb t' t) eqn:E.
  - apply String.eqb_eq in E. intros H. apply Some_eq in H. subst. 
    split; [now left|]. intros x Hx. now right.
  - destruct (takePending t l) as [r|]; [|discriminate].
    intros H. apply Some_eq in H. subst rest.
    destruct (IH r eq_refl) as [H1 H2].
    split; [now right|]. intros x [Hx|Hx]; [now left|right; auto].
Qed.

(** X14.  When a call of an agent resolves, its response becomes the
    result shown for that agent, the results of all other agents are
    left as they were, and the running mark is removed; the error
    message is not touched. *)
Theorem agent_result_stored (w w' : World) (t : string) (data : Json)
  (Hstep : step (Settled t (Resolved data)) w = Some w') :
  objGet t (results (ui w')) = Some data
  /\ (forall j, j <> t -> objGet j (results (ui w')) = objGet j (results (ui w)))
  /\ loading (ui w') = None
  /\ error (ui w') = error (ui w)
  /\ sent w' = sent w.
Proof.
  cbn [step] in Hstep.
  destruct (takePending t (pending w)) as [rest|]; [|discriminate].
  some_inv Hstep. unfold_agent.
  split; [apply objGet_objSet_same|].
  split; [intros j Hj; now apply objGet_objSet_other|].
  repeat split.
Qed.

(** X15.  When a call of an agent throws, the error shown is the
    server's detail when that is a non-empty string and the error's own
    message otherwise; every result obtained before, also that of the
    same agent, stays as it was, and the running mark is removed. *)
Theorem agent_failure_keeps_results (w w' : World) (t : string)
  (err : AxiosError)
  (Hstep : step (Settled t (Rejected err)) w = Some w') :
  results (ui w') = results (ui w)
  /\ error (ui w')
     = Some match err_detail err with
            | Some d => if String.eqb d "" then err_message err else d
            | None => err_message err
            end
  /\ loading (ui w') = None
  /\ sent w' = sent w.
Proof.
  cbn [step] in Hstep.
  destruct (takePending t (pending w)) as [rest|]; [|discriminate].
  some_inv Hstep. unfold_agent.
  split; [reflexivity|]. split; [|split; reflexivity].
  unfold errorText. destruct (err_detail err) as [d|]; cbn [truthy interpolate];
    [|reflexivity].
  now destruct (String.eqb d "").
Qed.

Lemma agent_step_results (t : string) (e : event) (w w' : World) :
  deliversResult t e = false -> step e w = Some w' ->
  objGet t (results (ui w')) = objGet t (results (ui w)).
Proof.
  intros He Hstep. destruct e as [v|i|t' [data|err]]; cbn [step] in Hstep.
  - some_inv Hstep. reflexivity.
  - destruct (nth_error agents i) as [a|]; [|discriminate].
    destruct (isLoading a (ui w)); [discriminate|]. some_inv Hstep.
    reflexivity.
  - destruct (takePending t' (pending w)) as [rest|]; [|discriminate].
    some_inv Hstep. unfold_agent. cbn [deliversResult] in He.
    apply objGet_objSet_other. apply String.eqb_neq in He. congruence.
  - destruct (takePending t' (pending w)) as [rest|]; [|discriminate].
    some_inv Hstep. reflexivity.
Qed.

(** X16.  A result shown for an agent is never lost or changed by
    anything but a later response for the same agent: typing, calls of
    any agent, responses for other agents and failed calls all leave
    it as it is. *)
Theorem agent_result_kept (es : list event) (w w' : World) (t : string)
  (Hes : forallb (fun e => negb (deliversResult t e)) es = true)
  (Hrun : run es w = Some w') :
  objGet t (results (ui w')) = objGet t (results (ui w)).
Proof.
  revert w Hrun. induction es as [|e es IH]; intros w Hrun; cbn [run] in Hrun.
  - now some_inv Hrun.
  - cbn [forallb] in Hes. apply andb_true_iff in Hes.
    destruct Hes as [He Hes]. apply negb_true_iff in He.
    destruct (step e w) as [w1|] eqn:E; [|discriminate].
    rewrite (IH Hes w1 Hrun). now apply (agent_step_results t e).
Qed.

Lemma agents_nth (i : nat) (a : Agent) :
  nth_error agents i = Some a ->
  In (id a) (map id agents)
  /\ In ("/api/" ++ endpoint a)%string agentUrls.
Proof.
  intros H. apply nth_error_In in H. split.
  - now apply in_map.
  - unfold agentUrls. now apply (in_map (fun a => ("/api/" ++ endpoint a)%string)).
Qed.

Lemma agent_step_consistent (e : event) (w w' : World) :
  step e w = Some w' -> consistent w -> consistent w'.
Proof.
  intros Hstep (HL & HP & HS). destruct e as [v|i|t o]; cbn [step] in Hstep.
  - some_inv Hstep. repeat split; assumption.
  - destruct (nth_error agents i) as [a|] eqn:Ea; [|discriminate].
    destruct (isLoading a (ui w)); [discriminate|]. some_inv Hstep.
    destruct (agents_nth i a Ea) as [Hid Hurl].
    unfold consistent. unfold_agent. repeat split.
    + intros t Ht. apply Some_eq in Ht. subst t.
      apply in_or_app. right. now left.
    + intros t Ht. apply in_app_or in Ht. destruct Ht as [Ht|[Ht|[]]];
        [auto|now subst t].
    + intros r Hr. apply in_app_or in Hr. destruct Hr as [Hr|[Hr|[]]];
        [auto|now subst r].
  - destruct (takePending t (pending w)) as [rest|] eqn:E; [|discriminate].
    some_inv Hstep. destruct (takePending_In t _ _ E) as [_ Hsub].
    unfold consistent. destruct o as [data|err]; unfold_agent;
      (repeat split; [discriminate|auto|auto]).
Qed.

(** X17.  In every run of the agent tab: a card is shown as running
    only while a call of that agent is pending, only agents of the table
    are ever called, and every request goes to the URL of one of the
    three agents. *)
Theorem agent_tab_consistent (es : list event) (w : World)
  (Hrun : run es initialWorld = Some w) :
  (forall t, loading (ui w) = Some t -> In t (pending w))
  /\ (forall t, In t (pending w) -> In t (map id agents))
  /\ (forall r, In r (sent w) -> In (url r) agentUrls).
Proof.
  assert (C : consistent initialWorld).
  { repeat split; cbn; intros; try discriminate; contradiction. }
  revert C Hrun. generalize initialWorld as w0. 
  induction es as [|e es IH]; intros w0 C Hrun; cbn [run] in Hrun.
  - some_inv Hrun. exact C.
  - destruct (step e w0) as [w1|] eqn:E; [|discriminate].
    apply (IH w1); [now apply (agent_step_consistent e w0)|exact Hrun].
Qed.

(** X18.  The guard against a second call protects only the agent
    clicked last: after agent [a] is started and then another agent [b],
    agent [a] can be started again although its first call is still
    pending, so that two calls of [a] are in flight and three requests
    were sent. *)
Theorem agent_guard_covers_last_click_only (w : World) (i j : nat)
  (a b : Agent)
  (Ha : nth_error agents i = Some a)
  (Hb : nth_error agents j = Some b)
  (Hab : id a <> id b)
  (Hidle : isLoading a (ui w) = false) :
  exists w',
    run [ClickAgent i; ClickAgent j; ClickAgent i] w = Some w'
    /\ pending w' = pending w ++ [id a; id b; id a]
    /\ List.length (sent w') = List.length (sent w) + 3
    /\ loading (ui w') = Some (id a).
Proof.
  cbn [run step]. rewrite Ha, Hidle, Hb.
  assert (E1 : isLoading b (ui (callAgent_start (id a) (endpoint a) w)) = false).
  { unfold isLoading. unfold_agent. now apply String.eqb_neq. }
  rewrite E1.
  assert (E2 : isLoading a
                 (ui (callAgent_start (id b) (endpoint b)
                        (callAgent_start (id a) (endpoint a) w))) = false).
  { unfold isLoading. unfold_agent. apply String.eqb_neq. congruence. }
  rewrite E2. eexists. split; [reflexivity|]. unfold_agent.
  rewrite <- !app_assoc. cbn [app]. rewrite !length_app. cbn [List.length].
  repeat split; lia.
Qed.

(** The statements at concrete sessions. *)

Lemma agent_result_stored_witness :
  step (Settled "optimize" (Resolved "{}")) (after [ClickAgent 0])
  = Some (after [ClickAgent 0; Settled "optimize" (Resolved "{}")])
  /\ objGet "optimize"
       (results (ui (after [ClickAgent 0; Settled "optimize" (Resolved "{}")])))
     = Some "{}"
  /\ "cost" <> "optimize"
  /\ objGet "cost"
       (results (ui (after [ClickAgent 0; Settled "optimize" (Resolved "{}")])))
     = objGet "cost" (results (ui (after [ClickAgent 0]))).
Proof.
  assert (H1 : step (Settled "optimize" (Resolved "{}")) (after [ClickAgent 0])
               = Some (after [ClickAgent 0; Settled "optimize" (Resolved "{}")]))
    by by_evaluation.
  assert (H2 : "cost" <> "optimize") by discriminate.
  pose proof (agent_result_stored _ _ "optimize" "{}" H1) as W.
  split; [exact H1|]. split; [exact (proj1 W)|]. split; [exact H2|].
  exact (proj1 (proj2 W) "cost" H2).
Defined.

Lemma agent_failure_keeps_results_witness :
  step (Settled "optimize" (Rejected networkError))
       (after [ClickAgent 0; Settled "optimize" (Resolved "{}"); ClickAgent 0])
  = Some (after [ClickAgent 0; Settled "optimize" (Resolved "{}"); ClickAgent 0;
                 Settled "optimize" (Rejected networkError)])
  /\ results (ui (after [ClickAgent 0; Settled "optimize" (Resolved "{}");
                         ClickAgent 0;
                         Settled "optimize" (Rejected networkError)]))
     = results (ui (after [ClickAgent 0; Settled "optimize" (Resolved "{}");
                           ClickAgent 0])).
Proof.
  assert (H1 : step (Settled "optimize" (Rejected networkError))
                 (after [ClickAgent 0; Settled "optimize" (Resolved "{}");
                         ClickAgent 0])
               = Some (after [ClickAgent 0; Settled "optimize" (Resolved "{}");
                              ClickAgent 0;
                              Settled "optimize" (Rejected networkError)]))
    by by_evaluation.
  split; [exact H1|].
  exact (proj1 (agent_failure_keeps_results _ _ "optimize" networkError H1)).
Defined.

Lemma agent_result_kept_witness :
  forallb (fun e => negb (deliversResult "optimize" e))
    [ClickAgent 1; ClickAgent 0; Settled "cost" (Resolved "[]");
     Settled "optimize" (Rejected networkError)] = true
  /\ run [ClickAgent 1; ClickAgent 0; Settled "cost" (Resolved "[]");
          Settled "optimize" (Rejected networkError)]
         (after [ClickAgent 0; Settled "optimize" (Resolved "{}")])
     = Some (after [ClickAgent 0; Settled "optimize" (Resolved "{}");
                    ClickAgent 1; ClickAgent 0; Settled "cost" (Resolved "[]");
                    Settled "optimize" (Rejected networkError)])
  /\ objGet "optimize"
       (results (ui (after [ClickAgent 0; Settled "optimize" (Resolved "{}");
                            ClickAgent 1; ClickAgent 0;
                            Settled "cost" (Resolved "[]");
                            Settled "optimize" (Rejected networkError)])))
     = objGet "optimize"
         (results (ui (after [ClickAgent 0; Settled "optimize" (Resolved "{}")]))).
Proof.
  assert (H1 : forallb (fun e => negb (deliversResult "optimize" e))
                 [ClickAgent 1; ClickAgent 0; Settled "cost" (Resolved "[]");
                  Settled "optimize" (Rejected networkError)] = true)
    by by_evaluation.
  assert (H2 : run [ClickAgent 1; ClickAgent 0; Settled "cost" (Resolved "[]");
                    Settled "optimize" (Rejected networkError)]
                 (after [ClickAgent 0; Settled "optimize" (Resolved "{}")])
               = Some (after [ClickAgent 0; Settled "optimize" (Resolved "{}");
                              ClickAgent 1; ClickAgent 0;
                              Settled "cost" (Resolved "[]");
                              Settled "optimize" (Rejected networkError)]))
    by by_evaluation.
  split; [exact H1|]. split; [exact H2|].
  exact (agent_result_kept _ _ _ "optimize" H1 H2).
Defined.

Lemma agent_tab_consistent_witness :
  run [ClickAgent 2] initialWorld = Some (after [ClickAgent 2])
  /\ loading (ui (after [ClickAgent 2])) = Some "security"
  /\ In "security" (pending (after [ClickAgent 2]))
  /\ In {| url := "/api/check/security"; resource_group := "agentic-rg" |}
        (sent (after [ClickAgent 2]))
  /\ In "/api/check/security" agentUrls.
Proof.
  assert (H1 : run [ClickAgent 2] initialWorld = Some (after [ClickAgent 2]))
    by by_evaluation.
  assert (H2 : loading (ui (after [ClickAgent 2])) = Some "security")
    by by_evaluation.
  assert (H3 : In {| url := "/api/check/security";
                     resource_group := "agentic-rg" |}
                  (sent (after [ClickAgent 2]))) by (vm_compute; now left).
  pose proof (agent_tab_consistent _ _ H1) as W.
  split; [exact H1|]. split; [exact H2|].
  split; [exact (proj1 W "security" H2)|]. split; [exact H3|].
  exact (proj2 (proj2 W) _ H3).
Defined.

Lemma agent_guard_covers_last_click_only_witness :
  nth_error agents 0 = Some {| id := "optimize"; endpoint := "optimize/resources" |}
  /\ nth_error agents 1 = Some {| id := "cost"; endpoint := "analyze/costs" |}
  /\ "optimize" <> "cost"
  /\ isLoading {| id := "optimize"; endpoint := "optimize/resources" |}
       (ui initialWorld) = false
  /\ exists w',
       run [ClickAgent 0; ClickAgent 1; ClickAgent 0] initialWorld = Some w'
       /\ pending w' = pending initialWorld ++ ["optimize"; "cost"; "optimize"]
       /\ List.length (sent w') = List.length (sent initialWorld) + 3
       /\ loading (ui w') = Some "optimize".
Proof.
  assert (H3 : "optimize" <> "cost") by discriminate.
  split; [reflexivity|]. split; [reflexivity|]. split; [exact H3|].
  split; [reflexivity|].
  exact (agent_guard_covers_last_click_only initialWorld 0 1
           {| id := "optimize"; endpoint := "optimize/resources" |}
           {| id := "cost"; endpoint := "analyze/costs" |}
           eq_refl eq_refl H3 eq_refl).
Defined.

End AgentTabFacts.

(** * The query tab *)

Module QueryTabFacts.

Import QueryTab.

Ltac unfold_query :=
  cbn [handleSubmit_start handleSubmit_settled setQuery setResourceGroup
       setLoading setResult setError post withUi
       ui pending sent query resourceGroup loading result error] in *.

Lemma orUndefined_not_empty (v : string) : orUndefined v <> Some "".
Proof.
  unfold orUndefined. cbn [truthy].
  destruct (String.eqb v "") eqn:E; cbn [negb]; [discriminate|].
  apply String.eqb_neq in E. congruence.
Qed.

Lemma query_step_consistent (e : event) (w w' : World) :
  step e w = Some w' -> consistent w -> consistent w'.
Proof.
  intros Hstep (HP & HL & HC & HX & HS).
  destruct e as [v|v| |o]; cbn [step] in Hstep.
  - some_inv Hstep. exact (conj HP (conj HL (conj HC (conj HX HS)))).
  - some_inv Hstep. exact (conj HP (conj HL (conj HC (conj HX HS)))).
  - destruct (String.eqb (query (ui w)) "") eqn:Eq; [discriminate|].
    destruct (loading (ui w)) eqn:El; [discriminate|]. cbn [orb] in Hstep.
    some_inv Hstep.
    assert (P0 : pending w = 0).
    { destruct (pending w) as [|[|n]]; [reflexivity| |lia].
      destruct HL as [_ HL]. specialize (HL eq_refl). discriminate. }
    unfold consistent. unfold_query. rewrite P0.
    split; [lia|]. split; [split; reflexivity|].
    split; [intros _; split; reflexivity|]. split; [now left|].
    intros r Hr. apply in_app_or in Hr. destruct Hr as [Hr|[Hr|[]]];
      [now apply HS|]. subst r. cbn [req_query req_resource_group].
    split; [now apply String.eqb_neq|apply orUndefined_not_empty].
  - destruct (pending w) as [|n] eqn:Pn; [discriminate|]. some_inv Hstep.
    assert (N0 : n = 0) by lia. subst n.
    assert (L : loading (ui w) = true) by now apply HL.
    destruct (HC L) as [Hr He].
    unfold consistent. destruct o as [data|err]; unfold_query.
    + split; [lia|]. split; [split; discriminate|].
      split; [discriminate|]. split; [now right|exact HS].
    + split; [lia|]. split; [split; discriminate|].
      split; [discriminate|]. split; [now left|exact HS].
Qed.

Lemma query_run_consistent (es : list event) (w w' : World) :
  run es w = Some w' -> consistent w -> consistent w'.
Proof.
  revert w. induction es as [|e es IH]; intros w Hrun C; cbn [run] in Hrun.
  - now some_inv Hrun.
  - destruct (step e w) as [w1|] eqn:E; [|discriminate].
    apply (IH w1 Hrun). now apply (query_step_consistent e w).
Qed.

Lemma query_initial_consistent : consistent initialWorld.
Proof.
  unfold consistent. cbn. repeat split; try discriminate; try lia; auto;
    contradiction.
Qed.

(** X19.  In every run of the query tab a result and an error are never
    shown together, at most one query is in flight, the tab is marked as
    loading exactly while one is, and while it is loading neither a
    result nor an error of an earlier query is shown. *)
Theorem query_result_error_exclusive (es : list event) (w : World)
  (Hrun : run es initialWorld = Some w) :
  (result (ui w) = None \/ error (ui w) = None)
  /\ pending w <= 1
  /\ (loading (ui w) = true <-> pending w = 1)
  /\ (loading (ui w) = true -> result (ui w) = None /\ error (ui w) = None).
Proof.
  destruct (query_run_consistent es initialWorld w Hrun query_initial_consistent)
    as (HP & HL & HC & HX & _).
  repeat split; try tauto; try apply HC; try assumption; apply HL; assumption.
Qed.

(** X20.  In every run of the query tab, no request carries an empty
    query, and none carries an empty resource group: an empty resource
    group field is sent as absent. *)
Theorem query_requests_wellformed (es : list event) (w : World) (r : Request)
  (Hrun : run es initialWorld = Some w)
  (Hsent : In r (sent w)) :
  req_query r <> "" /\ req_resource_group r <> Some "".
Proof.
  destruct (query_run_consistent es initialWorld w Hrun query_initial_consistent)
    as (_ & _ & _ & _ & HS).
  now apply HS.
Qed.

(** The statements at a concrete session. *)

Lemma query_result_error_exclusive_witness :
  run [TypeQuery "list idle VMs"; Submit; Settled (Rejected networkError);
       Submit] initialWorld
  = Some (after [TypeQuery "list idle VMs"; Submit;
                 Settled (Rejected networkError); Submit])
  /\ loading (ui (after [TypeQuery "list idle VMs"; Submit;
                         Settled (Rejected networkError); Submit])) = true
  /\ pending (after [TypeQuery "list idle VMs"; Submit;
                     Settled (Rejected networkError); Submit]) = 1
  /\ error (ui (after [TypeQuery "list idle VMs"; Submit;
                       Settled (Rejected networkError); Submit])) = None.
Proof.
  assert (H1 : run [TypeQuery "list idle VMs"; Submit;
                    Settled (Rejected networkError); Submit] initialWorld
               = Some (after [TypeQuery "list idle VMs"; Submit;
                              Settled (Rejected networkError); Submit]))
    by by_evaluation.
  assert (H2 : loading (ui (after [TypeQuery "list idle VMs"; Submit;
                                   Settled (Rejected networkError); Submit]))
               = true) by by_evaluation.
  pose proof (query_result_error_exclusive _ _ H1) as W.
  split; [exact H1|]. split; [exact H2|].
  split; [exact (proj1 (proj1 (proj2 (proj2 W))) H2)|].
  exact (proj2 (proj2 (proj2 (proj2 W)) H2)).
Defined.

Lemma query_requests_wellformed_witness :
  run [TypeQuery "list idle VMs"; Submit] initialWorld
  = Some (after [TypeQuery "list idle VMs"; Submit])
  /\ In {| req_query := "list idle VMs"; req_resource_group := None |}
        (sent (after [TypeQuery "list idle VMs"; Submit]))
  /\ "list idle VMs" <> ""
  /\ @None string <> Some "".
Proof.
  assert (H1 : run [TypeQuery "list idle VMs"; Submit] initialWorld
               = Some (after [TypeQuery "list idle VMs"; Submit]))
    by by_evaluation.
  assert (H2 : In {| req_query := "list idle VMs"; req_resource_group := None |}
                  (sent (after [TypeQuery "list idle VMs"; Submit])))
    by (vm_compute; now left).
  split; [exact H1|]. split; [exact H2|].
  exact (query_requests_wellformed _ _ _ H1 H2).
Defined.

End QueryTabFacts.

(** * The vision tab *)

Module VisionTabFacts.

Import VisionTab.

Ltac unfold_vision :=
  cbn [handleFileSelect handleDrop readerLoadEnd handleGenerate_start
       handleGenerate_settled setImage setImagePreview setLoading
       setBicepCode setError setDragOver readAsDataURL post withUi
       createObjectURL revokeObjectURL createElement appendChild removeChild
       ui reading pending sent body nextNode objectUrls nextUrl downloads
       image imagePreview loading bicepCode error dragOver] in *.

Lemma handleFileSelect_consistent (sel : option ImageFile) (w : World) :
  consistent w -> consistent (handleFileSelect sel w).
Proof.
  intros (HI & HS & HV & HR & HP & HL & HC & HB & HU).
  unfold handleFileSelect.
  destruct sel as [f|]; [destruct (startsWith (type f) "image/") eqn:E|];
    unfold consistent; unfold_vision.
  - split; [intros g Hg; apply Some_eq in Hg; now subst g|].
    split; [exact HS|]. split; [discriminate|]. split; [discriminate|].
    exact (conj HP (conj HL (conj HC (conj HB HU)))).
  - exact (conj HI (conj HS (conj HV (conj HR (conj HP (conj HL
             (conj HC (conj HB HU)))))))).
  - exact (conj HI (conj HS (conj HV (conj HR (conj HP (conj HL
             (conj HC (conj HB HU)))))))).
Qed.

Lemma filter_fresh (a : nat) (l : list nat) :
  (forall n, In n l -> n < a) ->
  filter (fun n => negb (Nat.eqb n a)) (l ++ [a]) = l.
Proof.
  intros H. rewrite filter_app. cbn [filter]. rewrite Nat.eqb_refl.
  cbn [negb]. rewrite app_nil_r.
  induction l as [|n l IH]; [reflexivity|]. cbn [filter].
  assert (Hn : n < a) by (apply H; now left).
  destruct (Nat.eqb n a) eqn:E; [apply Nat.eqb_eq in E; lia|].
  cbn [negb]. f_equal. apply IH. intros m Hm. apply H. now right.
Qed.

Lemma filter_fresh_url (u : nat) (t : string) (l : list (nat * string)) :
  (forall v x, In (v, x) l -> v < u) ->
  filter (fun p => negb (Nat.eqb (fst p) u)) (l ++ [(u, t)]) = l.
Proof.
  intros H. rewrite filter_app. cbn [filter fst]. rewrite Nat.eqb_refl.
  cbn [negb]. rewrite app_nil_r.
  induction l as [|[v x] l IH]; [reflexivity|]. cbn [filter fst].
  assert (Hv : v < u) by (apply (H v x); now left).
  destruct (Nat.eqb v u) eqn:E; [apply Nat.eqb_eq in E; lia|].
  cbn [negb]. f_equal. apply IH. intros m y Hm. apply (H m y). now right.
Qed.

Lemma urlText_fresh (u : nat) (t : string) (l : list (nat * string)) :
  (forall v x, In (v, x) l -> v < u) ->
  urlText u (l ++ [(u, t)]) = Some t.
Proof.
  intros H. induction l as [|[v x] l IH]; cbn [app urlText].
  - now rewrite Nat.eqb_refl.
  - assert (Hv : v < u) by (apply (H v x); now left).
    destruct (Nat.eqb v u) eqn:E; [apply Nat.eqb_eq in E; lia|].
    apply IH. intros m y Hm. apply (H m y). now right.
Qed.

(** What a download does to a world whose node ids and URLs are fresh. *)
Lemma handleDownload_effect (w : World) (code : string) :
  bicepCode (ui w) = Some code -> code <> "" ->
  (forall n, In n (body w) -> n < nextNode w) ->
  (forall u t, In (u, t) (objectUrls w) -> u < nextUrl w) ->
  handleDownload w
  = {| ui := ui w; reading := reading w; pending := pending w;
       sent := sent w; body := body w; nextNode := S (nextNode w);
       objectUrls := objectUrls w; nextUrl := S (nextUrl w);
       downloads := downloads w ++ [("main.bicep", code)] |}.
Proof.
  intros Hcode Hne HB HU. unfold handleDownload. rewrite Hcode.
  cbn [truthy interpolate]. apply String.eqb_neq in Hne. rewrite Hne.
  cbn [negb]. unfold click. unfold_vision.
  rewrite (urlText_fresh (nextUrl w) code (objectUrls w) HU).
  unfold revokeObjectURL, removeChild.
  cbn [ui reading pending sent body nextNode objectUrls nextUrl downloads].
  rewrite (filter_fresh (nextNode w) (body w) HB).
  rewrite (filter_fresh_url (nextUrl w) code (objectUrls w) HU).
  reflexivity.
Qed.

Lemma vision_step_consistent (e : event) (w w' : World) :
  step e w = Some w' -> consistent w -> consistent w'.
Proof.
  intros Hstep C. destruct e as [sel|files| | |result| |o|]; cbn [step] in Hstep.
  - some_inv Hstep. now apply handleFileSelect_consistent.
  - some_inv Hstep. unfold handleDrop.
    apply handleFileSelect_consistent. exact C.
  - some_inv Hstep. exact C.
  - some_inv Hstep. exact C.
  - destruct C as (HI & HS & HV & HR & HP & HL & HC & HB & HU).
    destruct (reading w) as [|n] eqn:R; [discriminate|]. some_inv Hstep.
    unfold consistent. unfold_vision.
    split; [exact HI|]. split; [exact HS|].
    split; [intros _; apply HR; lia|].
    split; [intros _; apply HR; lia|].
    exact (conj HP (conj HL (conj HC (conj HB HU)))).
  - destruct C as (HI & HS & HV & HR & HP & HL & HC & HB & HU).
    destruct (image (ui w)) as [f|] eqn:Ei; [|discriminate].
    destruct (loading (ui w)) eqn:El; [discriminate|]. some_inv Hstep.
    assert (P0 : pending w = 0).
    { destruct (pending w) as [|[|n]]; [reflexivity| |lia].
      destruct HL as [_ HL]. specialize (HL eq_refl). discriminate. }
    unfold handleGenerate_start. rewrite Ei.
    unfold consistent. unfold_vision. rewrite P0, Ei.
    split; [exact HI|].
    split.
    { intros g Hg. apply in_app_or in Hg. destruct Hg as [Hg|[Hg|[]]];
        [now apply HS|]. subst g. now apply HI. }
    split; [exact HV|]. split; [exact HR|]. split; [lia|].
    split; [split; reflexivity|]. split; [reflexivity|].
    exact (conj HB HU).
  - destruct C as (HI & HS & HV & HR & HP & HL & HC & HB & HU).
    destruct (pending w) as [|n] eqn:Pn; [discriminate|]. some_inv Hstep.
    assert (N0 : n = 0) by lia. subst n.
    unfold consistent. destruct o as [data|err]; unfold_vision;
      (split; [exact HI|]; split; [exact HS|]; split; [exact HV|];
       split; [exact HR|]; split; [lia|]; split; [split; discriminate|];
       split; [discriminate|]; exact (conj HB HU)).
  - destruct C as (HI & HS & HV & HR & HP & HL & HC & HB & HU).
    destruct (truthy (bicepCode (ui w))) eqn:T; [|discriminate].
    some_inv Hstep.
    destruct (bicepCode (ui w)) as [code|] eqn:Ec; [|discriminate T].
    cbn [truthy] in T. apply negb_true_iff in T. apply String.eqb_neq in T.
    rewrite (handleDownload_effect w code Ec T HB HU).
    unfold consistent. cbn [ui reading pending sent body nextNode objectUrls
                            nextUrl downloads].
    split; [exact HI|]. split; [exact HS|]. split; [exact HV|].
    split; [exact HR|]. split; [exact HP|]. split; [exact HL|].
    split; [intros L; specialize (HC L); discriminate HC|].
    split.
    + intros n Hn. specialize (HB n Hn). lia.
    + intros u t Hu. specialize (HU u t Hu). lia.
Qed.

Lemma vision_run_consistent (es : list event) (w w' : World) :
  run es w = Some w' -> consistent w -> consistent w'.
Proof.
  revert w. induction es as [|e es IH]; intros w Hrun C; cbn [run] in Hrun.
  - now some_inv Hrun.
  - destruct (step e w) as [w1|] eqn:E; [|discriminate].
    apply (IH w1 Hrun). now apply (vision_step_consistent e w).
Qed.

Lemma vision_initial_consistent : consistent initialWorld.
Proof.
  unfold consistent. cbn.
  repeat split; try discriminate; try lia; try contradiction; auto.
Qed.

(** X21.  In every run of the vision tab, the selected image and every
    file sent to the analyze endpoint have a type that starts with
    'image/', and a preview is shown only when an image is selected. *)
Theorem vision_accepts_images_only (es : list event) (w : World)
  (Hrun : run es initialWorld = Some w) :
  (forall f, image (ui w) = Some f -> startsWith (type f) "image/" = true)
  /\ (forall f, In f (sent w) -> startsWith (type f) "image/" = true)
  /\ (imagePreview (ui w) <> None -> image (ui w) <> None).
Proof.
  destruct (vision_run_consistent es initialWorld w Hrun
              vision_initial_consistent) as (HI & HS & HV & _).
  exact (conj HI (conj HS HV)).
Qed.

(** X22.  In every run of the vision tab at most one analysis is in
    flight, the tab is marked as loading exactly while one is, and while
    it is loading no code of an earlier analysis is shown and the
    download cannot be triggered. *)
Theorem analysis_hides_previous_code (es : list event) (w : World)
  (Hrun : run es initialWorld = Some w) :
  pending w <= 1
  /\ (loading (ui w) = true <-> pending w = 1)
  /\ (loading (ui w) = true ->
      bicepCode (ui w) = None /\ step ClickDownload w = None).
Proof.
  destruct (vision_run_consistent es initialWorld w Hrun
              vision_initial_consistent) as (_ & _ & _ & _ & HP & HL & HC & _).
  split; [exact HP|]. split; [exact HL|].
  intros L. split; [now apply HC|]. cbn [step]. now rewrite (HC L).
Qed.

(** X23.  In every run of the vision tab, a download with code shown
    saves exactly one file, named 'main.bicep', whose content is the
    code shown; afterwards the children of the document body and the
    live object URLs are what they were before (the anchor is removed
    and the URL revoked), and the component state is unchanged. *)
Theorem download_leaves_no_trace (es : list event) (w : World) (code : string)
  (Hrun : run es initialWorld = Some w)
  (Hcode : bicepCode (ui w) = Some code)
  (Hne : code <> "") :
  downloads (handleDownload w) = downloads w ++ [("main.bicep", code)]
  /\ body (handleDownload w) = body w
  /\ objectUrls (handleDownload w) = objectUrls w
  /\ ui (handleDownload w) = ui w
  /\ sent (handleDownload w) = sent w.
Proof.
  destruct (vision_run_consistent es initialWorld w Hrun
              vision_initial_consistent) as (_ & _ & _ & _ & _ & _ & _ & HB & HU).
  rewrite (handleDownload_effect w code Hcode Hne HB HU).
  repeat split.
Qed.

(** X24.  In every run of the vision tab, when an analysis settles the
    code shown is the code of the response: none when the call threw
    (the error is shown instead) and none when the response carried no
    code (then nothing is shown at all); in both cases the download
    cannot be triggered. *)
Theorem generation_result (es : list event) (w w' : World)
  (o : outcome AnalyzeResponse)
  (Hrun : run es initialWorld = Some w)
  (Hstep : step (GenerateSettled o) w = Some w') :
  loading (ui w') = false
  /\ bicepCode (ui w')
     = match o with
       | Resolved data => bicep_code data
       | Rejected _ => None
       end
  /\ error (ui w')
     = match o with
       | Resolved _ => error (ui w)
       | Rejected err => Some (errorText err)
       end
  /\ (bicepCode (ui w') = None -> step ClickDownload w' = None).
Proof.
  destruct (vision_run_consistent es initialWorld w Hrun
              vision_initial_consistent) as (_ & _ & _ & _ & HP & HL & HC & _).
  cbn [step] in Hstep.
  destruct (pending w) as [|n] eqn:Pn; [discriminate|]. some_inv Hstep.
  assert (N0 : n = 0) by lia. subst n.
  assert (L : loading (ui w) = true) by now apply HL.
  specialize (HC L).
  assert (D : forall x : World,
             bicepCode (ui x) = None -> step ClickDownload x = None).
  { intros x Hn. cbn [step]. now rewrite Hn. }
  destruct o as [data|err].
  - repeat (split; [reflexivity|]). apply D.
  - repeat (split; [first [reflexivity | exact HC]|]). apply D.
Qed.

(** The statements at a concrete session. *)

Lemma vision_accepts_images_only_witness :
  run [SelectFile (Some {| name := "notes.txt"; type := "text/plain" |});
       SelectFile (Some {| name := "diagram.png"; type := "image/png" |});
       ClickGenerate] initialWorld
  = Some (after [SelectFile (Some {| name := "notes.txt"; type := "text/plain" |});
                 SelectFile (Some {| name := "diagram.png"; type := "image/png" |});
                 ClickGenerate])
  /\ forall f,
       In f (sent (after
                     [SelectFile (Some {| name := "notes.txt";
                                          type := "text/plain" |});
                      SelectFile (Some {| name := "diagram.png";
                                          type := "image/png" |});
                      ClickGenerate])) ->
       startsWith (type f) "image/" = true.
Proof.
  assert (H1 : run [SelectFile (Some {| name := "notes.txt";
                                        type := "text/plain" |});
                    SelectFile (Some {| name := "diagram.png";
                                        type := "image/png" |});
                    ClickGenerate] initialWorld
               = Some (after [SelectFile (Some {| name := "notes.txt";
                                                  type := "text/plain" |});
                              SelectFile (Some {| name := "diagram.png";
                                                  type := "image/png" |});
                              ClickGenerate]))
    by by_evaluation.
  split; [exact H1|].
  exact (proj1 (proj2 (vision_accepts_images_only _ _ H1))).
Defined.

Lemma analysis_hides_previous_code_witness :
  run [SelectFile (Some {| name := "diagram.png"; type := "image/png" |});
       ClickGenerate;
       GenerateSettled (Resolved {| bicep_code := Some "param location string" |});
       ClickGenerate] initialWorld
  = Some (after [SelectFile (Some {| name := "diagram.png"; type := "image/png" |});
                 ClickGenerate;
                 GenerateSettled
                   (Resolved {| bicep_code := Some "param location string" |});
                 ClickGenerate])
  /\ loading (ui (after [SelectFile (Some {| name := "diagram.png";
                                             type := "image/png" |});
                         ClickGenerate;
                         GenerateSettled
                           (Resolved {| bicep_code :=
                                          Some "param location string" |});
                         ClickGenerate])) = true
  /\ step ClickDownload
          (after [SelectFile (Some {| name := "diagram.png";
                                      type := "image/png" |});
                  ClickGenerate;
                  GenerateSettled
                    (Resolved {| bicep_code := Some "param location string" |});
                  ClickGenerate]) = None.
Proof.
  assert (H1 : run [SelectFile (Some {| name := "diagram.png";
                                        type := "image/png" |});
                    ClickGenerate;
                    GenerateSettled
                      (Resolved {| bicep_code := Some "param location string" |});
                    ClickGenerate] initialWorld
               = Some (after [SelectFile (Some {| name := "diagram.png";
                                                  type := "image/png" |});
                              ClickGenerate;
                              GenerateSettled
                                (Resolved {| bicep_code :=
                                               Some "param location string" |});
                              ClickGenerate]))
    by by_evaluation.
  assert (H2 : loading (ui (after [SelectFile (Some {| name := "diagram.png";
                                                       type := "image/png" |});
                                   ClickGenerate;
                                   GenerateSettled
                                     (Resolved {| bicep_code :=
                                                    Some "param location string" |});
                                   ClickGenerate])) = true)
    by by_evaluation.
  split; [exact H1|]. split; [exact H2|].
  exact (proj2 (proj2 (proj2 (analysis_hides_previous_code _ _ H1)) H2)).
Defined.

Lemma download_leaves_no_trace_witness :
  run [SelectFile (Some {| name := "diagram.png"; type := "image/png" |});
       ClickGenerate;
       GenerateSettled (Resolved {| bicep_code := Some "param location string" |});
       ClickDownload] initialWorld
  = Some (after [SelectFile (Some {| name := "diagram.png"; type := "image/png" |});
                 ClickGenerate;
                 GenerateSettled
                   (Resolved {| bicep_code := Some "param location string" |});
                 ClickDownload])
  /\ bicepCode (ui (after [SelectFile (Some {| name := "diagram.png";
                                               type := "image/png" |});
                           ClickGenerate;
                           GenerateSettled
                             (Resolved {| bicep_code :=
                                            Some "param location string" |});
                           ClickDownload]))
     = Some "param location string"
  /\ "param location string" <> ""
  /\ body (handleDownload
             (after [SelectFile (Some {| name := "diagram.png";
                                         type := "image/png" |});
                     ClickGenerate;
                     GenerateSettled
                       (Resolved {| bicep_code := Some "param location string" |});
                     ClickDownload]))
     = body (after [SelectFile (Some {| name := "diagram.png";
                                        type := "image/png" |});
                    ClickGenerate;
                    GenerateSettled
                      (Resolved {| bicep_code := Some "param location string" |});
                    ClickDownload]).
Proof.
  assert (H1 : run [SelectFile (Some {| name := "diagram.png";
                                        type := "image/png" |});
                    ClickGenerate;
                    GenerateSettled
                      (Resolved {| bicep_code := Some "param location string" |});
                    ClickDownload] initialWorld
               = Some (after [SelectFile (Some {| name := "diagram.png";
                                                  type := "image/png" |});
                              ClickGenerate;
                              GenerateSettled
                                (Resolved {| bicep_code :=
                                               Some "param location string" |});
                              ClickDownload]))
    by by_evaluation.
  assert (H2 : bicepCode (ui (after [SelectFile (Some {| name := "diagram.png";
                                                         type := "image/png" |});
                                     ClickGenerate;
                                     GenerateSettled
                                       (Resolved {| bicep_code :=
                                                      Some "param location string" |});
                                     ClickDownload]))
               = Some "param location string") by by_evaluation.
  assert (H3 : "param location string" <> "") by discriminate.
  split; [exact H1|]. split; [exact H2|]. split; [exact H3|].
  exact (proj1 (proj2 (download_leaves_no_trace _ _ _ H1 H2 H3))).
Defined.

Lemma generation_result_witness :
  run [SelectFile (Some {| name := "diagram.png"; type := "image/png" |});
       ClickGenerate] initialWorld
  = Some (after [SelectFile (Some {| name := "diagram.png"; type := "image/png" |});
                 ClickGenerate])
  /\ step (GenerateSettled (Rejected networkError))
          (after [SelectFile (Some {| name := "diagram.png";
                                      type := "image/png" |});
                  ClickGenerate])
     = Some (after [SelectFile (Some {| name := "diagram.png";
                                        type := "image/png" |});
                    ClickGenerate; GenerateSettled (Rejected networkError)])
  /\ bicepCode (ui (after [SelectFile (Some {| name := "diagram.png";
                                               type := "image/png" |});
                           ClickGenerate;
                           GenerateSettled (Rejected networkError)])) = None.
Proof.
  assert (H1 : run [SelectFile (Some {| name := "diagram.png";
                                        type := "image/png" |});
                    ClickGenerate] initialWorld
               = Some (after [SelectFile (Some {| name := "diagram.png";
                                                  type := "image/png" |});
                              ClickGenerate])) by by_evaluation.
  assert (H2 : step (GenerateSettled (Rejected networkError))
                 (after [SelectFile (Some {| name := "diagram.png";
                                             type := "image/png" |});
                         ClickGenerate])
               = Some (after [SelectFile (Some {| name := "diagram.png";
                                                  type := "image/png" |});
                              ClickGenerate;
                              GenerateSettled (Rejected networkError)]))
    by by_evaluation.
  split; [exact H1|]. split; [exact H2|].
  exact (proj1 (proj2 (generation_result _ _ _ _ H1 H2))).
Defined.

End VisionTabFacts.

(** * The tab bar *)

Module AppFacts.

Import App.

Lemma clickTab_known (i : nat) (t t' : string) :
  clickTab i t = Some t' -> In t' (map fst tabs).
Proof.
  unfold clickTab. destruct (nth_error tabs i) as [p|] eqn:E; [|discriminate].
  intros H. apply Some_eq in H. subst t'.
  apply in_map. now apply nth_error_In with (n := i).
Qed.

Lemma run_known (clicks : list nat) (t0 t : string) :
  In t0 (map fst tabs) -> run clicks t0 = Some t -> In t (map fst tabs).
Proof.
  revert t0. induction clicks as [|i clicks IH]; intros t0 H0 H; cbn [run] in H.
  - apply Some_eq in H. now subst t.
  - destruct (clickTab i t0) as [t1|] eqn:E; [|discriminate].
    apply (IH t1); [now apply (clickTab_known i t0)|exact H].
Qed.

(** X25.  Whatever tab buttons are clicked, exactly one tab component is
    rendered and exactly one button is marked active, the one of the
    tab clicked last (the query tab when none was clicked). *)
Theorem one_tab_rendered (clicks : list nat) (t : string)
  (Hrun : run clicks initialTab = Some t) :
  exists c, rendered t = [c] /\ activeButtons t = [t] /\ In (t, c) tabs.
Proof.
  assert (K : In t (map fst tabs)).
  { apply (run_known clicks initialTab t); [now left|exact Hrun]. }
  cbn in K. destruct K as [<-|[<-|[<-|[<-|[]]]]]; eexists; vm_compute; tauto.
Qed.

Lemma one_tab_rendered_witness :
  run [2; 0; 3] initialTab = Some "agents"
  /\ exists c, rendered "agents" = [c] /\ activeButtons "agents" = ["agents"]
               /\ In ("agents", c) tabs.
Proof.
  assert (H1 : run [2; 0; 3] initialTab = Some "agents") by by_evaluation.
  split; [exact H1|]. exact (one_tab_rendered [2; 0; 3] "agents" H1).
Defined.

End AppFacts.

(** * The further statements about the deployment tab at concrete sessions *)



Lemma launch_hides_upload_controls_witness :
  file (ui (after [SelectFile (Some myApp)])) = Some myApp
  /\ "d-1" <> ""
  /\ uploadAreaShown
       (ui (handleDeploy (Resolved {| upload_id := "u-1" |})
              (Resolved {| deployment_id := "d-1" |})
              (after [SelectFile (Some myApp)]))) = false
  /\ step (SelectFile (Some myApp))
          (handleDeploy (Resolved {| upload_id := "u-1" |})
             (Resolved {| deployment_id := "d-1" |})
             (after [SelectFile (Some myApp)])) = None.
Proof.
  assert (H1 : file (ui (after [SelectFile (Some myApp)])) = Some myApp)
    by by_evaluation.
  assert (H2 : "d-1" <> "") by discriminate.
  pose proof (launch_hides_upload_controls (after [SelectFile (Some myApp)])
                myApp {| upload_id := "u-1" |} {| deployment_id := "d-1" |}
                H1) as W.
  split; [exact H1|]. split; [exact H2|].
  split; [exact (proj1 W)|].
  exact (proj1 (proj2 W H2 (Some myApp) [] okUpload okStart)).
Defined.

Lemma remote_failure_ends_polling_witness :
  step (PollSettled 0 failed) (after (launched ++ [Tick 0]))
  = Some (after remoteFailure)
  /\ status (ui (after remoteFailure)) = Some "failed"
  /\ error (ui (after remoteFailure)) = error (ui (after (launched ++ [Tick 0])))
  /\ resetButtonShown (ui (after remoteFailure)) = false.
Proof.
  assert (H1 : step (PollSettled 0 failed) (after (launched ++ [Tick 0]))
               = Some (after remoteFailure)) by by_evaluation.
  pose proof (remote_failure_ends_polling (after (launched ++ [Tick 0]))
                (after remoteFailure) 0
                {| resp_status := "failed"; resp_message := None;
                   resp_url := None |} eq_refl H1) as W.
  split; [exact H1|]. split; [exact (proj1 W)|].
  split; [exact (proj1 (proj2 (proj2 W)))|].
  exact (proj2 (proj2 (proj2 (proj2 (proj2 (proj2 (proj2 (proj2 W)))))))).
Defined.

Lemma success_without_url_witness :
  step (PollSettled 0 (Resolved {| resp_status := "succeeded";
                                   resp_message := None; resp_url := None |}))
       (after (launched ++ [Tick 0]))
  = Some (after (launched
                 ++ [Tick 0;
                     PollSettled 0
                       (Resolved {| resp_status := "succeeded";
                                    resp_message := None;
                                    resp_url := None |})]))
  /\ status (ui (after (launched
                        ++ [Tick 0;
                            PollSettled 0
                              (Resolved {| resp_status := "succeeded";
                                           resp_message := None;
                                           resp_url := None |})])))
     = Some "succeeded".
Proof.
  assert (H1 : step (PollSettled 0
                       (Resolved {| resp_status := "succeeded";
                                    resp_message := None; resp_url := None |}))
                 (after (launched ++ [Tick 0]))
               = Some (after (launched
                              ++ [Tick 0;
                                  PollSettled 0
                                    (Resolved {| resp_status := "succeeded";
                                                 resp_message := None;
                                                 resp_url := None |})])))
    by by_evaluation.
  split; [exact H1|].
  exact (proj1 (success_without_url _ _ 0
                  {| resp_status := "succeeded"; resp_message := None;
                     resp_url := None |} eq_refl eq_refl H1)).
Defined.

Lemma running_response_continues_witness :
  isRunning {| resp_status := "Succeeded"; resp_message := Some "almost there";
               resp_url := None |} = true
  /\ step (PollSettled 0 (Resolved {| resp_status := "Succeeded";
                                      resp_message := Some "almost there";
                                      resp_url := None |}))
          (after (launched ++ [Tick 0]))
     = Some (after (launched
                    ++ [Tick 0;
                        PollSettled 0
                          (Resolved {| resp_status := "Succeeded";
                                       resp_message := Some "almost there";
                                       resp_url := None |})]))
  /\ status (ui (after (launched
                        ++ [Tick 0;
                            PollSettled 0
                              (Resolved {| resp_status := "Succeeded";
                                           resp_message := Some "almost there";
                                           resp_url := None |})])))
     = status (ui (after (launched ++ [Tick 0])))
  /\ timers (after (launched
                    ++ [Tick 0;
                        PollSettled 0
                          (Resolved {| resp_status := "Succeeded";
                                       resp_message := Some "almost there";
                                       resp_url := None |})]))
     = timers (after (launched ++ [Tick 0])).
Proof.
  assert (H1 : isRunning {| resp_status := "Succeeded";
                            resp_message := Some "almost there";
                            resp_url := None |} = true) by by_evaluation.
  assert (H2 : step (PollSettled 0
                       (Resolved {| resp_status := "Succeeded";
                                    resp_message := Some "almost there";
                                    resp_url := None |}))
                 (after (launched ++ [Tick 0]))
               = Some (after (launched
                              ++ [Tick 0;
                                  PollSettled 0
                                    (Resolved {| resp_status := "Succeeded";
                                                 resp_message :=
                                                   Some "almost there";
                                                 resp_url := None |})])))
    by by_evaluation.
  pose proof (running_response_continues _ _ 0 _ H1 H2) as W.
  split; [exact H1|]. split; [exact H2|].
  split; [exact (proj1 W)|].
  exact (proj1 (proj2 (proj2 W))).
Defined.

Lemma dead_end_witness :
  truthy (deploymentId (ui (after pollThrows))) = true
  /\ statusIs "succeeded" (ui (after pollThrows)) = false
  /\ timers (after pollThrows) = []
  /\ inflight (after pollThrows) = []
  /\ step ClickReset (after pollThrows) = None
  /\ step (SelectFile (Some myApp)) (after pollThrows) = None.
Proof.
  assert (H1 : truthy (deploymentId (ui (after pollThrows))) = true)
    by by_evaluation.
  assert (H2 : statusIs "succeeded" (ui (after pollThrows)) = false)
    by by_evaluation.
  assert (H3 : timers (after pollThrows) = []) by by_evaluation.
  assert (H4 : inflight (after pollThrows) = []) by by_evaluation.
  split; [exact H1|]. split; [exact H2|]. split; [exact H3|].
  split; [exact H4|].
  split; apply (dead_end (after pollThrows) H1 H2 H3 H4).
Defined.

Lemma log_append_only_witness :
  forallb (fun e => negb (replacesLog e)) happyPath = true
  /\ run happyPath (after launched) = Some (after (launched ++ happyPath))
  /\ exists l, logs (ui (after (launched ++ happyPath)))
               = logs (ui (after launched)) ++ l.
Proof.
  assert (H1 : forallb (fun e => negb (replacesLog e)) happyPath = true)
    by by_evaluation.
  assert (H2 : run happyPath (after launched)
               = Some (after (launched ++ happyPath))) by by_evaluation.
  split; [exact H1|]. split; [exact H2|].
  exact (log_append_only happyPath _ _ H1 H2).
Defined.

Lemma polls_only_launched_ids_witness :
  run (launched ++ [Tick 0]) initialWorld = Some (after (launched ++ [Tick 0]))
  /\ In (StatusReq "d-1") (sent (after (launched ++ [Tick 0])))
  /\ In "d-1" (launchedIds (launched ++ [Tick 0])).
Proof.
  assert (H1 : run (launched ++ [Tick 0]) initialWorld
               = Some (after (launched ++ [Tick 0]))) by by_evaluation.
  assert (H2 : In (StatusReq "d-1") (sent (after (launched ++ [Tick 0]))))
    by (vm_compute; tauto).
  split; [exact H1|]. split; [exact H2|].
  exact (proj1 (polls_only_launched_ids _ _ H1) "d-1" H2).
Defined.

Lemma app_name_is_lowercase_witness :
  isAscii (name myApp) = true
  /\ isAscii (appName myApp) = true
  /\ hasUpperAscii (appName myApp) = false.
Proof.
  assert (H1 : isAscii (name myApp) = true) by by_evaluation.
  pose proof (app_name_is_lowercase myApp H1) as W.
  split; [exact H1|]. split; [exact (proj1 W)|]. exact (proj1 (proj2 W)).
Defined.

Lemma app_name_length_witness :
  isAscii (name {| name := ".zip"; size := 0 |}) = true
  /\ endsWith (name {| name := ".zip"; size := 0 |}) ".zip" = true
  /\ String.length (appName {| name := ".zip"; size := 0 |}) + 4
     = String.length (name {| name := ".zip"; size := 0 |})
  /\ appName {| name := ".zip"; size := 0 |} = "".
Proof.
  assert (H0 : isAscii (name {| name := ".zip"; size := 0 |}) = true)
    by by_evaluation.
  assert (H1 : endsWith (name {| name := ".zip"; size := 0 |}) ".zip" = true)
    by by_evaluation.
  pose proof (app_name_length {| name := ".zip"; size := 0 |} H0 H1) as W.
  split; [exact H0|]. split; [exact H1|]. split; [exact (proj1 W)|].
  exact (proj2 W eq_refl).
Defined.

(** * The page: submissions with their awaits, and the tab bar *)

(** ** The pieces of [handleDeploy] *)

(** With nothing between its awaits, a submission is its three pieces
    run one after the other. *)
Lemma handleDeploy_composed (f : File) (up : outcome UploadResponse)
  (st : outcome StartResponse) (w : World) :
  file (ui w) = Some f ->
  handleDeploy up st w
  = match up with
    | Resolved _ =>
        handleDeploy_launched st
          (handleDeploy_uploaded f up (handleDeploy_start f w))
    | Rejected _ => handleDeploy_uploaded f up (handleDeploy_start f w)
    end.
Proof.
  intros Hfile. unfold handleDeploy. rewrite Hfile.
  unfold deploySteps, handleDeploy_launched, handleDeploy_uploaded,
    handleDeploy_start.
  destruct up as [u|e]; [destruct st as [d|e]|]; reflexivity.
Qed.

Lemma handleDeploy_start_outside (f : File) (w : World) :
  timers (handleDeploy_start f w) = timers w
  /\ nextTimer (handleDeploy_start f w) = nextTimer w
  /\ inflight (handleDeploy_start f w) = inflight w
  /\ sent (handleDeploy_start f w) = sent w ++ [UploadReq f].
Proof. unfold handleDeploy_start. unfold_world. repeat split. Qed.

Lemma handleDeploy_uploaded_outside (f : File) (o : outcome UploadResponse)
  (w : World) :
  timers (handleDeploy_uploaded f o w) = timers w
  /\ nextTimer (handleDeploy_uploaded f o w) = nextTimer w
  /\ inflight (handleDeploy_uploaded f o w) = inflight w
  /\ sent (handleDeploy_uploaded f o w)
     = match o with
       | Resolved u => sent w ++ [StartReq (upload_id u) (appName f)]
       | Rejected _ => sent w
       end.
Proof.
  unfold handleDeploy_uploaded, deployFailed.
  destruct o as [u|e]; unfold_world; repeat split.
Qed.

Lemma handleDeploy_launched_outside (o : outcome StartResponse) (w : World) :
  inflight (handleDeploy_launched o w) = inflight w
  /\ sent (handleDeploy_launched o w) = sent w
  /\ timers (handleDeploy_launched o w)
     = match o with
       | Resolved d => timers w ++ [(nextTimer w, deployment_id d)]
       | Rejected _ => timers w
       end
  /\ nextTimer (handleDeploy_launched o w)
     = match o with
       | Resolved _ => S (nextTimer w)
       | Rejected _ => nextTimer w
       end.
Proof.
  unfold handleDeploy_launched, deployFailed.
  destruct o as [d|e]; unfold_world; repeat split.
Qed.

(** ** Callbacks of an instance that is no longer mounted *)

Lemma runCallback_outside (b : bool) (g : World -> World) (w : World) :
  timers (Page.runCallback b g w) = timers (g w)
  /\ nextTimer (Page.runCallback b g w) = nextTimer (g w)
  /\ inflight (Page.runCallback b g w) = inflight (g w)
  /\ sent (Page.runCallback b g w) = sent (g w).
Proof. unfold Page.runCallback. destruct b; unfold_world; repeat split. Qed.

Lemma runCallback_ui (b : bool) (g : World -> World) (w : World) :
  ui (Page.runCallback b g w) = if b then ui (g w) else ui w.
Proof. unfold Page.runCallback. destruct b; reflexivity. Qed.

Lemma In_removeAt (A : Type) (i : nat) (x : A) (l : list A) :
  In x (Page.removeAt i l) -> In x l.
Proof.
  revert i. induction l as [|y l IH]; intros i H; [destruct i; exact H|].
  destruct i as [|i]; cbn [Page.removeAt] in H; [now right|].
  destruct H as [H|H]; [now left|right; eauto].
Qed.

Lemma In_replaceAt (A : Type) (i : nat) (x y : A) (l : list A) :
  In x (Page.replaceAt i y l) -> x = y \/ In x l.
Proof.
  revert i. induction l as [|z l IH]; intros i H; [destruct i; contradiction H|].
  destruct i as [|i]; cbn [Page.replaceAt] in H.
  - destruct H as [H|H]; [now left|right; now right].
  - destruct H as [H|H]; [right; now left|].
    destruct (IH i H) as [E|E]; [now left|right; now right].
Qed.

Lemma ownerOf_In (k n : nat) (l : list (nat * nat)) :
  Page.ownerOf k l = Some n -> In (k, n) l.
Proof.
  induction l as [|[k' n'] l IH]; cbn [Page.ownerOf]; [discriminate|].
  destruct (Nat.eqb k' k) eqn:E.
  - apply Nat.eqb_eq in E. intros H. apply Some_eq in H. subst. now left.
  - intros H. right. now apply IH.
Qed.

Lemma ownerOf_app_other (k k' n : nat) (l : list (nat * nat)) :
  k' <> k -> Page.ownerOf k (l ++ [(k', n)]) = Page.ownerOf k l.
Proof.
  intros Hk. induction l as [|[j m] l IH]; cbn [app Page.ownerOf].
  - destruct (Nat.eqb k' k) eqn:E; [apply Nat.eqb_eq in E; congruence|reflexivity].
  - destruct (Nat.eqb j k); [reflexivity|exact IH].
Qed.

Lemma ownerOf_app_new (k n : nat) (l : list (nat * nat)) :
  Page.ownerOf k l = None -> Page.ownerOf k (l ++ [(k, n)]) = Some n.
Proof.
  induction l as [|[j m] l IH]; cbn [app Page.ownerOf].
  - now rewrite Nat.eqb_refl.
  - destruct (Nat.eqb j k); [discriminate|exact IH].
Qed.

(** ** Runs of the page *)

Lemma play_invariant (P : Page.Page -> Prop) :
  (forall a p p', Page.act a p = Some p' -> P p -> P p') ->
  forall acts p p', Page.play acts p = Some p' -> P p -> P p'.
Proof.
  intros Hact. induction acts as [|a acts IH]; intros p p' Hplay Hp;
    cbn [Page.play] in Hplay.
  - some_inv Hplay. exact Hp.
  - destruct (Page.act a p) as [p1|] eqn:E; [|discriminate].
    eapply IH; [exact Hplay|]. eapply Hact; eauto.
Qed.

Lemma play_app (acts1 acts2 : list Page.action) (p : Page.Page) :
  Page.play (acts1 ++ acts2) p
  = match Page.play acts1 p with
    | Some p1 => Page.play acts2 p1
    | None => None
    end.
Proof.
  revert p. induction acts1 as [|a acts1 IH]; intros p; cbn [app Page.play];
    [reflexivity|].
  destruct (Page.act a p) as [p1|]; [apply IH|reflexivity].
Qed.

(** Project the pages the actions build. *)
Ltac unfold_page :=
  cbn [Page.setWorld Page.activeTab Page.instance Page.world Page.awaiting
       Page.owners] in *.

(** The cases of [H : Page.act a p = Some p'], one per way the action
    can happen. *)
Ltac act_cases H :=
  match type of H with
  | Page.act ?a ?p = Some _ =>
      destruct a as [i|e| |i o|i o|k|k o]; cbn [Page.act] in H;
      [ destruct (App.clickTab i (Page.activeTab p)) as [t|] eqn:Etab;
          [|discriminate H]
      | destruct (Page.mounted p && Page.isUiEvent e) eqn:Eui;
          [|discriminate H];
        destruct (step e (Page.world p)) as [w1|] eqn:Estep;
          [|discriminate H]
      | destruct (Page.mounted p && deployButtonEnabled (ui (Page.world p)))
          eqn:Ebutton; [|discriminate H];
        destruct (file (ui (Page.world p))) as [f|] eqn:Efile
      | destruct (nth_error (Page.awaiting p) i) as [[n [f|]]|] eqn:Enth;
          [|discriminate H|discriminate H]
      | destruct (nth_error (Page.awaiting p) i) as [[n [f|]]|] eqn:Enth;
          [discriminate H| |discriminate H]
      | destruct (pollRequest k (Page.world p)) as [w1|] eqn:Epoll;
          [|discriminate H]
      | destruct (takeInflight k (inflight (Page.world p))) as [rest|] eqn:Etake;
          [|discriminate H] ];
      some_inv H; unfold_page
  end.

Lemma switchTo_world (t : string) (p : Page.Page) :
  Page.world (Page.switchTo t p) = Page.world p
  \/ Page.world (Page.switchTo t p)
     = withUi (fun _ => initialState) (Page.world p).
Proof.
  unfold Page.switchTo.
  destruct (Page.mounted p); destruct (String.eqb t "deploy");
    cbn [Page.world]; auto.
Qed.


Lemma timersFresh_outside (w w' : World) :
  timers w' = timers w -> nextTimer w' = nextTimer w ->
  inflight w' = inflight w -> timersFresh w -> timersFresh w'.
Proof.
  intros T N I [HT HI]. unfold timersFresh. rewrite T, N, I. now split.
Qed.

Lemma step_PollSettled (k : nat) (o : outcome StatusResponse)
  (rest : list nat) (w : World) :
  takeInflight k (inflight w) = Some rest ->
  step (PollSettled k o) w = Some (pollSettled k o (setInflight rest w)).
Proof. intros E. cbn [step]. now rewrite E. Qed.

Lemma act_timersFresh (a : Page.action) (p p' : Page.Page) :
  Page.act a p = Some p' ->
  timersFresh (Page.world p) -> timersFresh (Page.world p').
Proof.
  intros Hact F. act_cases Hact.
  - destruct (switchTo_world t p) as [-> | ->]; [exact F|].
    now apply (timersFresh_outside (Page.world p)).
  - exact (step_timersFresh e _ _ Estep F).
  - destruct (handleDeploy_start_outside f (Page.world p)) as (T & N & I & _).
    now apply (timersFresh_outside (Page.world p)).
  - now apply (timersFresh_outside (Page.world p)).
  - destruct (runCallback_outside (Page.live n p) (handleDeploy_uploaded f o)
                (Page.world p)) as (T & N & I & _).
    destruct (handleDeploy_uploaded_outside f o (Page.world p))
      as (T' & N' & I' & _).
    apply (timersFresh_outside (Page.world p)); [| | |exact F]; congruence.
  - destruct (runCallback_outside (Page.live n p) (handleDeploy_launched o)
                (Page.world p)) as (T & N & I & _).
    destruct (handleDeploy_launched_outside o (Page.world p))
      as (I' & _ & T' & N').
    destruct o as [d|err].
    + destruct F as [HT HI]. unfold timersFresh. rewrite T, N, I, T', N', I'.
      split.
      * intros j id Hin. apply in_app_or in Hin. destruct Hin as [Hin|[Hin|[]]].
        -- specialize (HT j id Hin). lia.
        -- apply (f_equal fst) in Hin. cbn [fst] in Hin. lia.
      * intros j Hin. specialize (HI j Hin). lia.
    + apply (timersFresh_outside (Page.world p)); [| | |exact F]; congruence.
  - exact (step_timersFresh (Tick k) _ _ Epoll F).
  - destruct (runCallback_outside (Page.liveTimer k p)
                (fun w => w |> setInflight rest |> pollSettled k o)
                (Page.world p)) as (T & N & I & _).
    pose proof (step_timersFresh (PollSettled k o) _ _
                  (step_PollSettled k o rest (Page.world p) Etake) F) as F'.
    now apply (timersFresh_outside
                 (pollSettled k o (setInflight rest (Page.world p)))).
Qed.

(** ** The requests of the page *)

Lemma launchAfterUpload_more (up up' : list File) (l : list request) :
  (forall f, In f up -> In f up') ->
  launchAfterUpload up l = true -> launchAfterUpload up' l = true.
Proof.
  revert up up'. induction l as [|r l IH]; intros up up' Hsub H; [reflexivity|].
  destruct r as [g|u a|id]; cbn [launchAfterUpload] in *.
  - apply (IH (g :: up)); [|exact H].
    intros f [Hf|Hf]; [now left|right; auto].
  - apply andb_true_iff in H. destruct H as [H1 H2].
    apply andb_true_iff. split; [|now apply (IH up)].
    apply existsb_exists in H1. destruct H1 as (f & Hf & E).
    apply existsb_exists. exists f. split; auto.
  - now apply (IH up).
Qed.

Lemma launchAfterUpload_snoc (up : list File) (l : list request) (r : request) :
  launchAfterUpload up l = true ->
  match r with
  | StartReq _ a => exists f, a = appName f /\ (In f up \/ In (UploadReq f) l)
  | _ => True
  end ->
  launchAfterUpload up (l ++ [r]) = true.
Proof.
  revert up. induction l as [|q l IH]; intros up H Hr.
  - destruct r as [g|u a|id]; cbn [app launchAfterUpload]; [reflexivity| |reflexivity].
    destruct Hr as (f & -> & [Hf|[]]).
    apply andb_true_iff. split; [|reflexivity].
    apply existsb_exists. exists f. split; [exact Hf|apply String.eqb_refl].
  - destruct q as [g|u a|id]; cbn [app launchAfterUpload] in *.
    + apply IH; [exact H|].
      destruct r as [g'|u a|id]; [exact I| |exact I].
      destruct Hr as (f & -> & [Hf|[Hf|Hf]]); exists f; split; try reflexivity.
      * left. now right.
      * left. left. congruence.
      * now right.
    + apply andb_true_iff in H. destruct H as [H1 H2].
      apply andb_true_iff. split; [exact H1|]. apply IH; [exact H2|].
      destruct r as [g'|u' a'|id]; [exact I| |exact I].
      destruct Hr as (f & -> & [Hf|[Hf|Hf]]); exists f; split; try reflexivity.
      * now left.
      * discriminate Hf.
      * now right.
    + apply IH; [exact H|].
      destruct r as [g'|u' a'|id']; [exact I| |exact I].
      destruct Hr as (f & -> & [Hf|[Hf|Hf]]); exists f; split; try reflexivity.
      * now left.
      * discriminate Hf.
      * now right.
Qed.

(** What one action adds to the requests sent. *)
Lemma act_sent (a : Page.action) (p p' : Page.Page) :
  Page.act a p = Some p' ->
  sent (Page.world p') = sent (Page.world p)
  \/ (exists f, a = Page.DeployClicked /\ file (ui (Page.world p)) = Some f
                /\ sent (Page.world p') = sent (Page.world p) ++ [UploadReq f])
  \/ (exists i n f u, a = Page.UploadSettled i (Resolved u)
                      /\ nth_error (Page.awaiting p) i
                         = Some (n, Page.AwaitUpload f)
                      /\ sent (Page.world p')
                         = sent (Page.world p)
                           ++ [StartReq (upload_id u) (appName f)])
  \/ (exists k id, a = Page.TimerFired k
                   /\ timerId k (timers (Page.world p)) = Some id
                   /\ sent (Page.world p')
                      = sent (Page.world p) ++ [StatusReq id]).
Proof.
  intros Hact. act_cases Hact.
  - left. now destruct (switchTo_world t p) as [-> | ->].
  - apply andb_true_iff in Eui. destruct Eui as [_ Eui].
    destruct (step_sent e _ _ Estep)
      as [S|[(k & id & -> & _)|(g & up & st & -> & _)]];
      [now left|discriminate Eui|discriminate Eui].
  - right. left. exists f. split; [reflexivity|]. split; [reflexivity|].
    now destruct (handleDeploy_start_outside f (Page.world p)) as (_ & _ & _ & ->).
  - now left.
  - destruct (runCallback_outside (Page.live n p) (handleDeploy_uploaded f o)
                (Page.world p)) as (_ & _ & _ & ->).
    destruct (handleDeploy_uploaded_outside f o (Page.world p))
      as (_ & _ & _ & ->).
    destruct o as [u|err]; [|now left].
    right. right. left. exists i, n, f, u. repeat split. exact Enth.
  - left.
    destruct (runCallback_outside (Page.live n p) (handleDeploy_launched o)
                (Page.world p)) as (_ & _ & _ & ->).
    now destruct (handleDeploy_launched_outside o (Page.world p)) as (_ & -> & _).
  - right. right. right. unfold pollRequest in Epoll.
    destruct (timerId k (timers (Page.world p))) as [id|] eqn:E; [|discriminate].
    some_inv Epoll. exists k, id. split; [reflexivity|]. split; [exact E|].
    reflexivity.
  - left.
    destruct (runCallback_outside (Page.liveTimer k p)
                (fun w => w |> setInflight rest |> pollSettled k o)
                (Page.world p)) as (_ & _ & _ & ->).
    now destruct (pollSettled_ui_cases k o (setInflight rest (Page.world p)))
      as (-> & _).
Qed.

Lemma switchTo_frame (t : string) (p : Page.Page) :
  Page.awaiting (Page.switchTo t p) = Page.awaiting p
  /\ Page.owners (Page.switchTo t p) = Page.owners p
  /\ sent (Page.world (Page.switchTo t p)) = sent (Page.world p)
  /\ timers (Page.world (Page.switchTo t p)) = timers (Page.world p)
  /\ nextTimer (Page.world (Page.switchTo t p)) = nextTimer (Page.world p)
  /\ inflight (Page.world (Page.switchTo t p)) = inflight (Page.world p).
Proof.
  unfold Page.switchTo.
  destruct (Page.mounted p); destruct (String.eqb t "deploy");
    unfold_page; unfold_world; repeat split.
Qed.

Lemma uiEvent_sent (e : event) (w w' : World) :
  Page.isUiEvent e = true -> step e w = Some w' -> sent w' = sent w.
Proof.
  intros Hui Hstep.
  destruct (step_sent e _ _ Hstep)
    as [S|[(k & id & -> & _)|(g & up & st & -> & _)]];
    [exact S|discriminate Hui|discriminate Hui].
Qed.

(** The launch requests of a page come after the uploads they belong
    to, whatever happens between the awaits. *)
Lemma act_requestsOrdered (a : Page.action) (p p' : Page.Page) :
  Page.act a p = Some p' ->
  Page.uploadsSent p /\ launchAfterUpload [] (sent (Page.world p)) = true ->
  Page.uploadsSent p' /\ launchAfterUpload [] (sent (Page.world p')) = true.
Proof.
  intros Hact [U L]. unfold Page.uploadsSent in *. act_cases Hact.
  - destruct (switchTo_frame t p) as (-> & _ & -> & _). now split.
  - apply andb_true_iff in Eui. destruct Eui as [_ Eui].
    rewrite (uiEvent_sent e _ _ Eui Estep). now split.
  - destruct (handleDeploy_start_outside f (Page.world p)) as (_ & _ & _ & ->).
    split.
    + intros n g Hin. apply in_or_app. apply in_app_or in Hin.
      destruct Hin as [Hin|[Hin|[]]]; [left; eauto|right].
      left. congruence.
    + now apply launchAfterUpload_snoc.
  - now split.
  - destruct (runCallback_outside (Page.live n p) (handleDeploy_uploaded f o)
                (Page.world p)) as (_ & _ & _ & ->).
    destruct (handleDeploy_uploaded_outside f o (Page.world p))
      as (_ & _ & _ & ->).
    destruct o as [u|err].
    + split.
      * intros m g Hin. apply in_or_app. left.
        apply In_replaceAt in Hin. destruct Hin as [Hin|Hin]; [discriminate|].
        eauto.
      * apply launchAfterUpload_snoc; [exact L|].
        exists f. split; [reflexivity|right].
        apply (U n). exact (nth_error_In _ _ Enth).
    + split; [|exact L]. intros m g Hin. apply In_removeAt in Hin. eauto.
  - destruct (runCallback_outside (Page.live n p) (handleDeploy_launched o)
                (Page.world p)) as (_ & _ & _ & ->).
    destruct (handleDeploy_launched_outside o (Page.world p)) as (_ & -> & _).
    split; [|exact L]. intros m g Hin. apply In_removeAt in Hin. eauto.
  - unfold pollRequest in Epoll.
    destruct (timerId k (timers (Page.world p))) as [id|]; [|discriminate].
    some_inv Epoll. unfold_world. split.
    + intros n g Hin. apply in_or_app. left. eauto.
    + now apply launchAfterUpload_snoc.
  - destruct (runCallback_outside (Page.liveTimer k p)
                (fun w => w |> setInflight rest |> pollSettled k o)
                (Page.world p)) as (_ & _ & _ & ->).
    destruct (pollSettled_ui_cases k o (setInflight rest (Page.world p)))
      as (-> & _).
    now split.
Qed.

(** ** Instances *)










(** ** Runs in which nothing comes between the awaits *)

Lemma uiEvent_nextTimer (e : event) (w w' : World) :
  Page.isUiEvent e = true -> step e w = Some w' -> nextTimer w' = nextTimer w.
Proof.
  intros Hui Hstep. destruct e; try discriminate Hui; cbn [step] in Hstep.
  - destruct (uploadAreaShown (ui w)); [|discriminate]. some_inv Hstep.
    now destruct (handleFileSelect_frame selected w) as (_ & -> & _).
  - destruct (uploadAreaShown (ui w)); [|discriminate]. some_inv Hstep.
    unfold handleDrop.
    now destruct (handleFileSelect_frame (hd_error files) (setDragOver false w))
      as (_ & -> & _).
  - destruct (uploadAreaShown (ui w)); [|discriminate]. now some_inv Hstep.
  - destruct (uploadAreaShown (ui w)); [|discriminate]. now some_inv Hstep.
  - destruct (resetButtonShown (ui w)); [|discriminate]. now some_inv Hstep.
Qed.

Lemma settled_live (p : Page.Page) :
  Page.settled p -> Page.live (Page.instance p) p = true.
Proof.
  intros (Hm & _). unfold Page.live. rewrite Hm. cbn [andb]. apply Nat.eqb_refl.
Qed.

(** One event of the component, with the awaits of a submission
    settling at once, is a run of the page. *)
Lemma step_is_play (e : event) (p : Page.Page) (w' : World) :
  Page.settled p -> timersFresh (Page.world p) ->
  step e (Page.world p) = Some w' ->
  exists p', Page.play (Page.actionsOf e) p = Some p'
             /\ Page.world p' = w' /\ Page.settled p'.
Proof.
  intros S F Hstep. pose proof (settled_live p S) as Hlive.
  destruct S as (Hm & Ha & Ho & Hk).
  assert (Hui : Page.isUiEvent e = true ->
                exists p', Page.play [Page.Ui e] p = Some p'
                           /\ Page.world p' = w' /\ Page.settled p').
  { intros Eui. exists (Page.setWorld w' p).
    cbn [Page.play Page.act]. rewrite Hm, Eui, Hstep. cbn [andb].
    split; [reflexivity|]. split; [reflexivity|].
    pose proof (uiEvent_nextTimer e _ _ Eui Hstep) as N.
    unfold Page.settled, Page.mounted in *. unfold_page. rewrite N.
    repeat split; assumption. }
  destruct e; try (apply Hui; reflexivity); clear Hui.
  - cbn [step] in Hstep.
    destruct (deployButtonEnabled (ui (Page.world p))) eqn:En; [|discriminate].
    some_inv Hstep.
    destruct (file (ui (Page.world p))) as [f|] eqn:Ef;
      [|unfold deployButtonEnabled in En; rewrite Ef in En;
        rewrite andb_false_r in En; discriminate En].
    rewrite (handleDeploy_composed f up st _ Ef).
    destruct (handleDeploy_start_outside f (Page.world p)) as (_ & N1 & _).
    assert (Hm' : String.eqb (Page.activeTab p) "deploy" = true) by exact Hm.
    destruct up as [u|err]; [destruct st as [d|err]|];
      cbn [Page.actionsOf Page.play Page.act];
      rewrite Hm, En, Ef, Ha; cbn [andb app nth_error]; unfold_page;
      cbn [Page.replaceAt Page.removeAt nth_error];
      unfold Page.live, Page.mounted; unfold_page;
      rewrite ?Hm', ?Nat.eqb_refl; cbn [andb]; unfold Page.runCallback.
    + eexists. split; [reflexivity|]. split; [reflexivity|].
      unfold Page.settled, Page.mounted in *. unfold_page.
      destruct (handleDeploy_uploaded_outside f (Resolved u)
                  (handleDeploy_start f (Page.world p))) as (_ & N2 & _).
      destruct (handleDeploy_launched_outside (Resolved d)
                  (handleDeploy_uploaded f (Resolved u)
                     (handleDeploy_start f (Page.world p))))
        as (_ & _ & _ & N3).
      rewrite N3, N2, N1. split; [exact Hm|]. split; [reflexivity|]. split.
      * intros k Hlt. destruct (Nat.eq_dec k (nextTimer (Page.world p))) as [->|Hne].
        -- apply ownerOf_app_new.
           destruct (Page.ownerOf (nextTimer (Page.world p)) (Page.owners p))
             as [n|] eqn:E; [|reflexivity].
           apply ownerOf_In in E. specialize (Hk _ _ E). lia.
        -- rewrite ownerOf_app_other; [apply Ho; lia|lia].
      * intros k n Hin. apply in_app_or in Hin.
        destruct Hin as [Hin|[Hin|[]]]; [specialize (Hk _ _ Hin); lia|].
        apply (f_equal fst) in Hin. cbn [fst] in Hin. lia.
    + eexists. split; [reflexivity|]. split; [reflexivity|].
      unfold Page.settled, Page.mounted in *. unfold_page.
      destruct (handleDeploy_uploaded_outside f (Resolved u)
                  (handleDeploy_start f (Page.world p))) as (_ & N2 & _).
      destruct (handleDeploy_launched_outside (@Rejected StartResponse err)
                  (handleDeploy_uploaded f (Resolved u)
                     (handleDeploy_start f (Page.world p))))
        as (_ & _ & _ & N3).
      rewrite N3, N2, N1. repeat split; assumption.
    + eexists. split; [reflexivity|]. split; [reflexivity|].
      unfold Page.settled, Page.mounted in *. unfold_page.
      destruct (handleDeploy_uploaded_outside f (@Rejected UploadResponse err)
                  (handleDeploy_start f (Page.world p))) as (_ & N2 & _).
      rewrite N2, N1. repeat split; assumption.
  - cbn [step] in Hstep. exists (Page.setWorld w' p).
    cbn [Page.actionsOf Page.play Page.act]. rewrite Hstep.
    split; [reflexivity|]. split; [reflexivity|].
    unfold pollRequest in Hstep.
    destruct (timerId k (timers (Page.world p))); [|discriminate].
    some_inv Hstep.
    unfold Page.settled, Page.mounted in *. unfold_page. unfold_world.
    repeat split; assumption.
  - cbn [step] in Hstep.
    destruct (takeInflight k (inflight (Page.world p))) as [rest|] eqn:E;
      [|discriminate].
    some_inv Hstep.
    assert (L : Page.liveTimer k p = true).
    { unfold Page.liveTimer. rewrite Ho; [exact Hlive|].
      destruct F as [_ FI]. apply FI.
      exact (proj1 (takeInflight_In k _ _ E)). }
    cbn [Page.actionsOf Page.play Page.act]. rewrite E, L.
    unfold Page.runCallback. eexists.
    split; [reflexivity|]. split; [reflexivity|].
    destruct (pollSettled_timers k o (setInflight rest (Page.world p)))
      as (N & _).
    unfold Page.settled, Page.mounted in *. unfold_page. rewrite N.
    unfold_world. repeat split; assumption.
Qed.

Lemma run_is_play (es : list event) (p : Page.Page) (w' : World) :
  Page.settled p -> timersFresh (Page.world p) ->
  run es (Page.world p) = Some w' ->
  exists p', Page.play (flat_map Page.actionsOf es) p = Some p'
             /\ Page.world p' = w' /\ Page.settled p'.
Proof.
  revert p. induction es as [|e es IH]; intros p S F Hrun; cbn [run] in Hrun.
  - some_inv Hrun. exists p. split; [reflexivity|]. split; [reflexivity|exact S].
  - destruct (step e (Page.world p)) as [w1|] eqn:E; [|discriminate].
    destruct (step_is_play e p w1 S F E) as (p1 & P1 & W1 & S1).
    subst w1. pose proof (step_timersFresh e _ _ E F) as F1.
    destruct (IH p1 S1 F1 Hrun) as (p' & P' & W' & S').
    exists p'. cbn [flat_map]. rewrite play_app, P1.
    split; [exact P'|]. split; [exact W'|exact S'].
Qed.

(** Every run of the component in which submissions settle at once is
    a run of the page: the Deploy tab is opened and the events happen
    one after the other. *)
Lemma atomic_runs_are_page_runs (es : list event) (w : World) :
  run es initialWorld = Some w ->
  exists p, Page.play (Page.ClickTab 2 :: flat_map Page.actionsOf es)
              Page.initialPage = Some p
            /\ Page.world p = w.
Proof.
  intros Hrun.
  assert (S : Page.settled (Page.switchTo "deploy" Page.initialPage)).
  { split; [reflexivity|]. split; [reflexivity|].
    split; cbn; intros; [lia|contradiction]. }
  destruct (run_is_play es (Page.switchTo "deploy" Page.initialPage) w S
              initial_timersFresh Hrun) as (p & P & W & _).
  exists p. split; [exact P|exact W].
Qed.

Lemma launchAfterUpload_In (up : list File) (l : list request)
  (u a : string) :
  launchAfterUpload up l = true -> In (StartReq u a) l ->
  exists f, a = appName f /\ (In f up \/ In (UploadReq f) l).
Proof.
  revert up. induction l as [|r l IH]; intros up H Hin; [contradiction|].
  destruct r as [g|u' a'|id]; cbn [launchAfterUpload] in H.
  - destruct Hin as [Hin|Hin]; [discriminate|].
    destruct (IH _ H Hin) as (f & E & [[Hf|Hf]|Hf]); exists f; split; auto.
    + right. left. congruence.
    + right. now right.
  - apply andb_true_iff in H. destruct H as [H1 H2].
    destruct Hin as [Hin|Hin].
    + apply existsb_exists in H1. destruct H1 as (f & Hf & E).
      apply String.eqb_eq in E. exists f. split; [congruence|now left].
    + destruct (IH _ H2 Hin) as (f & E & [Hf|Hf]); exists f; split; auto.
      right. now right.
  - destruct Hin as [Hin|Hin]; [discriminate|].
    destruct (IH _ H Hin) as (f & E & [Hf|Hf]); exists f; split; auto.
    right. now right.
Qed.


(** ** The claim about cancellation *)



(** ** Further properties of submissions *)

(** X3.  In any run of the page, whatever came between the awaits of
    the submission: when its launch request resolves, one new timer is
    started that carries the deployment id the launch returned, and no
    request is sent at that moment; when the timer fires, it asks for
    the status of exactly that id.  If the instance that submitted is
    still the one mounted, the id is stored, the log gains the
    'Deploying' line and the deploying flag is cleared, while status,
    error message and selected file stay as they were; otherwise the
    state of the page is untouched. *)
Theorem successful_launch_starts_polling (acts : list Page.action)
  (p p' : Page.Page) (i : nat) (d : StartResponse)
  (Hreach : Page.play acts Page.initialPage = Some p)
  (Hact : Page.act (Page.LaunchSettled i (Resolved d)) p = Some p') :
  timers (Page.world p')
  = timers (Page.world p) ++ [(nextTimer (Page.world p), deployment_id d)]
  /\ sent (Page.world p') = sent (Page.world p)
  /\ (exists p'' : Page.Page,
        Page.act (Page.TimerFired (nextTimer (Page.world p))) p' = Some p''
        /\ sent (Page.world p'')
           = sent (Page.world p') ++ [StatusReq (deployment_id d)]
        /\ ui (Page.world p'') = ui (Page.world p'))
  /\ (exists n : nat,
        nth_error (Page.awaiting p) i = Some (n, Page.AwaitLaunch)
        /\ if Page.live n p
           then deploymentId (ui (Page.world p')) = Some (deployment_id d)
                /\ logs (ui (Page.world p'))
                   = logs (ui (Page.world p))
                     ++ ["🚀 Deploying to Azure Container Instances..."]
                /\ deploying (ui (Page.world p')) = false
                /\ status (ui (Page.world p')) = status (ui (Page.world p))
                /\ error (ui (Page.world p')) = error (ui (Page.world p))
                /\ file (ui (Page.world p')) = file (ui (Page.world p))
           else ui (Page.world p') = ui (Page.world p)).
Proof.
  assert (F : timersFresh (Page.world p)).
  { exact (play_invariant (fun x => timersFresh (Page.world x))
             act_timersFresh acts _ _ Hreach initial_timersFresh). }
  cbn [Page.act] in Hact.
  destruct (nth_error (Page.awaiting p) i) as [[n [f|]]|] eqn:Enth;
    [discriminate| |discriminate].
  some_inv Hact. unfold_page.
  destruct (runCallback_outside (Page.live n p)
              (handleDeploy_launched (Resolved d)) (Page.world p))
    as (T & _ & _ & S).
  destruct (handleDeploy_launched_outside (Resolved d) (Page.world p))
    as (_ & S' & T' & _).
  rewrite T' in T. rewrite S' in S.
  split; [exact T|]. split; [exact S|]. split.
  - cbn [Page.act]. unfold_page. unfold pollRequest. rewrite T.
    rewrite (timerId_app_new (nextTimer (Page.world p)) (deployment_id d)
               (timers (Page.world p)) (proj1 F)).
    eexists. split; [reflexivity|]. unfold_page. unfold_world.
    split; reflexivity.
  - exists n. split; [reflexivity|]. rewrite runCallback_ui.
    destruct (Page.live n p); [|reflexivity].
    unfold handleDeploy_launched. unfold_world. repeat split.
Qed.

(** X11.  In every run of the page, whatever comes between the awaits
    of a submission, each launch request carries the app name derived
    from a file whose upload request was sent before it. *)
Theorem launch_follows_upload (acts : list Page.action) (p : Page.Page)
  (Hrun : Page.play acts Page.initialPage = Some p) :
  launchAfterUpload [] (sent (Page.world p)) = true
  /\ (forall u a : string,
        In (StartReq u a) (sent (Page.world p)) ->
        exists f : File,
          a = appName f /\ In (UploadReq f) (sent (Page.world p))).
Proof.
  assert (L : Page.uploadsSent p
              /\ launchAfterUpload [] (sent (Page.world p)) = true).
  { apply (play_invariant
             (fun x => Page.uploadsSent x
                       /\ launchAfterUpload [] (sent (Page.world x)) = true)
             act_requestsOrdered acts _ _ Hrun).
    split; [intros n f []|reflexivity]. }
  destruct L as [_ L]. split; [exact L|].
  intros u a Hin.
  destruct (launchAfterUpload_In [] _ u a L Hin) as (f & E & [[]|Hf]).
  now exists f.
Qed.

(** ** The statements about the page at concrete sessions *)


Lemma successful_launch_starts_polling_witness :
  Page.play Page.selectionBetweenAwaits Page.initialPage
  = Some (Page.after Page.selectionBetweenAwaits)
  /\ Page.act (Page.LaunchSettled 0 okStart)
       (Page.after Page.selectionBetweenAwaits)
     = Some (Page.after (Page.selectionBetweenAwaits
                         ++ [Page.LaunchSettled 0 okStart]))
  /\ timers (Page.world (Page.after (Page.selectionBetweenAwaits
                                     ++ [Page.LaunchSettled 0 okStart])))
     = timers (Page.world (Page.after Page.selectionBetweenAwaits))
       ++ [(nextTimer (Page.world (Page.after Page.selectionBetweenAwaits)),
            "d-1")]
  /\ sent (Page.world (Page.after (Page.selectionBetweenAwaits
                                   ++ [Page.LaunchSettled 0 okStart])))
     = sent (Page.world (Page.after Page.selectionBetweenAwaits))
  /\ error (ui (Page.world (Page.after (Page.selectionBetweenAwaits
                                        ++ [Page.LaunchSettled 0 okStart]))))
     = Some selectError
  /\ status (ui (Page.world (Page.after (Page.selectionBetweenAwaits
                                         ++ [Page.LaunchSettled 0 okStart]))))
     = Some "building".
Proof.
  assert (H1 : Page.play Page.selectionBetweenAwaits Page.initialPage
               = Some (Page.after Page.selectionBetweenAwaits))
    by by_evaluation.
  assert (H2 : Page.act (Page.LaunchSettled 0 okStart)
                 (Page.after Page.selectionBetweenAwaits)
               = Some (Page.after (Page.selectionBetweenAwaits
                                   ++ [Page.LaunchSettled 0 okStart])))
    by by_evaluation.
  pose proof (successful_launch_starts_polling Page.selectionBetweenAwaits
                (Page.after Page.selectionBetweenAwaits)
                (Page.after (Page.selectionBetweenAwaits
                             ++ [Page.LaunchSettled 0 okStart]))
                0 {| deployment_id := "d-1" |} H1 H2) as W.
  split; [exact H1|]. split; [exact H2|].
  split; [exact (proj1 W)|]. split; [exact (proj1 (proj2 W))|].
  split; by_evaluation.
Defined.

Lemma launch_follows_upload_witness :
  Page.play Page.selectionBetweenAwaits Page.initialPage
  = Some (Page.after Page.selectionBetweenAwaits)
  /\ launchAfterUpload []
       (sent (Page.world (Page.after Page.selectionBetweenAwaits))) = true
  /\ sent (Page.world (Page.after Page.selectionBetweenAwaits))
     = [UploadReq myApp; StartReq "u-1" "my app"].
Proof.
  assert (H1 : Page.play Page.selectionBetweenAwaits Page.initialPage
               = Some (Page.after Page.selectionBetweenAwaits))
    by by_evaluation.
  pose proof (launch_follows_upload Page.selectionBetweenAwaits
                (Page.after Page.selectionBetweenAwaits) H1) as W.
  split; [exact H1|]. split; [exact (proj1 W)|]. by_evaluation.
Defined.
